(** * AMD AI UX installer ([installer/ux_installer/install.py])

    A shallow embedding of the installer script and the properties of its
    orchestration function [main].

    The script is effectful Python: it reads and writes the file system,
    spawns processes, talks to the network and prompts the user.  It is
    embedded in a small monad that threads a [world] (file system, global
    [LOG_FILE_PATH], and the scripted answers of the environment), records
    the observable events of a run in order, and has three outcomes: a
    value, a Python [return] out of the enclosing function, or a raised
    exception. *)

From Stdlib Require Import ZArith NArith Ascii.
From stdpp Require Import gmap strings list pretty.

Local Open Scope Z_scope.

(** ** Strings *)

(** A text is a Rocq string: a sequence of characters with a code below
    256. *)
Module Str.

(** [s.endswith(suffix)] *)
Fixpoint endswith (s suffix : string) : bool :=
  if String.eqb s suffix then true
  else match s with
       | EmptyString => false
       | String _ s' => endswith s' suffix
       end.

Definition lower_char (c : ascii) : ascii :=
  let n := N_of_ascii c in
  if ((65 <=? n) && (n <=? 90))%N then ascii_of_N (n + 32) else c.

(** [s.lower()], on the ASCII letters *)
Fixpoint lower (s : string) : string :=
  match s with
  | EmptyString => EmptyString
  | String c s' => String (lower_char c) (lower s')
  end.

(** [c.isspace()], for the characters the model has, those with a code
    below 256: tab to carriage return (9 to 13), the separators 0x1c to
    0x1f, the space, NEL (0x85) and the no-break space (0xa0). *)
Definition is_space (c : ascii) : bool :=
  let n := N_of_ascii c in
  (((9 <=? n) && (n <=? 13)) || ((28 <=? n) && (n <=? 32))
   || (n =? 133) || (n =? 160))%N.

Fixpoint lstrip (s : string) : string :=
  match s with
  | EmptyString => EmptyString
  | String c s' => if is_space c then lstrip s' else s
  end.

(** [s.strip()] *)
Definition strip (s : string) : string :=
  String.rev (lstrip (String.rev (lstrip s))).

(** [s.split("\n")]: never empty, the pieces carry no newline *)
Fixpoint split_lines (s : string) : list string :=
  match s with
  | EmptyString => [EmptyString]
  | String c s' =>
      if Ascii.eqb c "010"%char then EmptyString :: split_lines s'
      else match split_lines s' with
           | l :: ls => String c l :: ls
           | [] => [String c EmptyString]
           end
  end.

(** [s.split("\n")[0]] *)
Definition first_line (s : string) : string :=
  match split_lines s with l :: _ => l | [] => EmptyString end.

(** [sep.join(parts)] *)
Fixpoint join (sep : string) (parts : list string) : string :=
  match parts with
  | [] => EmptyString
  | [x] => x
  | x :: rest => x +:+ sep +:+ join sep rest
  end.

(** [len(s)] as a byte count *)
Definition size (s : string) : Z := Z.of_nat (String.length s).

End Str.

(** ** Release feed *)

(** One entry of the [assets] list of the release feed. *)
Record asset := Asset { name : string; browser_download_url : string }.

(** The loop of [download_latest_wheel] that looks for the wheel:
<<
    wheel_asset = None
    for asset in release_info.get("assets", []):
        if asset["name"].endswith(".whl"):
            wheel_asset = asset
            break
>> *)
Fixpoint find_wheel_asset (assets : list asset) : option asset :=
  match assets with
  | [] => None
  | a :: rest =>
      if Str.endswith (name a) ".whl" then Some a else find_wheel_asset rest
  end.

(** ** The world the installer runs in *)

(** Paths are lists of components below the root, so [os.path.join] is
    list append and every path is in the normal form [os.path.normpath]
    produces.  [path_str] renders a path for messages and command lines. *)
Abbreviation path := (list string).

Definition path_str (p : path) : string := "/" +:+ Str.join "/" p.

Definition normpath (p : path) : path := p.

Inductive node := File (data : string) | Dir.

(** The file system maps the paths that exist to their node; the root
    always exists. *)
Abbreviation files := (gmap path node).

Definition node_at (f : files) (p : path) : option node :=
  match p with [] => Some Dir | _ => f !! p end.

Definition parent (p : path) : path := removelast p.

Fixpoint prefixes (p : path) : list path :=
  match p with
  | [] => []
  | c :: p' => [c] :: map (cons c) (prefixes p')
  end.

Definition is_file_node (o : option node) : bool :=
  match o with Some (File _) => true | _ => false end.

Definition is_dir_node (o : option node) : bool :=
  match o with Some Dir => true | _ => false end.

(** [os.makedirs(p, exist_ok=True)]: fails when a component is a file. *)
Definition fs_makedirs (f : files) (p : path) : option files :=
  if existsb (fun q => is_file_node (node_at f q)) (prefixes p) then None
  else Some (foldr (fun q acc => <[q := Dir]> acc) f (prefixes p)).

(** The name [c] when [q] is the entry [p/c] of the directory [p]. *)
Fixpoint child_of (p q : path) : option string :=
  match p, q with
  | [], [c] => Some c
  | a :: p', b :: q' => if String.eqb a b then child_of p' q' else None
  | _, _ => None
  end.

(** [os.listdir(p)] *)
Definition fs_listdir (f : files) (p : path) : option (list string) :=
  if is_dir_node (node_at f p)
  then Some (omap (fun kv => child_of p kv.1) (map_to_list f))
  else None.

(** [shutil.rmtree(p)]: the directory and everything below it. *)
Definition fs_rmtree (f : files) (p : path) : option files :=
  match p with
  | [] => None
  | _ => if is_dir_node (f !! p)
         then Some (filter (fun kv => ¬ p `prefix_of` kv.1) f)
         else None
  end.

(** [open(p, mode).write(data)] for the modes ["wb"]/["w"] ([append = false])
    and ["a"] ([append = true]). *)
Definition fs_write (append : bool) (f : files) (p : path) (data : string)
  : option files :=
  match p with
  | [] => None
  | _ =>
      if is_dir_node (node_at f (parent p)) then
        match f !! p with
        | Some Dir => None
        | Some (File old) =>
            Some (<[p := File (if append then old +:+ data else data)]> f)
        | None => Some (<[p := File data]> f)
        end
      else None
  end.

(** [os.path.getsize(p)] *)
Definition fs_getsize (f : files) (p : path) : option Z :=
  match node_at f p with
  | Some (File data) => Some (Str.size data)
  | Some Dir => Some 0
  | None => None
  end.

(** [os.remove(p)] *)
Definition fs_remove (f : files) (p : path) : option files :=
  if is_file_node (f !! p) then Some (delete p f) else None.

(** What a finished subprocess reports. *)
Record completed := Completed
  { returncode : Z; stdout : string; stderr : string }.

(** How the environment answers a spawn: the executable cannot be started,
    or it runs, changes the file system as it likes and exits. *)
Inductive process :=
| SpawnFails
| Runs (result : completed) (effect : files → files).

(** A JSON body, as far as the script looks into it: the ["assets"] key
    when present, and the text [json.dumps] prints. *)
Record json_body := Json { assets : option (list asset); dumps : string }.

Record response := Response
  { status_code : Z; json : option json_body; content : string; text : string }.

Inductive http := Unreachable | Responds (r : response).

Inductive exn :=
| OSError (what : string)
| EOFError
| RequestException
| HTTPError (status : Z)
| JSONDecodeError.

(** [str(e)] *)
Definition exn_str (e : exn) : string :=
  match e with
  | OSError what => "[Errno] " +:+ what
  | EOFError => "EOF when reading a line"
  | RequestException => "connection failed"
  | HTTPError s => pretty s +:+ " Error"
  | JSONDecodeError => "Expecting value"
  end.

(** The parts of the host the script asks about: [platform.system()],
    [platform.machine()], [os.path.expanduser("~")],
    [tempfile.gettempdir()] and the clock of [datetime.now()]. *)
Record host := Host
  { system : string; machine : string; home : path; tmpdir : path;
    clock : string }.

(** [w_faults] says for each fallible file-system call, in order, whether
    the operating system refuses it (in use, permission denied);
    [w_stdin] are the lines the user types; [w_procs] and [w_http] answer
    the spawns and the HTTP requests in order.  A script that runs out
    means no refusal, end of input, no such executable and no network. *)
Record world := World
  { w_host : host;
    w_fs : files;
    w_faults : list bool;
    w_stdin : list string;
    w_procs : list process;
    w_http : list http;
    LOG_FILE_PATH : option path }.

Definition with_fs (f : files) (w : world) : world :=
  World (w_host w) f (w_faults w) (w_stdin w) (w_procs w) (w_http w)
        (LOG_FILE_PATH w).
Definition with_faults (l : list bool) (w : world) : world :=
  World (w_host w) (w_fs w) l (w_stdin w) (w_procs w) (w_http w)
        (LOG_FILE_PATH w).
Definition with_stdin (l : list string) (w : world) : world :=
  World (w_host w) (w_fs w) (w_faults w) l (w_procs w) (w_http w)
        (LOG_FILE_PATH w).
Definition with_procs (l : list process) (w : world) : world :=
  World (w_host w) (w_fs w) (w_faults w) (w_stdin w) l (w_http w)
        (LOG_FILE_PATH w).
Definition with_http (l : list http) (w : world) : world :=
  World (w_host w) (w_fs w) (w_faults w) (w_stdin w) (w_procs w) l
        (LOG_FILE_PATH w).
Definition with_log_file_path (p : option path) (w : world) : world :=
  World (w_host w) (w_fs w) (w_faults w) (w_stdin w) (w_procs w) (w_http w) p.

(** ** Events *)

Inductive event :=
| ECall (f : string)                      (* a function of the script is entered *)
| EReturn (f : string) (value : string)   (* ... and returns [value] *)
| EPrint (line : string)
| EInput (prompt : string) (answer : option string)
| EMakedirs (p : path) (ok : bool)
| EListdir (p : path) (ok : bool)
| ERmtree (p : path) (ok : bool)
| EWrite (p : path) (ok : bool)
| EStat (p : path) (ok : bool)
| EChmod (p : path) (ok : bool)
| ERemove (p : path) (ok : bool)
| ESpawn (argv : list string) (result : option completed)
| EHttpGet (url : string) (timeout : option Z) (result : option response).

(** ** The monad *)

(** A computation inside a function whose [return] type is [R] yields a
    value, executes [return r], or raises. *)
Inductive outcome (R A : Type) :=
| Val (a : A)
| Ret (r : R)
| Exn (e : exn).
Arguments Val {R A} a.
Arguments Ret {R A} r.
Arguments Exn {R A} e.

Record run (R A : Type) := Run
  { out : outcome R A; st : world; evs : list event }.
Arguments Run {R A} out st evs.
Arguments out {R A} r.
Arguments st {R A} r.
Arguments evs {R A} r.

Definition M (R A : Type) : Type := world → run R A.

Definition ret {R A : Type} (a : A) : M R A := fun w => Run (Val a) w [].

Definition bind {R A B : Type} (m : M R A) (k : A → M R B) : M R B := fun w =>
  let r := m w in
  match out r with
  | Val a => let r' := k a (st r) in Run (out r') (st r') (evs r ++ evs r')
  | Ret c => Run (Ret c) (st r) (evs r)
  | Exn e => Run (Exn e) (st r) (evs r)
  end.

Declare Scope prog_scope.
Delimit Scope prog_scope with prog.
Bind Scope prog_scope with M.

Notation "x <- m ;; k" := (bind m (fun x => k))
  (at level 100, m at next level, right associativity) : prog_scope.
Notation "m ;; k" := (bind m (fun _ => k))
  (at level 100, k at level 200, right associativity) : prog_scope.

Local Open Scope prog_scope.

(** [return r] *)
Definition return_ {R A : Type} (r : R) : M R A := fun w => Run (Ret r) w [].

(** [raise e] *)
Definition raise {R A : Type} (e : exn) : M R A := fun w => Run (Exn e) w [].

(** [try: body except Exception as e: handler(e)] *)
Definition try_except {R A : Type} (body : M R A) (handler : exn → M R A) : M R A :=
  fun w =>
    let r := body w in
    match out r with
    | Exn e => let r' := handler e (st r) in
               Run (out r') (st r') (evs r ++ evs r')
    | _ => r
    end.

(** [if c: body] *)
Definition when {R : Type} (c : bool) (body : M R unit) : M R unit :=
  if c then body else ret tt.

(** [for x in xs: body(x)] *)
Fixpoint for_each {R A : Type} (xs : list A) (body : A → M R unit) : M R unit :=
  match xs with
  | [] => ret tt
  | x :: rest => body x ;; for_each rest body
  end.

Definition emit {R : Type} (e : event) : M R unit := fun w => Run (Val tt) w [e].

(** [def f(...): body].  Every path of the functions below ends in a
    [return] or a [raise], so a body has no value of its own.  The call
    and the returned value are recorded, rendered by [show]. *)
Definition def {R R' : Type} (f : string) (show : R → string) (body : M R Empty_set)
  : M R' R := fun w =>
  let r := body w in
  match out r with
  | Val a => match a with end
  | Ret c => Run (Val c) (st r) (ECall f :: evs r ++ [EReturn f (show c)])
  | Exn e => Run (Exn e) (st r) (ECall f :: evs r)
  end.

(** *** Primitive operations *)

Definition platform_system {R : Type} : M R string :=
  fun w => Run (Val (system (w_host w))) w [].
Definition platform_machine {R : Type} : M R string :=
  fun w => Run (Val (machine (w_host w))) w [].
Definition expanduser_home {R : Type} : M R path :=
  fun w => Run (Val (home (w_host w))) w [].
Definition gettempdir {R : Type} : M R path :=
  fun w => Run (Val (tmpdir (w_host w))) w [].
Definition now {R : Type} : M R string :=
  fun w => Run (Val (clock (w_host w))) w [].

Definition get_LOG_FILE_PATH {R : Type} : M R (option path) :=
  fun w => Run (Val (LOG_FILE_PATH w)) w [].
Definition set_LOG_FILE_PATH {R : Type} (p : path) : M R unit :=
  fun w => Run (Val tt) (with_log_file_path (Some p) w) [].

(** [print(line)].  The console takes every line: a [print] that fails,
    on a text the console cannot encode or on a closed pipe, is not part
    of the model. *)
Definition print {R : Type} (line : string) : M R unit := emit (EPrint line).

(** [input(prompt)] raises [EOFError] at the end of the input. *)
Definition input {R : Type} (prompt : string) : M R string := fun w =>
  match w_stdin w with
  | line :: rest => Run (Val line) (with_stdin rest w) [EInput prompt (Some line)]
  | [] => Run (Exn EOFError) w [EInput prompt None]
  end.

Definition next_fault (w : world) : bool * world :=
  match w_faults w with
  | b :: rest => (b, with_faults rest w)
  | [] => (false, w)
  end.

(** A fallible file-system call: refused by the operating system, or
    carried out as [op] says, which fails when the call makes no sense in
    the current file system.  A call that fails leaves the file system as
    it was: a call that fails half-way, as a file that is opened and
    created but then not written, is not part of the model. *)
Definition fs_call {R A : Type} (what : string) (ev : bool → event)
    (op : files → option (A * files)) : M R A := fun w =>
  let '(refused, w1) := next_fault w in
  match (if refused then None else op (w_fs w1)) with
  | Some (a, f') => Run (Val a) (with_fs f' w1) [ev true]
  | None => Run (Exn (OSError what)) w1 [ev false]
  end.

Definition path_exists {R : Type} (p : path) : M R bool :=
  fun w => Run (Val (bool_decide (is_Some (node_at (w_fs w) p)))) w [].
Definition path_isfile {R : Type} (p : path) : M R bool :=
  fun w => Run (Val (is_file_node (node_at (w_fs w) p))) w [].

Definition makedirs {R : Type} (p : path) : M R unit :=
  fs_call "makedirs" (EMakedirs p) (fun f => pair tt <$> fs_makedirs f p).
Definition listdir {R : Type} (p : path) : M R (list string) :=
  fs_call "listdir" (EListdir p) (fun f => (fun l => (l, f)) <$> fs_listdir f p).
Definition rmtree {R : Type} (p : path) : M R unit :=
  fs_call "rmtree" (ERmtree p) (fun f => pair tt <$> fs_rmtree f p).
Definition write_file {R : Type} (append : bool) (p : path) (data : string) : M R unit :=
  fs_call "open" (EWrite p) (fun f => pair tt <$> fs_write append f p data).
Definition getsize {R : Type} (p : path) : M R Z :=
  fs_call "stat" (EStat p) (fun f => (fun n => (n, f)) <$> fs_getsize f p).
Definition chmod {R : Type} (p : path) : M R unit :=
  fs_call "chmod" (EChmod p)
    (fun f => if bool_decide (is_Some (node_at f p)) then Some (tt, f) else None).
Definition remove {R : Type} (p : path) : M R unit :=
  fs_call "remove" (ERemove p) (fun f => pair tt <$> fs_remove f p).

(** [subprocess.run(argv, check=False)], and [subprocess.Popen(argv)] read
    to the end and waited for. *)
Definition subprocess_run {R : Type} (argv : list string) : M R completed := fun w =>
  match w_procs w with
  | Runs result effect :: rest =>
      Run (Val result) (with_procs rest (with_fs (effect (w_fs w)) w))
          [ESpawn argv (Some result)]
  | SpawnFails :: rest =>
      Run (Exn (OSError "spawn")) (with_procs rest w) [ESpawn argv None]
  | [] => Run (Exn (OSError "spawn")) w [ESpawn argv None]
  end.

(** [requests.get(url, timeout=...)] *)
Definition requests_get {R : Type} (url : string) (timeout : option Z) : M R response :=
  fun w =>
    match w_http w with
    | Responds r :: rest =>
        Run (Val r) (with_http rest w) [EHttpGet url timeout (Some r)]
    | Unreachable :: rest =>
        Run (Exn RequestException) (with_http rest w) [EHttpGet url timeout None]
    | [] => Run (Exn RequestException) w [EHttpGet url timeout None]
    end.

(** [response.raise_for_status()] *)
Definition raise_for_status {R : Type} (r : response) : M R unit :=
  if (400 <=? status_code r) && (status_code r <? 600)
  then raise (HTTPError (status_code r)) else ret tt.

(** [response.json()] *)
Definition response_json {R : Type} (r : response) : M R json_body :=
  match json r with
  | Some j => ret j
  | None => raise JSONDecodeError
  end.

(** ** The script *)

Definition PRODUCT_NAME : string := "AMD AI UX".
Definition PRODUCT_NAME_CONCAT : string := "AMD_AI_UX".
Definition CONDA_ENV_NAME : string := "amd_ai_ux_env".
Definition PYTHON_VERSION : string := "3.11".

Definition newline : string := String "010"%char EmptyString.
Definition dquote : string := String "034"%char EmptyString.

(** How returned values are written in [EReturn] events. *)
Definition show_bool (b : bool) : string := if b then "True" else "False".
Definition show_str (s : string) : string := "'" +:+ s +:+ "'".
Definition show_conda (r : bool * option string) : string :=
  "(" +:+ show_bool r.1 +:+ ", " +:+ from_option show_str "None" r.2 +:+ ")".
Definition show_opt_path (o : option path) : string :=
  from_option (fun p => show_str (path_str p)) "None" o.
Definition show_int (n : Z) : string := pretty n.

(** The line [log] prints and appends to the log file. *)
Definition formatted (timestamp message : string) : string :=
  "[" +:+ timestamp +:+ "] [" +:+ PRODUCT_NAME_CONCAT +:+ "-Installer] "
  +:+ message.

Definition log_ {R : Type} (message : string) (print_to_console : bool)
  : M R unit :=
  timestamp <- now ;;
  let formatted_message := formatted timestamp message in
  when print_to_console (print formatted_message) ;;
  log_file_path <- get_LOG_FILE_PATH ;;
  match log_file_path with
  | Some p =>
      try_except
        (write_file true p (formatted_message +:+ newline))
        (fun e => print ("WARNING: Failed to write to log file: " +:+ exn_str e))
  | None => ret tt
  end.

(** [log(message)], with the default [print_to_console=True] *)
Definition log {R : Type} (message : string) : M R unit := log_ message true.

Definition is_windows (sys : string) : bool := String.eqb sys "Windows".

Definition check_conda {R : Type} : M R (bool * option string) :=
  def "check_conda" show_conda (
    log "Checking if conda is installed..." ;;
    try_except (
      sys <- platform_system ;;
      result <- (if is_windows sys
                 then subprocess_run ["where"; "conda"]
                 else subprocess_run ["which"; "conda"]) ;;
      if returncode result =? 0 then
        let conda_path := Str.first_line (Str.strip (stdout result)) in
        log ("Conda found at: " +:+ conda_path) ;;
        return_ (true, Some conda_path)
      else
        log "Conda not found in PATH" ;;
        return_ (false, None))
    (fun e =>
      log ("Error checking for conda: " +:+ exn_str e) ;;
      return_ (false, None))).

(** [~/miniconda3], where [install_miniconda] puts the runtime manager. *)
Definition miniconda_path_of (h : host) : path := home h ++ ["miniconda3"].

Definition install_miniconda {R : Type} (install_dir : path)
  : M R (bool * option string) :=
  def "install_miniconda" show_conda (
    log "-------------" ;;
    log "- Miniconda -" ;;
    log "-------------" ;;
    log "Downloading Miniconda installer..." ;;
    try_except (
      sys <- platform_system ;;
      tmp <- gettempdir ;;
      mach <- platform_machine ;;
      let installer_url :=
        if is_windows sys then
          "https://repo.anaconda.com/miniconda/Miniconda3-latest-Windows-x86_64.exe"
        else if String.eqb sys "Darwin" then
          if String.eqb mach "arm64" then
            "https://repo.anaconda.com/miniconda/Miniconda3-latest-MacOSX-arm64.sh"
          else
            "https://repo.anaconda.com/miniconda/Miniconda3-latest-MacOSX-x86_64.sh"
        else
          "https://repo.anaconda.com/miniconda/Miniconda3-latest-Linux-x86_64.sh" in
      let installer_path :=
        if is_windows sys then tmp ++ ["Miniconda3-latest-Windows-x86_64.exe"]
        else if String.eqb sys "Darwin" then tmp ++ ["Miniconda3-latest-MacOSX.sh"]
        else tmp ++ ["Miniconda3-latest-Linux-x86_64.sh"] in
      log ("Downloading from: " +:+ installer_url) ;;
      response <- requests_get installer_url None ;;
      raise_for_status response ;;
      write_file false installer_path (content response) ;;
      log ("Downloaded installer to: " +:+ path_str installer_path) ;;
      user_home <- expanduser_home ;;
      conda_path <-
        (if is_windows sys then
           let miniconda_path := user_home ++ ["miniconda3"] in
           log ("Installing Miniconda to: " +:+ path_str miniconda_path) ;;
           result <- subprocess_run
             [path_str installer_path; "/InstallationType=JustMe";
              "/AddToPath=1"; "/RegisterPython=0"; "/S";
              "/D=" +:+ path_str miniconda_path] ;;
           when (negb (returncode result =? 0)) (
             log ("Miniconda installation failed with code: "
                  +:+ pretty (returncode result)) ;;
             return_ (false, None)) ;;
           ret (path_str (miniconda_path ++ ["Scripts"; "conda.exe"]))
         else
           let miniconda_path := user_home ++ ["miniconda3"] in
           log ("Installing Miniconda to: " +:+ path_str miniconda_path) ;;
           chmod installer_path ;;
           result <- subprocess_run
             [path_str installer_path; "-b"; "-p"; path_str miniconda_path] ;;
           when (negb (returncode result =? 0)) (
             log ("Miniconda installation failed with code: "
                  +:+ pretty (returncode result)) ;;
             return_ (false, None)) ;;
           ret (path_str (miniconda_path ++ ["bin"; "conda"]))) ;;
      log "Miniconda installation completed successfully" ;;
      log "Initializing conda..." ;;
      (if is_windows sys then
         subprocess_run [conda_path; "init"] ;; ret tt
       else
         subprocess_run [conda_path; "init"; "bash"] ;;
         subprocess_run [conda_path; "init"; "zsh"] ;; ret tt) ;;
      return_ (true, Some conda_path))
    (fun e =>
      log ("Error installing Miniconda: " +:+ exn_str e) ;;
      return_ (false, None))).

Definition create_conda_env {R : Type}
    (conda_path : string) (env_path : path) (python_version : string)
  : M R bool :=
  def "create_conda_env" show_bool (
    log "---------------------" ;;
    log "- Conda Environment -" ;;
    log "---------------------" ;;
    try_except (
      log ("Creating a Python " +:+ python_version +:+ " environment at: "
           +:+ path_str env_path) ;;
      result <- subprocess_run
        [conda_path; "create"; "-p"; path_str env_path;
         "python=" +:+ python_version; "-y"] ;;
      when (negb (returncode result =? 0)) (
        log ("Failed to create conda environment: " +:+ stderr result) ;;
        return_ false) ;;
      log ("Successfully created conda environment at: " +:+ path_str env_path) ;;
      return_ true)
    (fun e =>
      log ("Error creating conda environment: " +:+ exn_str e) ;;
      return_ false)).

Definition api_url : string :=
  "https://api.github.com/repos/aigdat/open-webui/releases/latest".

(** The smallest size, in bytes, a downloaded wheel may have. *)
Definition MIN_WHEEL_SIZE : Z := 10000.

(** [os.path.join(output_folder, final_filename)] is the entry
    [final_filename] of [output_folder], which it is for a plain file
    name; where a name with a separator, [..] or a drive would lead is
    not part of the model. *)
Definition download_latest_wheel {R : Type}
    (output_folder : path) (output_filename : option string)
  : M R (option path) :=
  def "download_latest_wheel" show_opt_path (
    log "******************************" ;;
    log "* Open WebUI Download Module *" ;;
    log "******************************" ;;
    log "Downloading the latest Open WebUI wheel file..." ;;
    makedirs output_folder ;;
    log ("Fetching latest release information from: " +:+ api_url) ;;
    try_except (
      response <- requests_get api_url (Some 30) ;;
      if status_code response =? 200 then
        release_info <- response_json response ;;
        match find_wheel_asset (default [] (assets release_info)) with
        | Some wheel_asset =>
            let wheel_url := browser_download_url wheel_asset in
            let wheel_name := name wheel_asset in
            log ("Found wheel file: " +:+ wheel_name) ;;
            log ("Download URL: " +:+ wheel_url) ;;
            let final_filename :=
              match output_filename with
              | Some (String c s) => String c s
              | _ => wheel_name
              end in
            let output_path := output_folder ++ [final_filename] in
            log ("Downloading wheel file to: " +:+ path_str output_path) ;;
            wheel_response <- requests_get wheel_url (Some 60) ;;
            if status_code wheel_response =? 200 then
              write_file false output_path (content wheel_response) ;;
              file_size <- getsize output_path ;;
              log ("Downloaded file size: " +:+ pretty file_size +:+ " bytes") ;;
              when (file_size <? MIN_WHEEL_SIZE) (
                log "ERROR: Downloaded file is too small, likely not a valid wheel file" ;;
                return_ None) ;;
              log ("Successfully downloaded wheel file to: "
                   +:+ path_str output_path) ;;
              return_ (Some output_path)
            else
              log ("Failed to download wheel file. Status code: "
                   +:+ pretty (status_code wheel_response))
        | None => log "No wheel file found in the latest release assets"
        end
      else
        log ("Failed to fetch release information. Status code: "
             +:+ pretty (status_code response)) ;;
        try_except (
          error_info <- response_json response ;;
          log ("Error details: " +:+ dumps error_info))
        (fun e =>
          log ("Response content: " +:+ text response +:+ " with error: "
               +:+ exn_str e)))
    (fun e => log ("Error during API request or download: " +:+ exn_str e)) ;;
    return_ None).

Definition install_wheel {R : Type} (wheel_path python_path : path) : M R bool :=
  def "install_wheel" show_bool (
    log "******************************" ;;
    log "* Wheel File Installation *" ;;
    log "******************************" ;;
    let wheel_path := normpath wheel_path in
    try_except (
      log ("Installing wheel from: " +:+ path_str wheel_path) ;;
      log "This may take a few minutes. Please wait..." ;;
      process <- subprocess_run
        [path_str python_path; "-m"; "pip"; "install"; path_str wheel_path;
         "--verbose"] ;;
      for_each (Str.split_lines (stdout process)) (fun line =>
        let line := Str.strip line in
        when (negb (String.eqb line EmptyString)) (log line)) ;;
      let return_code := returncode process in
      if return_code =? 0 then
        log "Open WebUI wheel file successfully installed" ;;
        log "Installation completed successfully" ;;
        return_ true
      else
        log "ERROR: Failed to install Open WebUI wheel file" ;;
        log ("Pip installation returned error code: " +:+ pretty return_code) ;;
        return_ false)
    (fun e =>
      log ("ERROR: Exception during pip installation: " +:+ exn_str e) ;;
      return_ false)).

Definition create_shortcuts {R : Type} (install_dir env_path : path) : M R bool :=
  def "create_shortcuts" show_bool (
    log "Creating shortcuts..." ;;
    try_except (
      sys <- platform_system ;;
      if is_windows sys then
        user_home <- expanduser_home ;;
        tmp <- gettempdir ;;
        let desktop_path := user_home ++ ["Desktop"] in
        let shortcut_path := desktop_path ++ ["AMD-AI-UX.lnk"] in
        let ps_command :=
          newline
          +:+ "            $WshShell = New-Object -comObject WScript.Shell" +:+ newline
          +:+ "            $Shortcut = $WshShell.CreateShortcut(" +:+ dquote
          +:+ path_str shortcut_path +:+ dquote +:+ ")" +:+ newline
          +:+ "            $Shortcut.TargetPath = " +:+ dquote +:+ "cmd.exe"
          +:+ dquote +:+ newline
          +:+ "            $Shortcut.Arguments = " +:+ dquote
          +:+ "/C conda activate " +:+ path_str env_path
          +:+ " > NUL 2>&1 && start " +:+ dquote +:+ dquote
          +:+ " http://localhost:8080" +:+ dquote +:+ newline
          +:+ "            $Shortcut.Save()" +:+ newline
          +:+ "            " in
        let ps_script_path := tmp ++ ["create_shortcut.ps1"] in
        write_file false ps_script_path ps_command ;;
        result <- subprocess_run
          ["powershell"; "-ExecutionPolicy"; "Bypass"; "-File";
           path_str ps_script_path] ;;
        (if negb (returncode result =? 0) then
           log ("PowerShell script failed with return code: "
                +:+ pretty (returncode result)) ;;
           log ("PowerShell script stdout: " +:+ stdout result) ;;
           log ("PowerShell script stderr: " +:+ stderr result)
         else
           log "PowerShell script executed successfully") ;;
        remove ps_script_path ;;
        log ("Created desktop shortcut at: " +:+ path_str shortcut_path) ;;
        return_ true
      else
        log "Shortcut creation not implemented for this platform" ;;
        return_ true)
    (fun e =>
      log ("Error creating shortcuts: " +:+ exn_str e) ;;
      return_ false)).

(** The parsed command line: [--install-dir], [--no-shortcuts], [-y/--yes]. *)
Record args := Args { install_dir : path; no_shortcuts : bool; yes : bool }.

Definition log_file_of (install_dir : path) : path :=
  install_dir ++ [PRODUCT_NAME_CONCAT +:+ "_install.log"].

Definition cleanup_prompt : string :=
  "Would you like to remove it and continue with the installation? (y/n): ".
Definition conda_prompt : string :=
  "Conda is not installed. Would you like to install Miniconda? (y/n): ".

(** [user_input.lower() != 'y'] *)
Definition declined (user_input : string) : bool :=
  negb (String.eqb (Str.lower user_input) "y").

(** The path in a result of [check_conda] or [install_miniconda]; the
    functions return [None] only together with [False], and then the path
    is not used. *)
Definition path_of (conda_path : option string) : string :=
  default "None" conda_path.

Definition env_remove_argv (conda_path : string) (env_path : path) : list string :=
  [conda_path; "env"; "remove"; "-p"; path_str env_path; "-y"].

(** [main], from "Remove existing installation" to the end of the
    [if os.path.exists(install_dir) and os.listdir(install_dir)] block. *)
Definition main_remove_existing (install_dir : path) : M Z unit :=
  log "Removing existing installation..." ;;
  let env_path := install_dir ++ [CONDA_ENV_NAME] in
  env_exists <- path_exists env_path ;;
  when env_exists (
    r <- check_conda ;;
    let conda_installed := r.1 in
    let conda_path := r.2 in
    when conda_installed (
      subprocess_run (env_remove_argv (path_of conda_path) env_path) ;; ret tt)) ;;
  try_except (
    rmtree install_dir ;;
    makedirs install_dir ;;
    log "Deleted all contents of install directory")
  (fun e =>
    log ("Failed to remove existing installation: " +:+ exn_str e) ;;
    log "Please close any applications using AMD AI UX and try again" ;;
    return_ 1).

(** [main], from "Check if directory already exists and has content" to
    the end of that block. *)
Definition main_preflight (a : args) (install_dir : path) : M Z unit :=
  found <- (e <- path_exists install_dir ;;
            if e then
              entries <- listdir install_dir ;;
              ret (match entries with [] => false | _ => true end)
            else ret false) ;;
  when found (
    log ("An existing installation was found at: " +:+ path_str install_dir) ;;
    (if negb (yes a) then
       user_input <- input cleanup_prompt ;;
       when (declined user_input) (
         log "Installation cancelled by user" ;;
         return_ 1)
     else
       log "Automatically removing existing installation due to '--yes' flag") ;;
    main_remove_existing install_dir).

(** [main], from the wheel download to the end. *)
Definition main_wheel (a : args) (install_dir env_path python_path : path)
  : M Z Empty_set :=
  let wheels_dir := install_dir ++ ["wheels"] in
  makedirs wheels_dir ;;
  wheel_path <- download_latest_wheel wheels_dir None ;;
  match wheel_path with
  | None =>
      log "Failed to download Open WebUI wheel file. Please check your internet connection and try again." ;;
      return_ 1
  | Some wheel_path =>
      is_file <- path_isfile wheel_path ;;
      when (negb is_file) (
        log "Failed to download Open WebUI wheel file. Please check your internet connection and try again." ;;
        return_ 1) ;;
      install_success <- install_wheel wheel_path python_path ;;
      when (negb install_success) (
        log "Failed to install Open WebUI wheel file. Please check the logs for details." ;;
        return_ 1) ;;
      when (negb (no_shortcuts a)) (
        shortcut_success <- create_shortcuts install_dir env_path ;;
        when (negb shortcut_success) (
          log "Warning: Failed to create shortcuts")) ;;
      log "*** INSTALLATION COMPLETED ***" ;;
      log (PRODUCT_NAME +:+ " installation completed successfully!") ;;
      log ("You can start " +:+ PRODUCT_NAME +:+ " by running:") ;;
      log ("  conda activate " +:+ path_str env_path) ;;
      log "  open-webui" ;;
      log "Or by using the desktop shortcut if created" ;;
      return_ 0
  end.

(** [main], from "Check if conda is installed" on. *)
Definition main_install (a : args) (install_dir : path) : M Z Empty_set :=
  r <- check_conda ;;
  let conda_installed := r.1 in
  conda_path <-
    (if negb conda_installed then
       log "Conda not installed" ;;
       when (negb (yes a)) (
         user_input <- input conda_prompt ;;
         when (declined user_input) (
           log "Installation cancelled by user" ;;
           return_ 1)) ;;
       r' <- install_miniconda install_dir ;;
       let miniconda_success := r'.1 in
       when (negb miniconda_success) (
         log "Failed to install Miniconda. Installation will be aborted." ;;
         return_ 1) ;;
       ret r'.2
     else ret r.2) ;;
  let env_path := install_dir ++ [CONDA_ENV_NAME] in
  env_success <- create_conda_env (path_of conda_path) env_path PYTHON_VERSION ;;
  when (negb env_success) (
    log "Failed to create the Python environment. Installation will be aborted." ;;
    return_ 1) ;;
  sys <- platform_system ;;
  let python_path :=
    if is_windows sys then env_path ++ ["python.exe"]
    else env_path ++ ["bin"; "python"] in
  main_wheel a install_dir env_path python_path.

(** [main()], given the parsed arguments; its value is the exit code
    handed to [sys.exit]. *)
Definition main_body (a : args) : M Z Empty_set :=
  let install_dir := normpath (install_dir a) in
  set_LOG_FILE_PATH (log_file_of install_dir) ;;
  makedirs install_dir ;;
  log "*** INSTALLATION STARTED ***" ;;
  log ("Installing " +:+ PRODUCT_NAME +:+ " to: " +:+ path_str install_dir) ;;
  main_preflight a install_dir ;;
  main_install a install_dir.

Definition main (a : args) : M Empty_set Z := def "main" show_int (main_body a).

(** [main], from its first statement to the end of the pre-flight
    cleanup: what runs before "Check if conda is installed". *)
Definition main_cleanup (a : args) : M Z unit :=
  let install_dir := normpath (install_dir a) in
  set_LOG_FILE_PATH (log_file_of install_dir) ;;
  makedirs install_dir ;;
  log "*** INSTALLATION STARTED ***" ;;
  log ("Installing " +:+ PRODUCT_NAME +:+ " to: " +:+ path_str install_dir) ;;
  main_preflight a install_dir.

(** ** Sample runs *)

Definition linux : host :=
  Host "Linux" "x86_64" ["home"; "u"] ["tmp"] "2025-01-01 00:00:00".

Definition conda_found : process :=
  Runs (Completed 0 ("/usr/bin/conda" +:+ newline) EmptyString) id.
Definition exits (code : Z) : process := Runs (Completed code EmptyString EmptyString) id.

Definition blob (n : N) : string := N.iter n (String "x"%char) EmptyString.

Definition feed (sz : N) : list http :=
  [Responds (Response 200
     (Some (Json (Some [Asset "open_webui.whl" "https://example.org/w"]) "{}"))
     EmptyString EmptyString);
   Responds (Response 200 None (blob sz) EmptyString)].

Definition target : path := ["home"; "u"; "AMD_AI_UX"].

(** The user's home exists, the target directory does not. *)
Definition fresh_fs : files := {[ ["home"] := Dir; ["home"; "u"] := Dir ]}.

Definition fresh_world : world :=
  World linux fresh_fs [] ["y"]
        [conda_found; exits 0; exits 0] (feed 50000) None.

(** ** Vocabulary of the specification *)

Global Instance asset_eq_dec : EqDecision asset.
Proof. solve_decision. Defined.
Global Instance json_body_eq_dec : EqDecision json_body.
Proof. solve_decision. Defined.
Global Instance response_eq_dec : EqDecision response.
Proof. solve_decision. Defined.
Global Instance completed_eq_dec : EqDecision completed.
Proof. solve_decision. Defined.
Global Instance event_eq_dec : EqDecision event.
Proof. solve_decision. Defined.

(** Every event of a computation satisfies [φ]. *)
Definition emits {R A : Type} (φ : event → bool) (m : M R A) : Prop :=
  ∀ w, Forall (fun e => φ e = true) (evs (m w)).

(** Weakest precondition: [Q] holds of the outcome, the final world and
    the events of [m] run in [w]. *)
Definition wp {R A : Type} (m : M R A) (w : world)
    (Q : outcome R A → world → list event → Prop) : Prop :=
  Q (out (m w)) (st (m w)) (evs (m w)).

(** When a [bad] event occurs, the computation ends in [return c] and its
    trace satisfies [T]. *)
Definition after {R A : Type} (bad : event → bool) (c : R)
    (T : list event → Prop) (m : M R A) : Prop :=
  ∀ w, Exists (fun e => bad e = true) (evs (m w)) →
       out (m w) = Ret c ∧ T (evs (m w)).

(** The trace of every run of [m] satisfies [T]. *)
Definition always {R A : Type} (T : list event → Prop) (m : M R A) : Prop :=
  ∀ w, T (evs (m w)).

(** Every [bad] event of the trace is followed, later, by a [ψ] event. *)
Definition leads_to (bad : event → bool) (ψ : event → Prop)
    (t : list event) : Prop :=
  ∀ pre e post, t = pre ++ e :: post → bad e = true → Exists ψ post.

(** The events of [log] when the log file is [o]. *)
Definition is_log_to (o : option path) (e : event) : bool :=
  match e with
  | EPrint _ => true
  | EWrite p _ => bool_decide (o = Some p)
  | _ => false
  end.

(** [e] is the line [log(message)] prints. *)
Definition logged (message : string) (e : event) : Prop :=
  ∃ timestamp, e = EPrint (formatted timestamp message).

(** No operation changes the host or, after [main] has set it, the
    log-file path. *)
Definition keeps (w w' : world) : Prop :=
  w_host w' = w_host w ∧ LOG_FILE_PATH w' = LOG_FILE_PATH w.

(** What [log] may do to the world: nothing, or rewrite the log file. *)
Definition log_rel (w w' : world) : Prop :=
  keeps w w' ∧
  (w_fs w' = w_fs w ∨
   ∃ p data, LOG_FILE_PATH w = Some p ∧ w_fs w !! p ≠ Some Dir ∧
             w_fs w' = <[p := File data]> (w_fs w)).

Definition is_call (f : string) (e : event) : bool :=
  match e with ECall g => String.eqb f g | _ => false end.

(** [python -m pip install ...] *)
Definition is_pip_install (argv : list string) : bool :=
  match argv with
  | _ :: a :: b :: c :: _ =>
      String.eqb a "-m" && String.eqb b "pip" && String.eqb c "install"
  | _ => false
  end.

(** The pip subprocess exited with a non-zero code. *)
Definition pip_failed (e : event) : bool :=
  match e with
  | ESpawn argv result =>
      is_pip_install argv &&
      match result with
      | Some res => negb (returncode res =? 0)
      | None => false
      end
  | _ => false
  end.

Definition no_shortcuts_call (e : event) : bool :=
  negb (is_call "create_shortcuts" e).

Definition pip_ok (e : event) : bool :=
  negb (pip_failed e) && no_shortcuts_call e.

(** [create_shortcuts] returned [False]. *)
Definition shortcuts_failed (e : event) : bool :=
  match e with
  | EReturn f v => String.eqb f "create_shortcuts" && String.eqb v "False"
  | _ => false
  end.

Definition shortcut_warning : string := "Warning: Failed to create shortcuts".

(** The wheel download (the request with [timeout=60]) was answered with
    status 200 and fewer than [MIN_WHEEL_SIZE] bytes. *)
Definition undersized (e : event) : bool :=
  match e with
  | EHttpGet _ timeout result =>
      bool_decide (timeout = Some 60) &&
      match result with
      | Some r => (status_code r =? 200) && (Str.size (content r) <? MIN_WHEEL_SIZE)
      | None => false
      end
  | _ => false
  end.

(** [conda env remove ...] *)
Definition is_env_remove (argv : list string) : bool :=
  match argv with
  | _ :: a :: b :: _ => String.eqb a "env" && String.eqb b "remove"
  | _ => false
  end.

(** The removal of the conda environment ran, whatever its exit code. *)
Definition env_remove_ran (e : event) : bool :=
  match e with
  | ESpawn argv result =>
      is_env_remove argv && bool_decide (is_Some result)
  | _ => false
  end.

(** [shutil.rmtree] was called on [d]. *)
Definition is_rmtree (d : path) (e : event) : Prop := ∃ ok, e = ERmtree d ok.

Definition rmtree_failed (e : event) : bool :=
  match e with ERmtree _ false => true | _ => false end.

Definition close_message : string :=
  "Please close any applications using AMD AI UX and try again".

(** [d] is a directory with at least one entry. *)
Definition nonempty_dir (f : files) (d : path) : Prop :=
  node_at f d = Some Dir ∧ ∃ c, is_Some (f !! (d ++ [c])).

(** The trace holds the deletion of [d] and, right after it, its
    re-creation. *)
Definition has_cleanup (d : path) (t : list event) : Prop :=
  ∃ t1 t2, t = t1 ++ ERmtree d true :: EMakedirs d true :: t2.

(** Every [bad] event of the trace comes after a prefix that satisfies [C]. *)
Definition preceded (bad : event → bool) (C : list event → Prop)
    (t : list event) : Prop :=
  ∀ pre e post, t = pre ++ e :: post → bad e = true → C pre.

(** The conda executable of the Miniconda that [install_miniconda] installs. *)
Definition conda_path_of (h : host) : string :=
  path_str (miniconda_path_of h ++
            (if is_windows (system h) then ["Scripts"; "conda.exe"]
             else ["bin"; "conda"])).

(** [argv] runs the Miniconda installer with [~/miniconda3] as its target. *)
Definition installs_to_home (h : host) (argv : list string) : Prop :=
  (∃ installer,
     argv = [installer; "-b"; "-p"; path_str (miniconda_path_of h)]) ∨
  (∃ installer,
     argv = [installer; "/InstallationType=JustMe"; "/AddToPath=1";
             "/RegisterPython=0"; "/S";
             "/D=" +:+ path_str (miniconda_path_of h)]).

(** The processes [install_miniconda] starts: the installer, and
    [conda init] of the conda it installed. *)
Definition miniconda_event (h : host) (e : event) : Prop :=
  match e with
  | ESpawn argv _ =>
      installs_to_home h argv ∨ ∃ rest, argv = conda_path_of h :: "init" :: rest
  | _ => True
  end.

(** The failed calls that [main] does not guard with [try]: [os.makedirs],
    [os.listdir], [input] and the start of [conda env remove]. *)
Definition escapes (e : event) : bool :=
  match e with
  | EMakedirs _ false | EListdir _ false | EInput _ None => true
  | ESpawn argv None => is_env_remove argv
  | _ => false
  end.

(** An exception leaves [m] only from a call that [escapes], which is then
    the last event. *)
Definition safe {R A : Type} (m : M R A) : Prop :=
  ∀ w e, out (m w) = Exn e →
         ∃ ev, last (evs (m w)) = Some ev ∧ escapes ev = true.

(** [m] executes no [return] other than [return 0] and [return 1]. *)
Definition rets01 {A : Type} (m : M Z A) : Prop :=
  ∀ w c, out (m w) = Ret c → c = 0 ∨ c = 1.

(** [m] never raises and never returns from the enclosing function. *)
Definition total {R A : Type} (m : M R A) : Prop :=
  ∀ w, ∃ a, out (m w) = Val a.

(** [d] is a directory, and so are all its ancestors. *)
Definition is_directory (f : files) (d : path) : Prop :=
  Forall (fun q => f !! q = Some Dir) (prefixes d).

(** The user was asked whether to remove the installation, and declined. *)
Definition declined_cleanup (e : event) : bool :=
  match e with
  | EInput prompt answer =>
      String.eqb prompt cleanup_prompt &&
      match answer with Some line => declined line | None => false end
  | _ => false
  end.

(** Events that delete nothing, start no process and make no request, and
    write to no file but the log file of the target directory [d]. *)
Definition harmless (d : path) (e : event) : bool :=
  match e with
  | ECall _ | EReturn _ _ | EPrint _ | EInput _ _ | EListdir _ _ => true
  | EMakedirs p _ => bool_decide (p = d)
  | EWrite p _ => bool_decide (p = log_file_of d)
  | _ => false
  end.

(** The line [log(message)] writes when the clock of the host shows
    [clock]. *)
Definition log_line (h : host) (message : string) : string :=
  formatted (clock h) message +:+ newline.

(** The text of a file, the empty text when there is no such file. *)
Definition text_at (f : files) (p : path) : string :=
  match f !! p with Some (File old) => old | _ => EmptyString end.

(** The target directory [d] right after the pre-flight cleanup: it is a
    directory, and nothing is in it or below it, but for the log file,
    which the message about the deletion has created anew, if it could be
    written. *)
Definition cleaned (h : host) (d : path) (f : files) : Prop :=
  node_at f d = Some Dir ∧
  (∀ q, d `prefix_of` q → q ≠ d → q ≠ log_file_of d → f !! q = None) ∧
  (f !! log_file_of d = None ∨
   f !! log_file_of d
   = Some (File (log_line h "Deleted all contents of install directory"))).

(** In [w] the log file is [lf], and the file system is that of [w0]
    except for the log file. *)
Definition same_but (lf : path) (w0 w : world) : Prop :=
  LOG_FILE_PATH w = Some lf ∧ ∀ q, q ≠ lf → w_fs w !! q = w_fs w0 !! q.

(** ** Sample worlds *)

Definition pip_fails_world : world :=
  World linux fresh_fs [] []
        [conda_found; exits 0; exits 1] (feed 50000) None.

Definition pip_argv : list string :=
  ["/home/u/AMD_AI_UX/amd_ai_ux_env/bin/python"; "-m"; "pip"; "install";
   "/home/u/AMD_AI_UX/wheels/open_webui.whl"; "--verbose"].


Definition windows : host :=
  Host "Windows" "AMD64" ["Users"; "u"] ["Temp"] "2025-01-01 00:00:00".

Definition windows_target : path := ["Users"; "u"; "AppData"; "Local"; "AMD_AI_UX"].

(** On Windows, the temporary directory is missing, so the PowerShell
    script of [create_shortcuts] cannot be written. *)
Definition no_tmp_world : world :=
  World windows {[ ["Users"] := Dir; ["Users"; "u"] := Dir ]} [] []
        [conda_found; exits 0; exits 0] (feed 50000) None.

(** An earlier installation with its conda environment. *)
Definition installed_fs : files :=
  {[ ["home"] := Dir; ["home"; "u"] := Dir; target := Dir;
     target ++ [CONDA_ENV_NAME] := Dir;
     target ++ [CONDA_ENV_NAME; "python"] := File "ELF" ]}.

(** [conda env remove] fails, the rest goes well. *)
Definition env_remove_fails_world : world :=
  World linux installed_fs [] []
        [conda_found; exits 1; conda_found; exits 0] [] None.

(** The operating system refuses the tenth file-system call, which is the
    [rmtree] of the target directory. *)
Definition rmtree_refused_world : world :=
  World linux installed_fs (replicate 9 false ++ [true]) []
        [conda_found; exits 0] [] None.

(** The target directory exists and is empty. *)
Definition empty_dir_fs : files :=
  {[ ["home"] := Dir; ["home"; "u"] := Dir; target := Dir ]}.

Definition empty_dir_world : world :=
  World linux empty_dir_fs [] ["y"]
        [conda_found; exits 0; exits 0] (feed 50000) None.

(** The network serves the Miniconda installer; no conda is installed. *)
Definition no_conda_world : world :=
  World linux {[ ["home"] := Dir; ["home"; "u"] := Dir; ["tmp"] := Dir ]}
        [] [] [exits 0; exits 0; exits 0]
        [Responds (Response 200 None "#!/bin/sh" EmptyString)] None.

(** The operating system refuses the first file-system call, the
    [os.makedirs] of the target directory. *)
Definition readonly_world : world :=
  World linux fresh_fs [true] ["y"] [conda_found] [] None.

(** The operating system refuses the fourth file-system call, the
    [os.listdir] of the target directory. *)
Definition listdir_refused_world : world :=
  World linux installed_fs [false; false; false; true] ["y"] [conda_found]
        [] None.

(** An earlier installation with its conda environment; [which conda]
    names a conda that cannot be started. *)
Definition conda_cannot_start_world : world :=
  World linux installed_fs [] [] [conda_found; SpawnFails] [] None.

(** An earlier installation, and nobody at the terminal. *)
Definition no_terminal_world : world :=
  World linux installed_fs [] [] [conda_found] [] None.

(** An earlier installation; the user answers no. *)
Definition user_declines_world : world :=
  World linux installed_fs [] ["n"] [conda_found] [] None.

(** ** Further vocabulary: the functions [main] calls *)

(** A session with a log file of two lines. *)
Definition session_log : path := ["home"; "u"; "session.log"].

Definition logging_world : world :=
  World linux
        {[ ["home"] := Dir; ["home"; "u"] := Dir;
           session_log := File ("first" +:+ newline) ]}
        [] [] [] [] (Some session_log).

(** The process [argv] ran and exited with code 0. *)
Definition ran_ok (argv : list string) (e : event) : Prop :=
  ∃ res, e = ESpawn argv (Some res) ∧ returncode res = 0.

(** The events of a function that logs and starts no process but [argv]:
    it makes no request, asks nothing, and touches no file but the log
    file [o]. *)
Definition only_runs (argv : list string) (o : option path) (e : event)
  : Prop :=
  match e with
  | ECall _ | EReturn _ _ | EPrint _ => True
  | EWrite p _ => o = Some p
  | ESpawn argv' _ => argv' = argv
  | _ => False
  end.

(** [s] holds no newline. *)
Fixpoint one_line (s : string) : bool :=
  match s with
  | EmptyString => true
  | String c s' => negb (Ascii.eqb c "010"%char) && one_line s'
  end.

(** The command [check_conda] looks for conda with. *)
Definition conda_finder (h : host) : list string :=
  [if is_windows (system h) then "where" else "which"; "conda"].

(** The command line of [create_conda_env]. *)
Definition conda_create_argv (conda_path : string) (env_path : path)
    (python_version : string) : list string :=
  [conda_path; "create"; "-p"; path_str env_path;
   "python=" +:+ python_version; "-y"].

(** The command line of [install_wheel]. *)
Definition pip_install_argv (wheel_path python_path : path) : list string :=
  [path_str python_path; "-m"; "pip"; "install"; path_str wheel_path;
   "--verbose"].

(** Two condas on the [PATH]. *)
Definition two_condas_world : world :=
  World linux fresh_fs [] []
        [Runs (Completed 0 ("  /opt/conda/bin/conda" +:+ newline
                            +:+ "/usr/bin/conda" +:+ newline) EmptyString) id]
        [] None.

(** [conda create] fails and says why. *)
Definition conda_create_fails_world : world :=
  World linux fresh_fs [] []
        [Runs (Completed 1 EmptyString "disk full") id] [] None.

(** The finder [argv] exited with code 0, and the first line of what it
    printed, stripped, is [conda_path]. *)
Definition finds (argv : list string) (conda_path : string) (e : event)
  : Prop :=
  ∃ res, e = ESpawn argv (Some res) ∧ returncode res = 0 ∧
         conda_path = Str.first_line (Str.strip (stdout res)).

(** pip prints two lines and a blank one, and fails. *)
Definition pip_talks_world : world :=
  World linux fresh_fs [] []
        [Runs (Completed 1 ("  Collecting open-webui  " +:+ newline
                            +:+ "   " +:+ newline
                            +:+ "ERROR: no matching distribution")
                         EmptyString) id]
        [] None.

(** The events of a function that only logs: it starts no process, makes
    no request, asks nothing, and touches no file but the log file [o]. *)
Definition only_logs (o : option path) (e : event) : Prop :=
  match e with
  | ECall _ | EReturn _ _ | EPrint _ => True
  | EWrite p _ => o = Some p
  | _ => False
  end.

(** The PowerShell script [create_shortcuts] writes, and the command that
    runs it. *)
Definition shortcut_script (h : host) : path :=
  tmpdir h ++ ["create_shortcut.ps1"].

Definition shortcut_argv (h : host) : list string :=
  ["powershell"; "-ExecutionPolicy"; "Bypass"; "-File";
   path_str (shortcut_script h)].

(** The message that ends a run of [create_shortcuts] on Windows. *)
Definition shortcut_created (h : host) : string :=
  "Created desktop shortcut at: "
  +:+ path_str ((home h ++ ["Desktop"]) ++ ["AMD-AI-UX.lnk"]).

(** On Windows, PowerShell exits with code 1. *)
Definition powershell_fails_world : world :=
  World windows {[ ["Users"] := Dir; ["Users"; "u"] := Dir; ["Temp"] := Dir ]}
        [] [] [exits 1] [] None.

(** The wheel asset of a feed answer, if its body is JSON and lists one. *)
Definition wheel_of (feed : response) : option asset :=
  match json feed with
  | Some release_info => find_wheel_asset (default [] (assets release_info))
  | None => None
  end.

(** In the trace [t] the release feed answered with status 200 and listed
    a wheel, whose download answered with status 200 and the content
    [data]. *)
Definition fetched (data : string) (t : list event) : Prop :=
  ∃ feed a wheel,
    In (EHttpGet api_url (Some 30) (Some feed)) t ∧ status_code feed = 200 ∧
    wheel_of feed = Some a ∧
    In (EHttpGet (browser_download_url a) (Some 60) (Some wheel)) t ∧
    status_code wheel = 200 ∧ data = content wheel.

(** A release with a wheel of [sz] bytes, and the installation directory
    in place. *)
Definition wheels_dir : path := target ++ ["wheels"].

Definition download_world (sz : N) : world :=
  World linux {[ ["home"] := Dir; ["home"; "u"] := Dir; target := Dir ]}
        [] [] [] (feed sz) None.

(** The feed answers with status 403. *)
Definition rate_limited_world : world :=
  World linux {[ ["home"] := Dir; ["home"; "u"] := Dir; target := Dir ]}
        [] [] []
        [Responds (Response 403 None EmptyString "rate limit exceeded")] None.

(** [wheels] is a file, not a directory. *)
Definition wheels_is_file_world : world :=
  World linux {[ ["home"] := Dir; ["home"; "u"] := Dir; target := Dir;
                 wheels_dir := File "x" ]}
        [] [] [] (feed 50000) None.

(** Not a request. *)
Definition makes_no_request (e : event) : Prop :=
  match e with EHttpGet _ _ _ => False | _ => True end.

(** No request but that for the release feed. *)
Definition asks_feed_only (e : event) : Prop :=
  match e with
  | EHttpGet url timeout _ => url = api_url ∧ timeout = Some 30
  | _ => True
  end.

(** The release has a body, but no wheel among its assets. *)
Definition no_wheel_world : world :=
  World linux {[ ["home"] := Dir; ["home"; "u"] := Dir; target := Dir ]}
        [] [] []
        [Responds (Response 200
           (Some (Json (Some [Asset "open_webui.tar.gz" "https://example.org/t"])
                       "{}"))
           EmptyString EmptyString)] None.

(** The events of a function that has downloaded at most: requests and the
    log, but no other write, no process, no change of mode. *)
Definition only_requests (o : option path) (e : event) : Prop :=
  match e with
  | ECall _ | EReturn _ _ | EPrint _ | EHttpGet _ _ _ => True
  | EWrite p _ => o = Some p
  | _ => False
  end.

(** The processes of a run of [install_miniconda] that stopped at the
    installer: no [conda init]. *)
Definition installer_only (h : host) (e : event) : Prop :=
  match e with
  | ESpawn argv _ => installs_to_home h argv
  | _ => True
  end.

(** The Miniconda installer ran and exited with code 0. *)
Definition installer_ran_ok (h : host) (e : event) : Prop :=
  ∃ argv res, e = ESpawn argv (Some res) ∧ installs_to_home h argv ∧
              returncode res = 0.

(** No conda; the download of the Miniconda installer is answered with
    status 404. *)
Definition miniconda_404_world : world :=
  World linux {[ ["home"] := Dir; ["home"; "u"] := Dir; ["tmp"] := Dir ]}
        [] [] []
        [Responds (Response 404 None "<html>not found</html>" EmptyString)]
        None.

(** The Miniconda installer is downloaded, runs, and exits with code 2. *)
Definition installer_fails_world : world :=
  World linux {[ ["home"] := Dir; ["home"; "u"] := Dir; ["tmp"] := Dir ]}
        [] [] [exits 2]
        [Responds (Response 200 None "#!/bin/sh" EmptyString)] None.

(** The Miniconda installer is downloaded and installs. *)
Definition installer_works_world : world :=
  World linux {[ ["home"] := Dir; ["home"; "u"] := Dir; ["tmp"] := Dir ]}
        [] [] [exits 0; exits 0; exits 1]
        [Responds (Response 200 None "#!/bin/sh" EmptyString)] None.

(** ** Further vocabulary: [main] *)

Definition is_input (e : event) : bool :=
  match e with EInput _ _ => true | _ => false end.

(** A call of [create_shortcuts], or an [os.remove], which only
    [create_shortcuts] does. *)
Definition shortcut_work (e : event) : bool :=
  match e with
  | ECall f => String.eqb f "create_shortcuts"
  | ERemove _ _ => true
  | _ => false
  end.

(** Deletions are of the tree [d], or of a file named
    [create_shortcut.ps1]. *)
Definition deletes_within (d : path) (e : event) : bool :=
  match e with
  | ERmtree p _ => bool_decide (p = d)
  | ERemove p _ => bool_decide (last p = Some "create_shortcut.ps1")
  | _ => true
  end.

(** A step of the installation reports its failure to [main]:
    [install_miniconda] returns [(False, None)], [create_conda_env] or
    [install_wheel] returns [False], [download_latest_wheel] returns
    [None]. *)
Definition step_failed (e : event) : bool :=
  match e with
  | EReturn f v =>
      (String.eqb f "install_miniconda" && String.eqb v "(False, None)")
      || (String.eqb f "create_conda_env" && String.eqb v "False")
      || (String.eqb f "download_latest_wheel" && String.eqb v "None")
      || (String.eqb f "install_wheel" && String.eqb v "False")
  | _ => false
  end.

(** Printing, writing, and the return of [main]. *)
Definition quiet (e : event) : bool :=
  match e with
  | EPrint _ | EWrite _ _ => true
  | EReturn f _ => String.eqb f "main"
  | _ => false
  end.

(** After a step has failed, the trace is [quiet]. *)
Definition then_quiet (t : list event) : Prop :=
  ∀ pre e post, t = pre ++ e :: post → step_failed e = true →
                Forall (fun e => quiet e = true) post.

(** Every result [c] of the function [f] is one that [main] takes as a
    failure, or the return of [c] is not a failed step. *)
Definition verdict {A : Type} (f : string) (show : A → string)
    (failing : A → Prop) : Prop :=
  ∀ c, failing c ∨ step_failed (EReturn f (show c)) = false.

(** Conda is found, but cannot create the environment. *)
Definition env_fails_world : world :=
  World linux fresh_fs [] [] [conda_found; exits 1] (feed 50000) None.

(** The user was asked whether to install Miniconda, and declined. *)
Definition declined_miniconda (e : event) : bool :=
  match e with
  | EInput prompt answer =>
      String.eqb prompt conda_prompt &&
      match answer with Some line => declined line | None => false end
  | _ => false
  end.

(** Neither a request nor the start of [install_miniconda] or
    [create_conda_env]. *)
Definition installs_nothing (e : event) : bool :=
  match e with
  | ECall f =>
      negb (String.eqb f "install_miniconda")
      && negb (String.eqb f "create_conda_env")
  | EHttpGet _ _ _ => false
  | _ => true
  end.

Definition conda_undecided (e : event) : bool :=
  negb (declined_miniconda e) && installs_nothing e.

(** No conda on the machine; the user agrees to the removal of what is in
    the target directory, and answers [no] to Miniconda. *)
Definition no_conda_declined_world : world :=
  World linux fresh_fs [] ["y"; "no"] [exits 1] (feed 50000) None.

(** What a trace shows of a complete installation into [d]: conda created
    the environment in [d] with Python 3.11, a wheel was fetched, is large
    enough and was written to a file, pip, run by the interpreter of the
    environment, installed that file, and the completion was logged. *)
Definition installed (d : path) (t : list event) : Prop :=
  ∃ conda_path wheel data python,
    Exists (ran_ok (conda_create_argv conda_path (d ++ [CONDA_ENV_NAME])
                      PYTHON_VERSION)) t ∧
    fetched data t ∧ In (EWrite wheel true) t ∧
    MIN_WHEEL_SIZE ≤ Str.size data ∧
    (python = (d ++ [CONDA_ENV_NAME]) ++ ["python.exe"] ∨
     python = (d ++ [CONDA_ENV_NAME]) ++ ["bin"; "python"]) ∧
    Exists (ran_ok (pip_install_argv wheel python)) t ∧
    Exists (logged "*** INSTALLATION COMPLETED ***") t.

(** [check_conda] reported that there is no conda. *)
Definition conda_missing : event := EReturn "check_conda" "(False, None)".

(** No conda is found; the network serves the Miniconda installer. *)
Definition miniconda_needed_world : world :=
  World linux {[ ["home"] := Dir; ["home"; "u"] := Dir; ["tmp"] := Dir ]}
        [] [] [exits 1; exits 0; exits 0; exits 0]
        [Responds (Response 200 None "#!/bin/sh" EmptyString)] None.

(** ** The file system *)

Lemma child_of_app (d : path) (c : string) : child_of d (d ++ [c]) = Some c.
Proof. induction d as [|a d IH]; simpl; [done|]. by rewrite String.eqb_refl. Qed.

Lemma child_of_Some (d q : path) (c : string) :
  child_of d q = Some c → q = d ++ [c].
Proof.
  revert q. induction d as [|a d IH]; intros [|b q]; simpl; try done.
  - destruct q; [|done]. by intros [= ->].
  - destruct (String.eqb a b) eqn:Hab; [|done].
    apply String.eqb_eq in Hab as ->. intros H. by rewrite (IH _ H).
Qed.

Lemma prefixes_length (p q : path) :
  q ∈ prefixes p → (length q ≤ length p)%nat.
Proof.
  revert q. induction p as [|c p IH]; intros q; simpl.
  - by intros ?%elem_of_nil.
  - intros [->|Hq]%elem_of_cons; [simpl; lia|].
    apply list_elem_of_fmap in Hq as (q' & -> & Hq'). simpl.
    specialize (IH _ Hq'). lia.
Qed.

Lemma prefixes_self (p : path) : p ≠ [] → p ∈ prefixes p.
Proof.
  induction p as [|c p IH]; [done|]. intros _. simpl.
  destruct p as [|c' p]; [by left|].
  right. apply list_elem_of_fmap. eexists. split; [done|]. by apply IH.
Qed.

Lemma lookup_mkdirs_in (l : list path) (f : files) (q : path) :
  q ∈ l → foldr (fun q acc => <[q := Dir]> acc) f l !! q = Some Dir.
Proof.
  induction l as [|a l IH]; simpl; [by intros ?%elem_of_nil|].
  intros [->|Hq]%elem_of_cons; [by rewrite lookup_insert_eq|].
  destruct (decide (a = q)) as [->|Hne].
  - by rewrite lookup_insert_eq.
  - rewrite lookup_insert_ne; auto.
Qed.

Lemma lookup_mkdirs_inv (l : list path) (f : files) (q : path) (n : node) :
  foldr (fun q acc => <[q := Dir]> acc) f l !! q = Some n →
  q ∈ l ∨ f !! q = Some n.
Proof.
  induction l as [|a l IH]; simpl; [by right|].
  destruct (decide (a = q)) as [->|Hne].
  - intros _. left. by left.
  - rewrite lookup_insert_ne; [|done]. intros [?|?]%IH; [left; by right|by right].
Qed.

(** Creating directories removes nothing and keeps directories. *)
Lemma lookup_mkdirs_mono (l : list path) (f : files) (q : path) :
  (f !! q = Some Dir → foldr (fun q acc => <[q := Dir]> acc) f l !! q = Some Dir) ∧
  (is_Some (f !! q) → is_Some (foldr (fun q acc => <[q := Dir]> acc) f l !! q)).
Proof.
  induction l as [|a l [IH1 IH2]]; simpl; [done|].
  destruct (decide (a = q)) as [->|Hne].
  - rewrite lookup_insert_eq. by split.
  - rewrite lookup_insert_ne; [|done]. by split.
Qed.

Lemma fs_makedirs_nonempty (f f' : files) (p d : path) :
  fs_makedirs f p = Some f' → nonempty_dir f d → nonempty_dir f' d.
Proof.
  unfold fs_makedirs. destruct (existsb _ _); [done|]. intros [= <-] [Hd [c Hc]].
  split.
  - destruct d as [|a d]; [done|]. simpl in *.
    by apply lookup_mkdirs_mono.
  - exists c. by apply lookup_mkdirs_mono.
Qed.

Lemma log_rel_nonempty (w w' : world) (d : path) :
  log_rel w w' → nonempty_dir (w_fs w) d → nonempty_dir (w_fs w') d.
Proof.
  intros [_ [->|(p & data & _ & Hp & ->)]] [Hd [c Hc]];
    [by split; [|exists c]|].
  split.
  - destruct d as [|a d]; [done|]. simpl in *.
    destruct (decide (p = a :: d)) as [->|Hne]; [by destruct Hp|].
    by rewrite lookup_insert_ne.
  - exists c. destruct (decide (p = d ++ [c])) as [->|Hne].
    + by rewrite lookup_insert_eq.
    + by rewrite lookup_insert_ne.
Qed.

Lemma fs_listdir_nonempty (f : files) (d : path) (l : list string) :
  nonempty_dir f d → fs_listdir f d = Some l → l ≠ [].
Proof.
  intros [_ [c [n Hc]]]. unfold fs_listdir.
  destruct (is_dir_node _); [|done]. intros [= <-] Hnil.
  assert (c ∈ omap (fun kv : path * node => child_of d kv.1) (map_to_list f)) as Hin.
  { apply list_elem_of_omap. exists (d ++ [c], n). split.
    - by apply elem_of_map_to_list.
    - apply child_of_app. }
  rewrite Hnil in Hin. by apply elem_of_nil in Hin.
Qed.

Lemma omap_none {A B : Type} (g : A → option B) (l : list A) :
  (∀ x, x ∈ l → g x = None) → omap g l = [].
Proof.
  induction l as [|x l IH]; intros H; simpl; [done|].
  rewrite (H x) by (by left). apply IH. intros y Hy. apply H. by right.
Qed.

Lemma fs_rmtree_Some (f f1 : files) (d : path) :
  fs_rmtree f d = Some f1 →
  d ≠ [] ∧ f1 = filter (fun kv : path * node => ¬ d `prefix_of` kv.1) f.
Proof.
  unfold fs_rmtree. destruct d as [|a d]; [done|].
  destruct (is_dir_node _); [|done]. by intros [= <-].
Qed.

Lemma fs_makedirs_Some (f f' : files) (p : path) :
  fs_makedirs f p = Some f' →
  f' = foldr (fun q acc => <[q := Dir]> acc) f (prefixes p).
Proof. unfold fs_makedirs. destruct (existsb _ _); [done|]. by intros [= <-]. Qed.

(** A directory deleted and then re-created is empty. *)
Lemma recreated_empty (f f1 f2 : files) (d : path) :
  fs_rmtree f d = Some f1 → fs_makedirs f1 d = Some f2 →
  fs_listdir f2 d = Some [].
Proof.
  intros [Hd ->]%fs_rmtree_Some ->%fs_makedirs_Some.
  assert (foldr (fun q acc => <[q := Dir]> acc)
            (filter (fun kv : path * node => ¬ d `prefix_of` kv.1) f)
            (prefixes d) !! d = Some Dir) as Hdir
    by (by apply lookup_mkdirs_in, prefixes_self).
  unfold fs_listdir, node_at. destruct d as [|a d]; [done|].
  rewrite Hdir. simpl is_dir_node. cbv iota. f_equal. apply omap_none.
  intros [q n] Hq%elem_of_map_to_list.
  change (child_of (a :: d) q = None).
  destruct (child_of (a :: d) q) as [c|] eqn:Hc; [exfalso|done].
  apply child_of_Some in Hc as ->.
  apply lookup_mkdirs_inv in Hq as [Hq|Hq].
  - apply prefixes_length in Hq. rewrite length_app in Hq. simpl in Hq. lia.
  - apply map_lookup_filter_Some in Hq as [_ Hq]. simpl in Hq.
    apply Hq. by exists [c].
Qed.

Lemma fs_makedirs_existing (f f' : files) (d : path) :
  is_directory f d → fs_makedirs f d = Some f' → f' = f.
Proof.
  intros Hd ->%fs_makedirs_Some. unfold is_directory in Hd.
  induction Hd as [|q l Hq _ IH]; simpl; [done|].
  rewrite IH. by apply insert_id.
Qed.

Lemma same_but_log (lf : path) (w0 w w1 : world) :
  same_but lf w0 w → log_rel w w1 → same_but lf w0 w1.
Proof.
  intros [Hlf Hfs] [[_ Hlog] Hrel]. split; [congruence|].
  intros q Hq. destruct Hrel as [->|(p & data & Hp & _ & ->)]; [by apply Hfs|].
  rewrite lookup_insert_ne; [by apply Hfs|congruence].
Qed.

Lemma same_but_keep (lf : path) (w0 w w1 : world) :
  same_but lf w0 w → w_fs w1 = w_fs w → keeps w w1 → same_but lf w0 w1.
Proof. intros [Hlf Hfs] Hf [_ Hlog]. split; [congruence|]. by rewrite Hf. Qed.

Lemma makedirs_result (f f' : files) (d : path) (a : unit) :
  pair tt <$> fs_makedirs f d = Some (a, f') → fs_makedirs f d = Some f'.
Proof. by intros (? & -> & [= _ ->])%fmap_Some. Qed.

Lemma listdir_result (f f' : files) (d : path) (l : list string) :
  (fun l => (l, f)) <$> fs_listdir f d = Some (l, f') → f' = f.
Proof. by intros (? & _ & [= _ ->])%fmap_Some. Qed.

Lemma is_log_to_harmless (d : path) (t : list event) :
  Forall (fun e => is_log_to (Some (log_file_of d)) e = true) t →
  Forall (fun e => harmless d e = true) t.
Proof.
  intros H. eapply Forall_impl; [exact H|].
  intros [] He; simpl in *; try done.
  apply bool_decide_eq_true in He as [= <-]. by apply bool_decide_eq_true.
Qed.

(** ** Reasoning about runs *)

Lemma bind_run {R A B : Type} (m : M R A) (k : A → M R B) (w : world) :
  bind m k w =
  match out (m w) with
  | Val a => Run (out (k a (st (m w)))) (st (k a (st (m w))))
                 (evs (m w) ++ evs (k a (st (m w))))
  | Ret c => Run (Ret c) (st (m w)) (evs (m w))
  | Exn e => Run (Exn e) (st (m w)) (evs (m w))
  end.
Proof. reflexivity. Qed.

Lemma try_except_run {R A : Type} (m : M R A) (h : exn → M R A) (w : world) :
  try_except m h w =
  match out (m w) with
  | Exn e => Run (out (h e (st (m w)))) (st (h e (st (m w))))
                 (evs (m w) ++ evs (h e (st (m w))))
  | _ => m w
  end.
Proof. reflexivity. Qed.

Lemma def_run {R R' : Type} (f : string) (show : R → string)
    (body : M R Empty_set) (w : world) :
  def (R' := R') f show body w =
  match out (body w) with
  | Val a => match a with end
  | Ret c => Run (Val c) (st (body w))
                 (ECall f :: evs (body w) ++ [EReturn f (show c)])
  | Exn e => Run (Exn e) (st (body w)) (ECall f :: evs (body w))
  end.
Proof. reflexivity. Qed.

(** *** Every event of a computation satisfies [φ] *)
Section Emits.
Context {R : Type} (φ : event → bool).

Lemma emits_ret {A : Type} (a : A) : emits (R := R) φ (ret a).
Proof. intros w. constructor. Qed.

Lemma emits_return {A : Type} (r : R) : emits (A := A) φ (return_ r).
Proof. intros w. constructor. Qed.

Lemma emits_raise {A : Type} (e : exn) : emits (R := R) (A := A) φ (raise e).
Proof. intros w. constructor. Qed.

Lemma emits_emit (e : event) : φ e = true → emits (R := R) φ (emit e).
Proof. intros H w. by repeat constructor. Qed.

Lemma emits_bind {A B : Type} (m : M R A) (k : A → M R B) :
  emits φ m → (∀ a, emits φ (k a)) → emits φ (bind m k).
Proof.
  intros Hm Hk w. rewrite bind_run. specialize (Hm w).
  destruct (out (m w)); simpl; auto.
  apply Forall_app; split; [done | apply Hk].
Qed.

Lemma emits_try {A : Type} (m : M R A) (h : exn → M R A) :
  emits φ m → (∀ e, emits φ (h e)) → emits φ (try_except m h).
Proof.
  intros Hm Hh w. rewrite try_except_run. specialize (Hm w).
  destruct (out (m w)); simpl; auto.
  apply Forall_app; split; [done | apply Hh].
Qed.

Lemma emits_when (c : bool) (m : M R unit) : emits φ m → emits φ (when c m).
Proof. destruct c; [done | intros _; apply emits_ret]. Qed.

Lemma emits_for_each {A : Type} (xs : list A) (body : A → M R unit) :
  (∀ x, emits φ (body x)) → emits φ (for_each xs body).
Proof.
  intros Hb. induction xs as [|x xs IH]; simpl.
  - apply emits_ret.
  - apply emits_bind; auto.
Qed.

Lemma emits_fs_call {A : Type} (what : string) (ev : bool → event)
    (op : files → option (A * files)) :
  (∀ b, φ (ev b) = true) → emits (R := R) φ (fs_call what ev op).
Proof.
  intros H w. unfold fs_call. destruct (next_fault w) as [refused w1].
  destruct (if refused then None else op (w_fs w1)) as [[a f']|]; simpl;
    by repeat constructor.
Qed.

Lemma emits_subprocess_run (argv : list string) :
  (∀ r, φ (ESpawn argv r) = true) → emits (R := R) φ (subprocess_run argv).
Proof.
  intros H w. unfold subprocess_run.
  destruct (w_procs w) as [|[|result effect] rest]; simpl;
    by repeat constructor.
Qed.

Lemma emits_requests_get (url : string) (timeout : option Z) :
  (∀ r, φ (EHttpGet url timeout r) = true) →
  emits (R := R) φ (requests_get url timeout).
Proof.
  intros H w. unfold requests_get.
  destruct (w_http w) as [|[|r] rest]; simpl; by repeat constructor.
Qed.

Lemma emits_input (prompt : string) :
  (∀ a, φ (EInput prompt a) = true) → emits (R := R) φ (input prompt).
Proof.
  intros H w. unfold input.
  destruct (w_stdin w); simpl; by repeat constructor.
Qed.

Lemma emits_raise_for_status (r : response) :
  emits (R := R) φ (raise_for_status r).
Proof.
  unfold raise_for_status.
  destruct (_ && _); [apply emits_raise | apply emits_ret].
Qed.

Lemma emits_response_json (r : response) : emits (R := R) φ (response_json r).
Proof.
  unfold response_json. destruct (json r); [apply emits_ret | apply emits_raise].
Qed.

Lemma emits_silent {A : Type} (m : M R A) :
  (∀ w, evs (m w) = []) → emits φ m.
Proof. intros H w. rewrite H. constructor. Qed.

(** [log] only prints and writes. *)
Lemma emits_log (message : string) :
  (∀ s, φ (EPrint s) = true) → (∀ p b, φ (EWrite p b) = true) →
  emits (R := R) φ (log message).
Proof.
  intros Hp Hw. unfold log, log_.
  apply emits_bind; [by apply emits_silent|intros ts].
  apply emits_bind; [by apply emits_when, emits_emit|intros _].
  apply emits_bind; [by apply emits_silent|intros [p|]].
  - apply emits_try; [by apply emits_fs_call|intros e; by apply emits_emit].
  - apply emits_ret.
Qed.

Lemma emits_def {R' : Type} (f : string) (show : R' → string)
    (body : M R' Empty_set) :
  φ (ECall f) = true → (∀ v, φ (EReturn f v) = true) →
  emits φ body → emits (R := R) φ (def f show body).
Proof.
  intros Hc Hr Hb w. rewrite def_run. specialize (Hb w).
  destruct (out (body w)) as [[]|c|e]; simpl.
  - constructor; [done|]. apply Forall_app; split; [done|by repeat constructor].
  - by constructor.
Qed.
End Emits.

(** Decompose a goal [emits φ m] along the syntax of [m]; what is left are
    the conditions on [φ] at each event [m] can emit, which evaluate. *)
Ltac head_of t := lazymatch t with ?f _ => head_of f | _ => t end.

Ltac emits_leaf := intros; first [reflexivity | done].

Ltac emits_step :=
  lazymatch goal with
  | |- emits _ (bind _ _) => apply emits_bind; [|intros ?]
  | |- emits _ (ret _) => apply emits_ret
  | |- emits _ (return_ _) => apply emits_return
  | |- emits _ (raise _) => apply emits_raise
  | |- emits _ (try_except _ _) => apply emits_try; [|intros ?]
  | |- emits _ (when _ _) => apply emits_when
  | |- emits _ (for_each _ _) => apply emits_for_each; intros ?
  | |- emits _ (def _ _ _) => apply emits_def; [emits_leaf|emits_leaf|]
  | |- emits _ (log _) => apply emits_log; emits_leaf
  | |- emits _ (subprocess_run _) => apply emits_subprocess_run; emits_leaf
  | |- emits _ (requests_get _ _) => apply emits_requests_get; emits_leaf
  | |- emits _ (input _) => apply emits_input; emits_leaf
  | |- emits _ (raise_for_status _) => apply emits_raise_for_status
  | |- emits _ (response_json _) => apply emits_response_json
  | |- emits _ (fs_call _ _ _) => apply emits_fs_call; emits_leaf
  | |- emits _ (if ?c then _ else _) => destruct c
  | |- emits _ (match ?x with _ => _ end) => destruct x
  | |- emits _ platform_system => apply emits_silent; reflexivity
  | |- emits _ platform_machine => apply emits_silent; reflexivity
  | |- emits _ expanduser_home => apply emits_silent; reflexivity
  | |- emits _ gettempdir => apply emits_silent; reflexivity
  | |- emits _ (set_LOG_FILE_PATH _) => apply emits_silent; reflexivity
  | |- emits _ (path_exists _) => apply emits_silent; reflexivity
  | |- emits _ (path_isfile _) => apply emits_silent; reflexivity
  | |- emits _ ?m => let h := head_of m in unfold h; cbv beta zeta
  end.

Ltac emits_auto := repeat emits_step.

(** *** Weakest preconditions *)

Section Wp.
Context {R : Type}.

Lemma wp_ret {A : Type} (a : A) w (Q : outcome R A → world → list event → Prop) :
  Q (Val a) w [] → wp (ret a) w Q.
Proof. done. Qed.

Lemma wp_return {A : Type} (r : R) w
    (Q : outcome R A → world → list event → Prop) :
  Q (Ret r) w [] → wp (return_ r) w Q.
Proof. done. Qed.

Lemma wp_raise {A : Type} (e : exn) w
    (Q : outcome R A → world → list event → Prop) :
  Q (Exn e) w [] → wp (raise e) w Q.
Proof. done. Qed.

Lemma wp_bind {A B : Type} (m : M R A) (k : A → M R B) w
    (Q : outcome R B → world → list event → Prop) :
  wp m w (fun o w1 t1 =>
    match o with
    | Val a => wp (k a) w1 (fun o2 w2 t2 => Q o2 w2 (t1 ++ t2))
    | Ret c => Q (Ret c) w1 t1
    | Exn e => Q (Exn e) w1 t1
    end) →
  wp (bind m k) w Q.
Proof. unfold wp. rewrite bind_run. by destruct (out (m w)). Qed.

Lemma wp_try {A : Type} (m : M R A) (h : exn → M R A) w
    (Q : outcome R A → world → list event → Prop) :
  wp m w (fun o w1 t1 =>
    match o with
    | Exn e => wp (h e) w1 (fun o2 w2 t2 => Q o2 w2 (t1 ++ t2))
    | _ => Q o w1 t1
    end) →
  wp (try_except m h) w Q.
Proof.
  unfold wp. rewrite try_except_run.
  destruct (m w) as [o w1 t1]; simpl. by destruct o.
Qed.

Lemma wp_def {R' : Type} (f : string) (show : R' → string)
    (body : M R' Empty_set) w (Q : outcome R R' → world → list event → Prop) :
  wp body w (fun o w1 t1 =>
    match o with
    | Val a => True
    | Ret c => Q (Val c) w1 (ECall f :: t1 ++ [EReturn f (show c)])
    | Exn e => Q (Exn e) w1 (ECall f :: t1)
    end) →
  wp (def f show body) w Q.
Proof. unfold wp. rewrite def_run. by destruct (out (body w)) as [[]| |]. Qed.

Lemma wp_mono {A : Type} (m : M R A) w
    (Q Q' : outcome R A → world → list event → Prop) :
  wp m w Q → (∀ o w1 t1, Q o w1 t1 → Q' o w1 t1) → wp m w Q'.
Proof. unfold wp. auto. Qed.

(** A computation of which only the events matter. *)
Lemma wp_emits {A : Type} (φ : event → bool) (m : M R A) w
    (Q : outcome R A → world → list event → Prop) :
  emits φ m →
  (∀ o w1 t1, Forall (fun e => φ e = true) t1 → Q o w1 t1) →
  wp m w Q.
Proof. intros Hm HQ. apply HQ, Hm. Qed.
End Wp.

(** *** Primitive operations *)

Lemma next_fault_fs w : w_fs (next_fault w).2 = w_fs w.
Proof. unfold next_fault. by destruct (w_faults w). Qed.

Lemma next_fault_keeps w : keeps w (next_fault w).2.
Proof. unfold next_fault. by destruct (w_faults w). Qed.

Lemma keeps_trans (w1 w2 w3 : world) : keeps w1 w2 → keeps w2 w3 → keeps w1 w3.
Proof. intros [? ?] [? ?]. split; congruence. Qed.

Section WpPrim.
Context {R : Type}.

Lemma wp_fs_call {A : Type} (what : string) (ev : bool → event)
    (op : files → option (A * files)) w
    (Q : outcome R A → world → list event → Prop) :
  (∀ a w1, op (w_fs w) = Some (a, w_fs w1) → keeps w w1 →
           Q (Val a) w1 [ev true]) →
  (∀ e w1, w_fs w1 = w_fs w → keeps w w1 → Q (Exn e) w1 [ev false]) →
  wp (fs_call what ev op) w Q.
Proof.
  intros Hok Hfail. unfold wp, fs_call.
  pose proof (next_fault_fs w) as Hfs. pose proof (next_fault_keeps w) as Hk.
  destruct (next_fault w) as [refused w1]; simpl in *.
  destruct refused; simpl.
  - by apply Hfail.
  - destruct (op (w_fs w1)) as [[a f']|] eqn:Hop; simpl.
    + apply Hok; simpl; [by rewrite <- Hfs|done].
    + by apply Hfail.
Qed.

Lemma wp_log (message : string) w
    (Q : outcome R unit → world → list event → Prop) :
  (∀ w1 t1, log_rel w w1 →
            Forall (fun e => is_log_to (LOG_FILE_PATH w) e = true) t1 →
            Exists (logged message) t1 → Q (Val tt) w1 t1) →
  wp (log message) w Q.
Proof.
  intros HQ. unfold wp, log, log_.
  rewrite !bind_run. simpl.
  destruct (LOG_FILE_PATH w) as [p|] eqn:Hp; simpl.
  - rewrite try_except_run.
    unfold write_file.
    set (m := fs_call _ _ _).
    assert (wp (R := R) m w (fun o w1 t1 =>
      match o with
      | Val _ => log_rel w w1 ∧ t1 = [EWrite p true]
      | Ret _ => False
      | Exn _ => log_rel w w1 ∧ t1 = [EWrite p false]
      end)) as Hm.
    { apply wp_fs_call.
      - intros [] w1 Hop Hl. split; [|done]. split; [done|].
        unfold fs_write in Hop. destruct p as [|c p']; [done|].
        destruct (is_dir_node _); [|done].
        destruct (w_fs w !! (c :: p')) as [[old|]|] eqn:Hn; simplify_eq/=.
        + right. exists (c :: p'). eexists. split_and!; [done|congruence|done].
        + right. exists (c :: p'). eexists. split_and!; [done|congruence|done].
      - intros e w1 Hf Hl. split; [|done]. split; [done|by left]. }
    unfold wp in Hm. destruct (m w) as [[[]|c|e] w1 t1]; simpl in *.
    + destruct Hm as [Hr ->]. apply HQ; [done| |by left; eexists].
      repeat constructor. simpl. by apply bool_decide_eq_true.
    + done.
    + destruct Hm as [Hr ->]. apply HQ; [done| |by left; eexists].
      repeat constructor. simpl. by apply bool_decide_eq_true.
  - apply HQ; [|by repeat constructor|by left; eexists].
    split; [done|by left].
Qed.

Lemma wp_set_LOG_FILE_PATH (p : path) w
    (Q : outcome R unit → world → list event → Prop) :
  Q (Val tt) (with_log_file_path (Some p) w) [] →
  wp (set_LOG_FILE_PATH p) w Q.
Proof. done. Qed.

Lemma wp_path_exists (p : path) w
    (Q : outcome R bool → world → list event → Prop) :
  Q (Val (bool_decide (is_Some (node_at (w_fs w) p)))) w [] →
  wp (path_exists p) w Q.
Proof. done. Qed.

Lemma wp_path_isfile (p : path) w
    (Q : outcome R bool → world → list event → Prop) :
  Q (Val (is_file_node (node_at (w_fs w) p))) w [] →
  wp (path_isfile p) w Q.
Proof. done. Qed.

Lemma wp_platform_system w
    (Q : outcome R string → world → list event → Prop) :
  Q (Val (system (w_host w))) w [] → wp platform_system w Q.
Proof. done. Qed.

Lemma wp_platform_machine w
    (Q : outcome R string → world → list event → Prop) :
  Q (Val (machine (w_host w))) w [] → wp platform_machine w Q.
Proof. done. Qed.

Lemma wp_expanduser_home w
    (Q : outcome R path → world → list event → Prop) :
  Q (Val (home (w_host w))) w [] → wp expanduser_home w Q.
Proof. done. Qed.

Lemma wp_gettempdir w
    (Q : outcome R path → world → list event → Prop) :
  Q (Val (tmpdir (w_host w))) w [] → wp gettempdir w Q.
Proof. done. Qed.

Lemma wp_input (prompt : string) w
    (Q : outcome R string → world → list event → Prop) :
  (∀ line w1, w_fs w1 = w_fs w → keeps w w1 →
              Q (Val line) w1 [EInput prompt (Some line)]) →
  (∀ w1, w_fs w1 = w_fs w → keeps w w1 →
         Q (Exn EOFError) w1 [EInput prompt None]) →
  wp (input prompt) w Q.
Proof.
  intros Hok Hfail. unfold wp, input.
  destruct (w_stdin w) as [|line rest]; simpl; [by apply Hfail|by apply Hok].
Qed.

Lemma wp_subprocess_run (argv : list string) w
    (Q : outcome R completed → world → list event → Prop) :
  (∀ res w1, keeps w w1 → Q (Val res) w1 [ESpawn argv (Some res)]) →
  (∀ e w1, keeps w w1 → Q (Exn e) w1 [ESpawn argv None]) →
  wp (subprocess_run argv) w Q.
Proof.
  intros Hok Hfail. unfold wp, subprocess_run.
  destruct (w_procs w) as [|[|res effect] rest]; simpl;
    [by apply Hfail..|by apply Hok].
Qed.

Lemma wp_requests_get (url : string) (timeout : option Z) w
    (Q : outcome R response → world → list event → Prop) :
  (∀ r w1, w_fs w1 = w_fs w → keeps w w1 →
           Q (Val r) w1 [EHttpGet url timeout (Some r)]) →
  (∀ e w1, keeps w w1 → Q (Exn e) w1 [EHttpGet url timeout None]) →
  wp (requests_get url timeout) w Q.
Proof.
  intros Hok Hfail. unfold wp, requests_get.
  destruct (w_http w) as [|[|r] rest]; simpl;
    [by apply Hfail..|by apply Hok].
Qed.

Lemma wp_for_each_log (xs : list string) (f : string → string) w
    (Q : outcome R unit → world → list event → Prop) :
  (∀ w1 t1, keeps w w1 →
            Forall (fun e => is_log_to (LOG_FILE_PATH w) e = true) t1 →
            Q (Val tt) w1 t1) →
  wp (for_each xs (fun line =>
        let line := f line in
        when (negb (String.eqb line EmptyString)) (log line))) w Q.
Proof.
  revert w Q. induction xs as [|x xs IH]; intros w Q HQ; simpl.
  - apply wp_ret, HQ; [done|constructor].
  - apply wp_bind. destruct (negb _); simpl.
    + apply wp_log. intros w1 t1 [Hk _] Ht1 _. apply IH. intros w2 t2 Hk2 Ht2.
      apply HQ; [by eapply keeps_trans|]. apply Forall_app_2; [done|].
      by rewrite <- (proj2 Hk).
    + apply wp_ret. simpl. apply IH. intros w2 t2 Hk2 Ht2. by apply HQ.
Qed.
End WpPrim.

Ltac wp_step :=
  lazymatch goal with
  | |- wp (bind _ _) _ _ => apply wp_bind
  | |- wp (ret _) _ _ => apply wp_ret
  | |- wp (return_ _) _ _ => apply wp_return
  | |- wp (raise _) _ _ => apply wp_raise
  | |- wp (raise_for_status _) _ _ => unfold raise_for_status
  | |- wp (response_json ?r) _ _ =>
      unfold response_json; destruct (json r) as [?|] eqn:?
  | |- wp (when ?c _) _ _ => unfold when; destruct c eqn:?
  | |- wp (if ?c then _ else _) _ _ => destruct c eqn:?
  | |- wp (match ?x with _ => _ end) _ _ => destruct x eqn:?
  | |- wp (try_except _ _) _ _ => apply wp_try
  | |- wp (def _ _ _) _ _ => apply wp_def
  | |- wp (log _) _ _ =>
      let w := fresh "w" in let t := fresh "t" in
      let Hr := fresh "Hrel" in let Ht := fresh "Hlog" in
      let Hm := fresh "Hmsg" in
      apply wp_log; intros w t Hr Ht Hm
  | |- wp (fs_call _ _ _) _ _ =>
      apply wp_fs_call; [intros ? ? ? ?|intros ? ? ? ?]
  | |- wp (makedirs _) _ _ => unfold makedirs
  | |- wp (listdir _) _ _ => unfold listdir
  | |- wp (rmtree _) _ _ => unfold rmtree
  | |- wp (write_file _ _ _) _ _ => unfold write_file
  | |- wp (getsize _) _ _ => unfold getsize
  | |- wp (chmod _) _ _ => unfold chmod
  | |- wp (remove _) _ _ => unfold remove
  | |- wp (set_LOG_FILE_PATH _) _ _ => apply wp_set_LOG_FILE_PATH
  | |- wp (path_exists _) _ _ => apply wp_path_exists
  | |- wp (path_isfile _) _ _ => apply wp_path_isfile
  | |- wp platform_system _ _ => apply wp_platform_system
  | |- wp platform_machine _ _ => apply wp_platform_machine
  | |- wp expanduser_home _ _ => apply wp_expanduser_home
  | |- wp gettempdir _ _ => apply wp_gettempdir
  | |- wp (input _) _ _ => apply wp_input; [intros ? ? ? ?|intros ? ? ?]
  | |- wp (subprocess_run _) _ _ =>
      apply wp_subprocess_run; [intros ? ? ?|intros ? ? ?]
  | |- wp (requests_get _ _) _ _ =>
      apply wp_requests_get; [intros ? ? ? ?|intros ? ? ?]
  | |- wp (for_each _ _) _ _ =>
      let w := fresh "w" in let t := fresh "t" in let Ht := fresh "Hlog" in
      let Hk := fresh "Hkeeps" in
      apply wp_for_each_log; intros w t Hk Ht
  end.


Lemma Forall_is_log (φ : event → bool) (o : option path) (t : list event) :
  (∀ s, φ (EPrint s) = true) → (∀ p b, φ (EWrite p b) = true) →
  Forall (fun e => is_log_to o e = true) t → Forall (fun e => φ e = true) t.
Proof.
  intros Hp Hw H. eapply Forall_impl; [exact H|].
  intros [] He; simpl in He; try discriminate; auto.
Qed.

Lemma Forall_is_log_prop (P : event → Prop) (o : option path)
    (t : list event) :
  (∀ s, P (EPrint s)) → (∀ p b, P (EWrite p b)) →
  Forall (fun e => is_log_to o e = true) t → Forall P t.
Proof.
  intros Hp Hw H. eapply Forall_impl; [exact H|].
  intros [] He; simpl in He; try discriminate; auto.
Qed.

Ltac trace_leaf := cbv beta; first [reflexivity | done | eassumption].

Ltac trace_tac :=
  repeat lazymatch goal with
  | |- Forall _ [] => apply Forall_nil_2
  | |- Forall _ (_ :: _) => apply Forall_cons_2; [try trace_leaf|]
  | |- Forall _ (_ ++ _) => apply Forall_app_2
  | H : Forall ?φ ?t |- Forall ?φ ?t => exact H
  | H : Forall (fun e => is_log_to _ e = true) ?t |- Forall _ ?t =>
      eapply Forall_is_log; [intros; reflexivity|intros; reflexivity|exact H]
  end.

Lemma install_wheel_spec {R : Type} (wheel_path python_path : path) w :
  wp (R := R) (install_wheel wheel_path python_path) w (fun o _ t =>
    (o = Val true ∧ Forall (fun e => pip_ok e = true) t) ∨
    (o = Val false ∧ Forall (fun e => no_shortcuts_call e = true) t)).
Proof.
  unfold install_wheel.
  repeat wp_step.
  - left. split; [done|]. trace_tac. unfold pip_ok, pip_failed.
    match goal with H : (_ =? 0) = true |- _ => by rewrite H end.
  - right. split; [done|]. trace_tac.
  - right. split; [done|]. trace_tac.
Qed.

(** *** Traces *)

Lemma app_eq_split {A : Type} (t1 t2 pre post : list A) (x : A) :
  t1 ++ t2 = pre ++ x :: post →
  (∃ mid, t1 = pre ++ x :: mid ∧ post = mid ++ t2) ∨
  (∃ mid, pre = t1 ++ mid ∧ t2 = mid ++ x :: post).
Proof.
  intros H. apply List.app_eq_app in H as [l [[-> H]|[-> H]]].
  - destruct l as [|y l]; simpl in H.
    + right. exists []. rewrite !app_nil_r. by subst.
    + injection H as <- ->. left. by exists l.
  - right. by exists l.
Qed.

Section LeadsTo.
Context (bad φ : event → bool) (ψ : event → Prop).
Hypothesis φ_not_bad : ∀ e, φ e = true → bad e = false.

Lemma clean_no_bad (t pre post : list event) (e : event) :
  Forall (fun e => φ e = true) t → t = pre ++ e :: post → bad e = true →
  False.
Proof.
  intros Hc -> Hb. apply Forall_app in Hc as [_ Hc].
  apply Forall_cons in Hc as [Hc _]. apply φ_not_bad in Hc. congruence.
Qed.

Lemma leads_clean (t : list event) :
  Forall (fun e => φ e = true) t → leads_to bad ψ t.
Proof. intros Hc pre e post Heq Hb. by destruct (clean_no_bad _ _ _ _ Hc Heq Hb). Qed.

Lemma leads_app_then (t1 t2 : list event) :
  Exists ψ t2 → leads_to bad ψ t2 → leads_to bad ψ (t1 ++ t2).
Proof.
  intros Hψ H2 pre e post Heq Hb.
  apply app_eq_split in Heq as [(mid & -> & ->)|(mid & -> & ->)].
  - apply Exists_app. by right.
  - by eapply H2.
Qed.

Lemma leads_app_clean (t1 t2 : list event) :
  Forall (fun e => φ e = true) t1 → leads_to bad ψ t2 →
  leads_to bad ψ (t1 ++ t2).
Proof.
  intros Hc H2 pre e post Heq Hb.
  apply app_eq_split in Heq as [(mid & Heq & ->)|(mid & -> & ->)].
  - by destruct (clean_no_bad _ _ _ _ Hc Heq Hb).
  - by eapply H2.
Qed.

Lemma leads_app_r (t1 t2 : list event) :
  leads_to bad ψ t1 → Forall (fun e => φ e = true) t2 →
  leads_to bad ψ (t1 ++ t2).
Proof.
  intros H1 Hc pre e post Heq Hb.
  apply app_eq_split in Heq as [(mid & -> & ->)|(mid & -> & Heq)].
  - apply Exists_app. left. by eapply H1.
  - by destruct (clean_no_bad _ _ _ _ Hc Heq Hb).
Qed.

Lemma leads_wrap (t : list event) (x y : event) :
  φ x = true → φ y = true → leads_to bad ψ t →
  leads_to bad ψ (x :: t ++ [y]).
Proof.
  intros Hx Hy Ht.
  apply (leads_app_clean [x]); [by repeat constructor|].
  apply leads_app_r; [done|by repeat constructor].
Qed.
End LeadsTo.

Lemma negb_clean (bad : event → bool) (e : event) :
  negb (bad e) = true → bad e = false.
Proof. apply negb_true_iff. Qed.

Section Preceded.
Context (bad φ : event → bool) (C : list event → Prop).
Hypothesis φ_not_bad : ∀ e, φ e = true → bad e = false.

Lemma preceded_clean (t : list event) :
  Forall (fun e => φ e = true) t → preceded bad C t.
Proof.
  intros Hc pre e post Heq Hb.
  by destruct (clean_no_bad bad φ φ_not_bad _ _ _ _ Hc Heq Hb).
Qed.

(** Once a clean prefix satisfies [C], and keeps doing so however it is
    extended, anything may follow. *)
Lemma preceded_app (t1 t2 : list event) :
  Forall (fun e => φ e = true) t1 → (∀ mid, C (t1 ++ mid)) →
  preceded bad C (t1 ++ t2).
Proof.
  intros Hc HC pre e post Heq Hb.
  apply app_eq_split in Heq as [(mid & Heq & _)|(mid & -> & _)].
  - by destruct (clean_no_bad bad φ φ_not_bad _ _ _ _ Hc Heq Hb).
  - apply HC.
Qed.

Lemma preceded_wrap (t : list event) (x y : event) :
  φ x = true → φ y = true → (∀ pre, C pre → C (x :: pre)) →
  preceded bad C t → preceded bad C (x :: t ++ [y]).
Proof.
  intros Hx Hy Hcons Ht pre e post Heq Hb.
  destruct pre as [|x' pre]; simpl in Heq.
  - injection Heq as <- _. apply φ_not_bad in Hx. congruence.
  - injection Heq as <- Heq. apply Hcons.
    apply app_eq_split in Heq as [(mid & Heq & _)|(mid & _ & Heq)].
    + by eapply Ht.
    + destruct mid as [|? [|]]; simplify_eq/=.
      apply φ_not_bad in Hy. congruence.
Qed.
End Preceded.

Lemma has_cleanup_here (d : path) (t : list event) :
  has_cleanup d (ERmtree d true :: EMakedirs d true :: t).
Proof. by exists [], t. Qed.

Lemma has_cleanup_app_r (d : path) (s t : list event) :
  has_cleanup d t → has_cleanup d (s ++ t).
Proof. intros (t1 & t2 & ->). exists (s ++ t1), t2. by rewrite app_assoc. Qed.

Lemma has_cleanup_cons (d : path) (x : event) (t : list event) :
  has_cleanup d t → has_cleanup d (x :: t).
Proof. apply (has_cleanup_app_r d [x]). Qed.

Ltac cleanup_tac :=
  rewrite <- ?app_assoc; simpl;
  repeat lazymatch goal with
  | |- has_cleanup ?d (ERmtree ?d true :: EMakedirs ?d true :: _) =>
      apply has_cleanup_here
  | H : ∀ mid, has_cleanup ?d (?t ++ mid) |- has_cleanup ?d (?t ++ _) =>
      apply H
  | |- has_cleanup _ (_ :: _) => apply has_cleanup_cons
  | |- has_cleanup _ (_ ++ _) => apply has_cleanup_app_r
  end.

(** Find an event of the wanted kind in a trace. *)
Ltac exists_tac :=
  repeat lazymatch goal with
  | H : Exists ?ψ ?t |- Exists ?ψ ?t => exact H
  | H : Exists ?ψ ?t |- Exists ?ψ (?t ++ _) => apply Exists_app; left; exact H
  | |- Exists _ ((_ ++ _) ++ _) => rewrite <- app_assoc
  | |- Exists _ ([_] ++ _) =>
      first [ apply Exists_cons_hd; by eexists | apply Exists_cons_tl ]
  | |- Exists _ (_ ++ _) => apply Exists_app; right
  | |- Exists _ (_ :: _) =>
      first [ apply Exists_cons_hd; by eexists | apply Exists_cons_tl ]
  end.

(** A trace in which the wanted event comes after everything bad. *)
Ltac leads_tac φ Hbad :=
  rewrite <- ?app_assoc;
  repeat (apply leads_app_then; [solve [exists_tac]|]);
  apply (leads_clean _ φ); [exact Hbad|trace_tac].

(** *** Claims of the form: when a [bad] event occurs, the run ends in
    [return c] and its trace satisfies [T] *)

Lemma after_wp {R A : Type} (bad : event → bool) (c : R)
    (T : list event → Prop) (m : M R A) :
  (∀ w, wp m w (fun o _ t =>
     Exists (fun e => bad e = true) t → o = Ret c ∧ T t)) →
  after bad c T m.
Proof. intros H w. apply H. Qed.

Section After.
Context {R : Type} (bad φ : event → bool) (c : R) (T : list event → Prop).
Hypothesis φ_not_bad : ∀ e, φ e = true → bad e = false.
Hypothesis T_app : ∀ t1 t2, Forall (fun e => φ e = true) t1 → T t2 → T (t1 ++ t2).

Lemma clean_not_bad (t : list event) :
  Forall (fun e => φ e = true) t → ¬ Exists (fun e => bad e = true) t.
Proof.
  intros Hc Hb. apply Exists_exists in Hb as (e & He & Hbad).
  rewrite Forall_forall in Hc. specialize (Hc e He).
  apply φ_not_bad in Hc. congruence.
Qed.

(** Nothing bad happens in a computation that emits only [φ]. *)
Lemma after_clean {A : Type} (m : M R A) : emits φ m → after bad c T m.
Proof. intros Hm w Hb. by apply clean_not_bad in Hb. Qed.

(** A clean computation may run first. *)
Lemma after_bind {A B : Type} (m : M R A) (k : A → M R B) :
  emits φ m → (∀ a, after bad c T (k a)) → after bad c T (bind m k).
Proof.
  intros Hm Hk w. rewrite bind_run. specialize (Hm w).
  destruct (out (m w)) as [a| |]; simpl; intros Hb.
  - apply Exists_app in Hb as [Hb|Hb]; [by apply clean_not_bad in Hb|].
    destruct (Hk a _ Hb) as [-> HT]. auto.
  - by apply clean_not_bad in Hb.
  - by apply clean_not_bad in Hb.
Qed.

(** A clean computation may run last. *)
Lemma after_bind_l {A B : Type} (m : M R A) (k : A → M R B) :
  after bad c T m → (∀ a, emits φ (k a)) → after bad c T (bind m k).
Proof.
  intros Hm Hk w. rewrite bind_run. specialize (Hm w).
  destruct (out (m w)) as [a| |] eqn:Ho; simpl; intros Hb.
  - apply Exists_app in Hb as [Hb|Hb].
    + destruct (Hm Hb) as [Hr _]. congruence.
    + apply clean_not_bad in Hb; [done|apply Hk].
  - destruct (Hm Hb) as [Hr HT]. split; [congruence|done].
  - destruct (Hm Hb) as [Hr _]. congruence.
Qed.

Lemma after_when (b : bool) (m : M R unit) :
  after bad c T m → after bad c T (when b m).
Proof. destruct b; [done|]. intros _ w Hb. by apply Exists_nil in Hb. Qed.
End After.

Section Always.
Context {R : Type} (bad φ : event → bool) (ψ : event → Prop).
Hypothesis φ_not_bad : ∀ e, φ e = true → bad e = false.

Lemma always_clean {A : Type} (m : M R A) :
  emits φ m → always (leads_to bad ψ) m.
Proof. intros Hm w. by apply (leads_clean bad φ). Qed.

Lemma always_bind {A B : Type} (m : M R A) (k : A → M R B) :
  emits φ m → (∀ a, always (leads_to bad ψ) (k a)) →
  always (leads_to bad ψ) (bind m k).
Proof.
  intros Hm Hk w. rewrite bind_run. specialize (Hm w).
  destruct (out (m w)) as [a| |]; simpl.
  - apply (leads_app_clean bad φ); [done..|apply Hk].
  - by apply (leads_clean bad φ).
  - by apply (leads_clean bad φ).
Qed.

Lemma always_bind_r {A B : Type} (m : M R A) (k : A → M R B) :
  always (leads_to bad ψ) m → (∀ a, emits φ (k a)) →
  always (leads_to bad ψ) (bind m k).
Proof.
  intros Hm Hk w. rewrite bind_run. specialize (Hm w).
  destruct (out (m w)) as [a| |]; simpl; [|done..].
  apply (leads_app_r bad φ); [done..|apply Hk].
Qed.

Lemma always_when (b : bool) (m : M R unit) :
  always (leads_to bad ψ) m → always (leads_to bad ψ) (when b m).
Proof.
  destruct b; [done|]. intros _ w.
  apply (leads_clean bad φ); [done|constructor].
Qed.
End Always.

Ltac always_walk Hbad :=
  repeat first
    [ solve [apply (always_clean _ _ _ Hbad); emits_auto]
    | lazymatch goal with
      | |- always _ (bind _ _) =>
          apply (always_bind _ _ _ Hbad); [solve [emits_auto]|intros ?]
      | |- always _ (when _ _) => apply (always_when _ _ _ Hbad)
      end ].

(** Walk down a sequence of clean computations, as far as they are clean. *)
Ltac after_walk Hbad Happ :=
  repeat first
    [ solve [apply (after_clean _ _ _ _ Hbad); emits_auto]
    | lazymatch goal with
      | |- after _ _ _ (bind _ _) =>
          apply (after_bind _ _ _ _ Hbad Happ); [solve [emits_auto]|intros ?]
      | |- after _ _ _ (when _ _) => apply after_when
      | |- after _ _ _ (match ?x with _ => _ end) => destruct x
      end ].

(** Membership in the trace of a concrete run, by evaluation. *)
Lemma In_by_eval (e : event) (t : list event) :
  bool_decide (e ∈ t) = true → In e t.
Proof. intros H. apply list_elem_of_In. by apply bool_decide_eq_true in H. Qed.




(** From the body of [main] to [main]. *)
Lemma main_after (bad : event → bool) (c : Z) (T : list event → Prop) a w :
  bad (ECall "main") = false → (∀ v, bad (EReturn "main" v) = false) →
  after bad c T (main_body a) →
  Exists (fun e => bad e = true) (evs (main a w)) →
  out (main a w) = Val c ∧
  ∃ t, T t ∧ evs (main a w) = ECall "main" :: t ++ [EReturn "main" (show_int c)].
Proof.
  intros Hc Hr Ha. unfold main. rewrite def_run.
  specialize (Ha w).
  destruct (out (main_body a w)) as [[]|c'|e]; simpl; intros Hb.
  - apply Exists_cons in Hb as [Hb|Hb]; [congruence|].
    apply Exists_app in Hb as [Hb|Hb].
    + destruct (Ha Hb) as [[= ->] HT]. eauto.
    + apply Exists_cons in Hb as [Hb|Hb]; [by rewrite Hr in Hb|].
      by apply Exists_nil in Hb.
  - apply Exists_cons in Hb as [Hb|Hb]; [congruence|].
    by destruct (Ha Hb).
Qed.

Lemma main_leads_to (bad φ : event → bool) (ψ : event → Prop) a w :
  (∀ e, φ e = true → bad e = false) →
  φ (ECall "main") = true → (∀ v, φ (EReturn "main" v) = true) →
  always (leads_to bad ψ) (main_body a) →
  leads_to bad ψ (evs (main a w)).
Proof.
  intros Hbad Hc Hr Ha. unfold main. rewrite def_run. specialize (Ha w).
  destruct (out (main_body a w)) as [[]|c|e]; simpl.
  - by apply (leads_wrap bad φ).
  - by apply (leads_app_clean bad φ _ Hbad [ECall "main"]);
      [repeat constructor|].
Qed.

(** ** Pre-flight cleanup *)

(** C1 (the code departs from it): [main] writes its first log lines into
    the target directory before it looks whether the directory has
    content, so a directory that was absent or empty at invocation is found
    non-empty: the user is asked to confirm the removal, and the directory
    is deleted and created again.  With [--yes] it is deleted without the
    question. *)
Theorem fresh_directory_is_cleaned_up :
  (let r := main (Args target false false) fresh_world in
   node_at (w_fs fresh_world) target = None ∧
   In (EInput cleanup_prompt (Some "y")) (evs r) ∧
   In (ERmtree target true) (evs r)) ∧
  (let r := main (Args target false false) empty_dir_world in
   fs_listdir (w_fs empty_dir_world) target = Some [] ∧
   In (EInput cleanup_prompt (Some "y")) (evs r) ∧
   In (ERmtree target true) (evs r)) ∧
  (let r := main (Args target false true) fresh_world in
   In (ERmtree target true) (evs r)).
Proof.
  cbv zeta. split_and!;
    first [ apply In_by_eval; vm_compute; reflexivity
          | vm_compute; reflexivity ].
Qed.

(** Follow the file system from world to world. *)
Ltac same_but_tac :=
  repeat match goal with
  | H : _ <$> fs_listdir _ _ = Some _ |- _ => apply listdir_result in H
  | Hs : same_but ?lf ?w0 ?w, H : log_rel ?w ?w1 |- _ =>
      pose proof (same_but_log _ _ _ _ Hs H); clear H
  | Hs : same_but ?lf ?w0 ?w, Hf : w_fs ?w1 = w_fs ?w, Hk : keeps ?w ?w1 |- _ =>
      pose proof (same_but_keep _ _ _ _ Hs Hf Hk); clear Hf Hk
  end;
  repeat match goal with
  | Hs : same_but _ _ ?w, H : context [LOG_FILE_PATH ?w] |- _ =>
      lazymatch type of H with
      | same_but _ _ _ => fail
      | _ => rewrite (proj1 Hs) in H
      end
  end.

Lemma main_body_declined (a : args) w :
  yes a = false → is_directory (w_fs w) (install_dir a) →
  wp (main_body a) w (fun o w' t =>
    Exists (fun e => declined_cleanup e = true) t →
    o = Ret 1 ∧ Forall (fun e => harmless (install_dir a) e = true) t ∧
    ∀ q, q ≠ log_file_of (install_dir a) → w_fs w' !! q = w_fs w !! q).
Proof.
  intros Hyes Hdir. unfold main_body, normpath, main_preflight.
  rewrite Hyes. simpl negb. cbv iota.
  assert (same_but (log_file_of (install_dir a)) w
            (with_log_file_path (Some (log_file_of (install_dir a))) w))
    as Hsame by done.
  apply wp_bind, wp_set_LOG_FILE_PATH, wp_bind. unfold makedirs.
  apply wp_fs_call.
  - intros a0 w1 Hmk%makedirs_result Hk. simpl in Hmk.
    apply (fs_makedirs_existing _ _ _ Hdir) in Hmk.
    assert (same_but (log_file_of (install_dir a)) w w1) as Hsame1.
    { split; [by rewrite (proj2 Hk)|]. intros q _. by rewrite Hmk. }
    clear Hsame Hmk Hk.
    repeat wp_step;
      try (apply (wp_emits (fun e => negb (declined_cleanup e))); [emits_auto|];
           intros [?|?|?] ? ? ?;
           try (apply (wp_emits (fun e => negb (declined_cleanup e)));
                [emits_auto|]; intros ? ? ? ?));
      same_but_tac; cbv beta; intros Hb;
      first
        [ split_and!;
          [ reflexivity
          | repeat first
              [ apply Forall_nil_2
              | apply Forall_app_2
              | apply Forall_cons_2; [by apply bool_decide_eq_true|]
              | apply Forall_cons_2; [reflexivity|]
              | by apply is_log_to_harmless ]
          | match goal with Hs : same_but _ _ ?w |- context [w_fs ?w] =>
              exact (proj2 Hs)
            end ]
        | exfalso;
          eapply (clean_not_bad declined_cleanup
                    (fun e => negb (declined_cleanup e)) (negb_clean _));
            [|exact Hb];
          trace_tac;
          match goal with
          | H : declined _ = false |- _ => simpl; by rewrite H
          end ].
  - intros e w1 _ _ Hb. exfalso.
    eapply (clean_not_bad declined_cleanup
              (fun e => negb (declined_cleanup e)) (negb_clean _));
      [|exact Hb].
    trace_tac.
Qed.


(** C2 does not hold as stated: the run that the user declines has already
    written its log file into the installation directory, so the
    directory's contents have changed: the listing of an earlier
    installation gains an entry. *)
Lemma declined_cleanup_writes_log :
  let w := user_declines_world in
  let r := main (Args target false false) w in
  nonempty_dir (w_fs w) target ∧
  In (EInput cleanup_prompt (Some "n")) (evs r) ∧
  declined "n" = true ∧
  out r = Val 1 ∧
  w_fs w !! log_file_of target = None ∧
  is_Some (w_fs (st r) !! log_file_of target) ∧
  fs_listdir (w_fs w) target = Some [CONDA_ENV_NAME] ∧
  length <$> fs_listdir (w_fs (st r)) target = Some 2%nat.
Proof.
  cbv zeta. split_and!.
  - split; [reflexivity|]. exists CONDA_ENV_NAME. vm_compute. eauto.
  - apply In_by_eval. vm_compute. reflexivity.
  - reflexivity.
  - vm_compute. reflexivity.
  - vm_compute. reflexivity.
  - vm_compute. eauto.
  - vm_compute. reflexivity.
  - vm_compute. reflexivity.
Qed.

(** C2 (as amended): when the target directory exists, [--yes] was not
    given and the user declines the confirmation, [main] returns exit code
    1; it deletes nothing, starts no process and makes no request: its
    only effects are its messages, the question, a listing of the
    directory, a [makedirs] of the directory, which exists, and the
    writes to the log file in the directory; and every path of the file
    system other than that log file is as it was. *)
Theorem declined_cleanup_keeps_installation (a : args) (w : world) (line : string) :
  yes a = false →
  is_directory (w_fs w) (install_dir a) →
  In (EInput cleanup_prompt (Some line)) (evs (main a w)) →
  declined line = true →
  out (main a w) = Val 1 ∧
  Forall (fun e => harmless (install_dir a) e = true) (evs (main a w)) ∧
  ∀ q, q ≠ log_file_of (install_dir a) →
       w_fs (st (main a w)) !! q = w_fs w !! q.
Proof.
  intros Hyes Hdir Hin Hdec.
  pose proof (main_body_declined a w Hyes Hdir) as Hwp. unfold wp in Hwp.
  assert (declined_cleanup (EInput cleanup_prompt (Some line)) = true) as Hd.
  { simpl. by rewrite Hdec. }
  revert Hin. unfold main. rewrite def_run.
  destruct (main_body a w) as [o w' t]. cbn [out st evs] in *.
  destruct o as [[]|c|e]; cbn [out st evs]; intros [Hin|Hin]; try done.
  - apply in_app_or in Hin as [Hin|[Hin|[]]]; [|done].
    destruct Hwp as ([= ->] & Hh & Hfs).
    { apply Exists_exists. exists (EInput cleanup_prompt (Some line)).
      split; [by apply list_elem_of_In|done]. }
    split_and!; [done| |done].
    constructor; [done|]. apply Forall_app_2; [done|by constructor].
  - destruct Hwp as ([=] & _).
    apply Exists_exists. exists (EInput cleanup_prompt (Some line)).
    split; [by apply list_elem_of_In|done].
Qed.

Lemma declined_cleanup_keeps_installation_witness :
  let r := main (Args target false false) user_declines_world in
  out r = Val 1 ∧
  Forall (fun e => harmless target e = true) (evs r) ∧
  ∀ q, q ≠ log_file_of target →
       w_fs (st r) !! q = w_fs user_declines_world !! q.
Proof.
  apply (declined_cleanup_keeps_installation
           (Args target false false) user_declines_world "n").
  - reflexivity.
  - repeat constructor.
  - apply In_by_eval. vm_compute. reflexivity.
  - reflexivity.
Defined.

(** ** Exit codes *)

Section Safe.
Context {R : Type}.

Lemma total_safe {A : Type} (m : M R A) : total m → safe m.
Proof. intros Hm w e He. destruct (Hm w) as [a Ha]. congruence. Qed.

Lemma safe_ret {A : Type} (a : A) : safe (R := R) (ret a).
Proof. by intros w e. Qed.

Lemma safe_return {A : Type} (r : R) : safe (A := A) (return_ r).
Proof. by intros w e. Qed.

Lemma safe_bind {A B : Type} (m : M R A) (k : A → M R B) :
  safe m → (∀ a, safe (k a)) → safe (bind m k).
Proof.
  intros Hm Hk w e. rewrite bind_run. specialize (Hm w).
  destruct (out (m w)) as [a| |e'] eqn:Ho; simpl; [|done|].
  - intros He. destruct (Hk a _ _ He) as (ev & Hl & Hev).
    exists ev. split; [|done]. rewrite last_app. by rewrite Hl.
  - intros [= <-]. exact (Hm _ eq_refl).
Qed.

Lemma safe_try {A : Type} (m : M R A) (h : exn → M R A) :
  (∀ e, safe (h e)) → safe (try_except m h).
Proof.
  intros Hh w e. rewrite try_except_run.
  destruct (out (m w)) as [a| |e'] eqn:Ho; simpl; [congruence..|].
  intros He. destruct (Hh e' _ _ He) as (ev & Hl & Hev).
  exists ev. split; [|done]. rewrite last_app. by rewrite Hl.
Qed.

Lemma safe_when (c : bool) (m : M R unit) : safe m → safe (when c m).
Proof. destruct c; [done|]. intros _. apply safe_ret. Qed.

Lemma safe_def {R' : Type} (f : string) (show : R' → string)
    (body : M R' Empty_set) :
  safe body → safe (R := R) (def f show body).
Proof.
  intros Hb w e. rewrite def_run. specialize (Hb w).
  destruct (out (body w)) as [[]|c|e'] eqn:Ho; cbn [out evs]; [done|].
  intros [= <-]. destruct (Hb _ eq_refl) as (ev & Hl & Hev).
  exists ev. split; [|done].
  by rewrite last_cons, Hl.
Qed.

Lemma safe_fs_call {A : Type} (what : string) (ev : bool → event)
    (op : files → option (A * files)) :
  escapes (ev false) = true → safe (R := R) (fs_call what ev op).
Proof.
  intros Hev w e. unfold fs_call. destruct (next_fault w) as [refused w1].
  destruct (if refused then None else op (w_fs w1)) as [[a f']|]; simpl;
    [done|]. intros _. by exists (ev false).
Qed.

Lemma safe_input (prompt : string) : safe (R := R) (input prompt).
Proof.
  intros w e. unfold input. destruct (w_stdin w); simpl; [|done].
  intros _. by eexists.
Qed.

Lemma safe_subprocess_run (argv : list string) :
  is_env_remove argv = true → safe (R := R) (subprocess_run argv).
Proof.
  intros Hargv w e. unfold subprocess_run.
  destruct (w_procs w) as [|[|res effect] rest]; simpl; [| |done];
    intros _; by eexists.
Qed.

Lemma total_log (message : string) : total (R := R) (log message).
Proof.
  intros w. exists tt. apply (wp_log message w (fun o _ _ => o = Val tt)).
  by intros.
Qed.
End Safe.

Ltac safe_step :=
  lazymatch goal with
  | |- safe (bind _ _) => apply safe_bind; [|intros ?]
  | |- safe (ret _) => apply safe_ret
  | |- safe (return_ _) => apply safe_return
  | |- safe (try_except _ _) => apply safe_try; intros ?
  | |- safe (when _ _) => apply safe_when
  | |- safe (def _ _ _) => apply safe_def
  | |- safe (log _) => apply total_safe, total_log
  | |- safe (subprocess_run _) => apply safe_subprocess_run; reflexivity
  | |- safe (input _) => apply safe_input
  | |- safe (fs_call _ _ _) => apply safe_fs_call; reflexivity
  | |- safe (if ?c then _ else _) => destruct c
  | |- safe (match ?x with _ => _ end) => destruct x
  | |- safe platform_system => apply total_safe; intros ?; by eexists
  | |- safe (set_LOG_FILE_PATH _) => apply total_safe; intros ?; by eexists
  | |- safe (path_exists _) => apply total_safe; intros ?; by eexists
  | |- safe (path_isfile _) => apply total_safe; intros ?; by eexists
  | |- safe ?m => let h := head_of m in unfold h; cbv beta zeta
  end.

Lemma main_body_safe a : safe (main_body a).
Proof. repeat safe_step. Qed.

Section Rets.
Lemma rets01_plain {A : Type} (m : M Z A) :
  (∀ w c, out (m w) ≠ Ret c) → rets01 m.
Proof. intros Hm w c Hc. by destruct (Hm w c). Qed.

Lemma rets01_return {A : Type} (c : Z) :
  c = 0 ∨ c = 1 → rets01 (A := A) (return_ c).
Proof. by intros Hc w c' [= <-]. Qed.

Lemma rets01_bind {A B : Type} (m : M Z A) (k : A → M Z B) :
  rets01 m → (∀ a, rets01 (k a)) → rets01 (bind m k).
Proof.
  intros Hm Hk w c. rewrite bind_run. specialize (Hm w).
  destruct (out (m w)) as [a|c'|]; simpl; [apply Hk| |done].
  intros [= <-]. by apply Hm.
Qed.

Lemma rets01_try {A : Type} (m : M Z A) (h : exn → M Z A) :
  rets01 m → (∀ e, rets01 (h e)) → rets01 (try_except m h).
Proof.
  intros Hm Hh w c. rewrite try_except_run. specialize (Hm w).
  destruct (m w) as [[a|c'|e] w1 t1]; simpl in *; [done| |apply Hh].
  apply Hm.
Qed.

Lemma rets01_when (c : bool) (m : M Z unit) : rets01 m → rets01 (when c m).
Proof. destruct c; [done|]. intros _. by apply rets01_plain. Qed.

Lemma rets01_def {R' : Type} (f : string) (show : R' → string)
    (body : M R' Empty_set) : rets01 (def f show body).
Proof.
  apply rets01_plain. intros w c. rewrite def_run.
  by destruct (out (body w)) as [[]| |].
Qed.

Lemma rets01_log (message : string) : rets01 (log message).
Proof.
  apply rets01_plain. intros w c. destruct (total_log (R := Z) message w).
  congruence.
Qed.

Lemma rets01_fs_call {A : Type} (what : string) (ev : bool → event)
    (op : files → option (A * files)) : rets01 (fs_call what ev op).
Proof.
  apply rets01_plain. intros w c. unfold fs_call.
  destruct (next_fault w) as [refused w1].
  by destruct (if refused then None else op (w_fs w1)) as [[a f']|].
Qed.

Lemma rets01_input (prompt : string) : rets01 (input prompt).
Proof. apply rets01_plain. intros w c. unfold input. by destruct (w_stdin w). Qed.

Lemma rets01_subprocess_run (argv : list string) : rets01 (subprocess_run argv).
Proof.
  apply rets01_plain. intros w c. unfold subprocess_run.
  by destruct (w_procs w) as [|[|res effect] rest].
Qed.
End Rets.

Ltac rets_step :=
  lazymatch goal with
  | |- rets01 (bind _ _) => apply rets01_bind; [|intros ?]
  | |- rets01 (ret _) => by apply rets01_plain
  | |- rets01 (return_ _) => apply rets01_return; first [by left|by right]
  | |- rets01 (try_except _ _) => apply rets01_try; [|intros ?]
  | |- rets01 (when _ _) => apply rets01_when
  | |- rets01 (def _ _ _) => apply rets01_def
  | |- rets01 (log _) => apply rets01_log
  | |- rets01 (subprocess_run _) => apply rets01_subprocess_run
  | |- rets01 (input _) => apply rets01_input
  | |- rets01 (fs_call _ _ _) => apply rets01_fs_call
  | |- rets01 (if ?c then _ else _) => destruct c
  | |- rets01 (match ?x with _ => _ end) => destruct x
  | |- rets01 platform_system => by apply rets01_plain
  | |- rets01 (set_LOG_FILE_PATH _) => by apply rets01_plain
  | |- rets01 (path_exists _) => by apply rets01_plain
  | |- rets01 (path_isfile _) => by apply rets01_plain
  | |- rets01 ?m => let h := head_of m in unfold h; cbv beta zeta
  end.

Lemma main_body_rets01 a : rets01 (main_body a).
Proof. repeat rets_step. Qed.

(** With a console that takes every line, as in the model, the calls
    that [main] leaves unguarded are the only way out but its exit codes:
    [main] returns 0 or 1, or an exception leaves it from a failed
    [os.makedirs], [os.listdir], [input] or start of [conda env remove],
    which is then the last event of the run. *)
Lemma main_exit_codes (a : args) (w : world) :
  match out (main a w) with
  | Val c => c = 0 ∨ c = 1
  | Ret r => False
  | Exn e => ∃ ev, last (evs (main a w)) = Some ev ∧ escapes ev = true
  end.
Proof.
  pose proof (main_body_safe a w) as Hsafe.
  pose proof (main_body_rets01 a w) as Hrets.
  unfold main. rewrite def_run.
  destruct (out (main_body a w)) as [[]|c|e]; cbn [out evs].
  - by apply Hrets.
  - destruct (Hsafe e eq_refl) as (ev & Hl & Hev). exists ev. split; [|done].
    by rewrite last_cons, Hl.
Qed.

(** C3 (the code departs from it): exceptions do leave [main].  Four of
    its calls stand outside every [try]: the [os.makedirs] and the
    [os.listdir] of the target directory, [input], and the start of
    [conda env remove].  When the operating system refuses the
    [os.makedirs] or the [os.listdir], when [input] meets the end of the
    input, or when the conda that [which conda] names cannot be started,
    [main] returns no exit code: the exception is its outcome, and the
    failed call is the last thing it did. *)
Theorem exceptions_leave_main :
  (let r := main (Args target false false) readonly_world in
   out r = Exn (OSError "makedirs") ∧
   last (evs r) = Some (EMakedirs target false)) ∧
  (let r := main (Args target false false) listdir_refused_world in
   out r = Exn (OSError "listdir") ∧
   last (evs r) = Some (EListdir target false)) ∧
  (let r := main (Args target false false) no_terminal_world in
   out r = Exn EOFError ∧
   last (evs r) = Some (EInput cleanup_prompt None)) ∧
  (let r := main (Args target false true) conda_cannot_start_world in
   out r = Exn (OSError "spawn") ∧
   last (evs r)
   = Some (ESpawn (env_remove_argv "/usr/bin/conda"
                     (target ++ [CONDA_ENV_NAME])) None)).
Proof. cbv zeta. split_and!; vm_compute; reflexivity. Qed.

(** ** Asset selection *)

Lemma endswith_cons (c : ascii) (s suffix : string) :
  Str.endswith (String c s) suffix =
  if String.eqb (String c s) suffix then true else Str.endswith s suffix.
Proof. reflexivity. Qed.

Lemma endswith_spec (s suffix : string) :
  Str.endswith s suffix = true ↔ ∃ front, s = front +:+ suffix.
Proof.
  split.
  - induction s as [|c s IH].
    + destruct suffix; [intros _; by exists EmptyString|done].
    + rewrite endswith_cons.
      destruct (String.eqb (String c s) suffix) eqn:He.
      * apply String.eqb_eq in He as <-. by exists EmptyString.
      * intros [front ->]%IH. by exists (String c front).
  - intros [front ->]. induction front as [|c front IH].
    + change (EmptyString +:+ suffix) with suffix.
      destruct suffix; [done|]. by rewrite endswith_cons, String.eqb_refl.
    + change (String c front +:+ suffix) with (String c (front +:+ suffix)).
      rewrite endswith_cons. by destruct (String.eqb _ _).
Qed.

Lemma find_wheel_asset_Some (feed0 : list asset) (a : asset) :
  find_wheel_asset feed0 = Some a ↔
  ∃ before later,
    feed0 = before ++ a :: later ∧
    Str.endswith (name a) ".whl" = true ∧
    Forall (fun b => Str.endswith (name b) ".whl" = false) before.
Proof.
  split.
  - induction feed0 as [|b rest IH]; simpl; [done|].
    destruct (Str.endswith (name b) ".whl") eqn:Hb.
    + intros [= ->]. by exists [], rest.
    + intros (before & later & -> & Ha & Hbefore)%IH.
      exists (b :: before), later. split_and!; [done..|by constructor].
  - intros (before & later & -> & Ha & Hbefore).
    induction Hbefore as [|b before Hb _ IH]; simpl.
    + by rewrite Ha.
    + by rewrite Hb.
Qed.

(** C6: the asset [download_latest_wheel] selects is the first one, in feed
    order, whose name ends in [.whl], whatever the assets after it are; of
    [tool.tar.gz], [tool.whl], [readme.txt] it selects [tool.whl]. *)
Theorem first_wheel_is_selected :
  (∀ feed0 a,
     find_wheel_asset feed0 = Some a ↔
     ∃ before later,
       feed0 = before ++ a :: later ∧
       (∃ front, name a = front +:+ ".whl") ∧
       Forall (fun b => ¬ ∃ front, name b = front +:+ ".whl") before) ∧
  (∀ u1 u2 u3,
     find_wheel_asset
       [Asset "tool.tar.gz" u1; Asset "tool.whl" u2; Asset "readme.txt" u3]
     = Some (Asset "tool.whl" u2)).
Proof.
  split; [|done].
  intros feed0 a. rewrite find_wheel_asset_Some.
  split; intros (before & later & -> & Ha & Hbefore);
    exists before, later; (split_and!; [done|by apply endswith_spec|]);
    (eapply Forall_impl; [exact Hbefore|]); intros b Hb; simpl in *.
  - intros Hw%endswith_spec. congruence.
  - destruct (Str.endswith (name b) ".whl") eqn:Hw; [|done].
    by apply endswith_spec in Hw.
Qed.

(** ** The runtime manager *)

Ltac host_tac :=
  repeat match goal with
  | H : log_rel _ _ |- _ => destruct H as [H _]
  | H : keeps _ _ |- _ =>
      let Hh := fresh "Hhost" in destruct H as [Hh _]; rewrite ?Hh in *; clear Hh
  end.

Lemma install_miniconda_spec {R : Type} (d : path) w :
  wp (R := R) (install_miniconda d) w (fun o _ t =>
    Forall (miniconda_event (w_host w)) t ∧
    ∀ cp, o = Val (true, Some cp) → cp = conda_path_of (w_host w)).
Proof.
  unfold install_miniconda.
  repeat wp_step; host_tac;
    (split; [|intros cp Hcp; simplify_eq/=; try done]);
    try (unfold conda_path_of, miniconda_path_of;
         match goal with H : is_windows _ = _ |- _ => by rewrite H end);
    repeat first
      [ apply Forall_nil_2
      | apply Forall_app_2
      | eapply Forall_is_log_prop; [done|done|eassumption]
      | apply Forall_cons_2;
        [ first [ exact I
                | by left; left; eexists
                | by left; right; eexists
                | right; eexists; unfold conda_path_of, miniconda_path_of;
                  match goal with
                  | H : is_windows _ = _ |- _ => by rewrite H
                  end ] |] ].
Qed.

Lemma prefix_snoc (d l : path) (x : string) :
  d `prefix_of` l ++ [x] ↔ d `prefix_of` l ∨ d = l ++ [x].
Proof.
  split.
  - intros [k Hk]. destruct k as [|y k _] using rev_ind.
    + right. by rewrite app_nil_r in Hk.
    + left. rewrite app_assoc in Hk. apply app_inj_tail in Hk as [-> _].
      by exists k.
  - intros [[k ->]| ->]; [|done]. exists (k ++ [x]). by rewrite app_assoc.
Qed.

(** C10 (as amended): [install_miniconda] does not look at [install_dir]:
    any two values give the same run.  The processes it starts are the
    Miniconda installer with [~/miniconda3] as target and [conda init] of
    the conda in [~/miniconda3], which is the path it returns.  That
    directory lies inside the target installation directory exactly when
    the target is [~/miniconda3] itself, the home directory or one of its
    ancestors. *)
Theorem miniconda_goes_to_home :
  (∀ d1 d2 w, install_miniconda (R := Z) d1 w = install_miniconda d2 w) ∧
  (∀ d w argv result,
     In (ESpawn argv result) (evs (install_miniconda (R := Z) d w)) →
     installs_to_home (w_host w) argv ∨
     ∃ rest, argv = conda_path_of (w_host w) :: "init" :: rest) ∧
  (∀ d w cp,
     out (install_miniconda (R := Z) d w) = Val (true, Some cp) →
     cp = conda_path_of (w_host w)) ∧
  (∀ h d,
     d `prefix_of` miniconda_path_of h ↔
     d `prefix_of` home h ∨ d = miniconda_path_of h).
Proof.
  split_and!.
  - reflexivity.
  - intros d w argv result Hin%list_elem_of_In.
    destruct (install_miniconda_spec (R := Z) d w) as [Hev _].
    rewrite Forall_forall in Hev. apply (Hev _ Hin).
  - intros d w cp Hout.
    destruct (install_miniconda_spec (R := Z) d w) as [_ Hcp]. by apply Hcp.
  - intros h d. apply prefix_snoc.
Qed.

(** C10 as stated fails for [--install-dir ~]: Miniconda lands in
    [~/miniconda3], inside the target directory. *)
Lemma miniconda_inside_install_dir :
  let d := home linux in
  let r := install_miniconda (R := Z) d no_conda_world in
  out r = Val (true, Some "/home/u/miniconda3/bin/conda") ∧
  In (ESpawn ["/tmp/Miniconda3-latest-Linux-x86_64.sh"; "-b"; "-p";
              "/home/u/miniconda3"]
             (Some (Completed 0 EmptyString EmptyString))) (evs r) ∧
  d `prefix_of` miniconda_path_of linux.
Proof.
  cbv zeta. split_and!.
  - vm_compute. reflexivity.
  - apply In_by_eval. vm_compute. reflexivity.
  - by exists ["miniconda3"].
Qed.

Lemma miniconda_goes_to_home_witness :
  let r := install_miniconda (R := Z) target no_conda_world in
  out r = Val (true, Some "/home/u/miniconda3/bin/conda") ∧
  "/home/u/miniconda3/bin/conda" = conda_path_of (w_host no_conda_world).
Proof.
  cbv zeta.
  assert (out (install_miniconda (R := Z) target no_conda_world) =
          Val (true, Some "/home/u/miniconda3/bin/conda")) as Hout
    by (vm_compute; reflexivity).
  split; [exact Hout|].
  exact (proj1 (proj2 (proj2 miniconda_goes_to_home)) target no_conda_world
           _ Hout).
Defined.

Lemma main_preflight_cleanup (a : args) (d : path) w :
  yes a = true → nonempty_dir (w_fs w) d →
  wp (main_preflight a d) w (fun o _ t =>
    Forall (fun e => negb (is_call "create_conda_env" e) = true) t ∧
    (∀ v, o = Val v → ∀ mid, has_cleanup d (t ++ mid))).
Proof.
  intros Hyes Hne. unfold main_preflight, main_remove_existing.
  rewrite Hyes. simpl negb. cbv iota.
  apply wp_bind, wp_bind, wp_path_exists.
  rewrite bool_decide_eq_true_2 by (rewrite (proj1 Hne); eauto).
  apply wp_bind. unfold listdir. apply wp_fs_call.
  - intros entries w1 Hls Hlog.
    apply fmap_Some in Hls as (l & Hls & [= -> Hfs]).
    pose proof (fs_listdir_nonempty _ _ _ Hne Hls) as Hl.
    apply wp_ret. simpl. destruct l as [|c l]; [done|].
    unfold when at 1.
    repeat wp_step;
      try (apply (wp_emits (fun e => negb (is_call "create_conda_env" e)));
           [emits_auto|];
           intros [r| |] w' t' Ht'; repeat wp_step).
    all: split; [trace_tac|intros v Hv mid; first [discriminate Hv|cleanup_tac]].
  - intros e w1 _ _. split; [trace_tac|by intros v Hv].
Qed.

Lemma main_body_cleanup (a : args) w :
  yes a = true → nonempty_dir (w_fs w) (install_dir a) →
  wp (main_body a) w (fun _ _ t =>
    preceded (is_call "create_conda_env") (has_cleanup (install_dir a)) t).
Proof.
  intros Hyes Hne. unfold main_body, normpath.
  repeat wp_step.
  - match goal with
    | H : pair () <$> fs_makedirs _ _ = Some _ |- _ =>
        apply fmap_Some in H as (f' & Hmk & [= _ Hf'])
    end.
    subst f'. eapply fs_makedirs_nonempty in Hne; [|exact Hmk].
    repeat match goal with
    | H : log_rel _ _ |- _ => eapply log_rel_nonempty in Hne; [|exact H]; clear H
    end.
    eapply wp_mono; [by apply main_preflight_cleanup|].
    intros [v| |] w3 t1 [Hclean Hcleanup].
    + apply (wp_emits (fun _ => true)); [emits_auto|].
      intros o w4 t2 _. rewrite !app_assoc.
      apply (preceded_app _ (fun e => negb (is_call "create_conda_env" e)));
        [apply negb_clean|trace_tac|].
      intros mid. specialize (Hcleanup v eq_refl). cleanup_tac.
    + apply (preceded_clean _ (fun e => negb (is_call "create_conda_env" e)));
        [apply negb_clean|trace_tac].
    + apply (preceded_clean _ (fun e => negb (is_call "create_conda_env" e)));
        [apply negb_clean|trace_tac].
  - apply (preceded_clean _ (fun e => negb (is_call "create_conda_env" e)));
      [apply negb_clean|trace_tac].
Qed.

Lemma main_remove_existing_rmtree (d : path) w :
  wp (main_remove_existing d) w (fun _ _ t =>
    leads_to env_remove_ran (is_rmtree d) t).
Proof.
  unfold main_remove_existing.
  repeat wp_step;
    try (apply (wp_emits (fun e => negb (env_remove_ran e))); [emits_auto|];
         intros [r| |] w1 t1 Ht1; repeat wp_step);
    leads_tac (fun e => negb (env_remove_ran e)) (negb_clean env_remove_ran).
Qed.

Lemma main_body_rmtree a :
  always (leads_to env_remove_ran (is_rmtree (install_dir a))) (main_body a).
Proof.
  unfold main_body, normpath.
  always_walk (negb_clean env_remove_ran).
  apply (always_bind_r _ _ _ (negb_clean env_remove_ran)); [|intros; emits_auto].
  unfold main_preflight.
  always_walk (negb_clean env_remove_ran).
  intros w. apply main_remove_existing_rmtree.
Qed.

Lemma main_remove_existing_failed (d : path) w :
  wp (main_remove_existing d) w (fun o _ t =>
    Exists (fun e => rmtree_failed e = true) t →
    o = Ret 1 ∧ leads_to rmtree_failed (logged close_message) t).
Proof.
  unfold main_remove_existing.
  repeat wp_step;
    try (apply (wp_emits (fun e => negb (rmtree_failed e))); [emits_auto|];
         intros [r| |] w1 t1 Ht1; repeat wp_step);
    (intros Hb; first
       [ split;
         [ reflexivity
         | leads_tac (fun e => negb (rmtree_failed e)) (negb_clean rmtree_failed) ]
       | exfalso;
         eapply (clean_not_bad rmtree_failed (fun e => negb (rmtree_failed e))
                   (negb_clean _)); [|exact Hb]; trace_tac ]).
Qed.

Lemma main_body_failed a :
  after rmtree_failed 1 (leads_to rmtree_failed (logged close_message))
        (main_body a).
Proof.
  unfold main_body, normpath.
  after_walk (negb_clean rmtree_failed)
             (leads_app_clean rmtree_failed _ (logged close_message)
                (negb_clean rmtree_failed)).
  apply (after_bind_l _ _ _ _ (negb_clean rmtree_failed)); [|intros; emits_auto].
  unfold main_preflight.
  after_walk (negb_clean rmtree_failed)
             (leads_app_clean rmtree_failed _ (logged close_message)
                (negb_clean rmtree_failed)).
  apply after_wp. intros w. apply main_remove_existing_failed.
Qed.

(** What holds of the failures of the pre-flight cleanup: a
    [conda env remove] that runs and exits with an error does not stop the
    run, which goes on to delete the target directory; a failing
    [shutil.rmtree] is fatal: [main] returns exit code 1, after logging
    the message that asks to close the applications using the product. *)
Lemma cleanup_failures (a : args) (w : world) :
  (∀ pre argv res post,
     evs (main a w) = pre ++ ESpawn argv (Some res) :: post →
     is_env_remove argv = true → returncode res ≠ 0 →
     Exists (is_rmtree (install_dir a)) post) ∧
  (∀ p, In (ERmtree p false) (evs (main a w)) →
        out (main a w) = Val 1 ∧
        leads_to rmtree_failed (logged close_message) (evs (main a w))).
Proof.
  split.
  - intros pre argv res post Hevs Hargv _.
    eapply (main_leads_to env_remove_ran (fun e => negb (env_remove_ran e))
              _ a w (negb_clean _) eq_refl (fun _ => eq_refl)
              (main_body_rmtree a)); [exact Hevs|].
    simpl. by rewrite Hargv.
  - intros p Hin.
    destruct (main_after rmtree_failed 1 _ a w eq_refl (fun _ => eq_refl)
                (main_body_failed a)) as (Hout & t & Ht & Hevs).
    { apply Exists_exists. exists (ERmtree p false).
      split; [by apply list_elem_of_In|done]. }
    split; [done|]. rewrite Hevs.
    by apply (leads_wrap _ (fun e => negb (rmtree_failed e)));
      [apply negb_clean|..].
Qed.

Lemma cleanup_failures_witness :
  (let t := evs (main (Args target false true) env_remove_fails_world) in
   let argv := env_remove_argv "/usr/bin/conda" (target ++ [CONDA_ENV_NAME]) in
   t = take 20 t ++ ESpawn argv (Some (Completed 1 EmptyString EmptyString)) :: drop 21 t ∧
   Exists (is_rmtree target) (drop 21 t)) ∧
  (let r := main (Args target false true) rmtree_refused_world in
   In (ERmtree target false) (evs r) ∧
   out r = Val 1 ∧ leads_to rmtree_failed (logged close_message) (evs r)).
Proof.
  split; cbv zeta.
  - assert (evs (main (Args target false true) env_remove_fails_world) =
            take 20 (evs (main (Args target false true) env_remove_fails_world))
            ++ ESpawn (env_remove_argv "/usr/bin/conda" (target ++ [CONDA_ENV_NAME]))
                      (Some (Completed 1 EmptyString EmptyString))
            :: drop 21 (evs (main (Args target false true) env_remove_fails_world)))
      as Hevs by (vm_compute; reflexivity).
    split; [exact Hevs|].
    apply (proj1 (cleanup_failures (Args target false true) env_remove_fails_world)
             _ _ _ _ Hevs); [reflexivity|done].
  - assert (In (ERmtree target false)
               (evs (main (Args target false true) rmtree_refused_world)))
      as Hin by (apply In_by_eval; vm_compute; reflexivity).
    split; [exact Hin|].
    exact (proj2 (cleanup_failures (Args target false true) rmtree_refused_world)
             _ Hin).
Defined.

(** C5 (the code departs from it): a removal of the runtime environment
    that fails can abort the run.  [main] starts [conda env remove]
    outside every [try]: when the conda that [which conda] names cannot
    be started, the exception leaves [main], which returns no exit code,
    never calls [shutil.rmtree], and leaves the earlier installation, its
    environment included, where it was. *)
Theorem env_remove_failure_aborts :
  let a := Args target false true in
  let w := conda_cannot_start_world in
  let argv := env_remove_argv "/usr/bin/conda" (target ++ [CONDA_ENV_NAME]) in
  nonempty_dir (w_fs w) target ∧
  In (ESpawn argv None) (evs (main a w)) ∧ is_env_remove argv = true ∧
  out (main a w) = Exn (OSError "spawn") ∧
  (∀ p ok, ¬ In (ERmtree p ok) (evs (main a w))) ∧
  w_fs (st (main a w)) !! (target ++ [CONDA_ENV_NAME; "python"])
  = Some (File "ELF").
Proof.
  cbv zeta. split_and!.
  - split; [reflexivity|]. exists CONDA_ENV_NAME. vm_compute. eauto.
  - apply In_by_eval. vm_compute. reflexivity.
  - reflexivity.
  - vm_compute. reflexivity.
  - intros p ok Hin.
    assert (forallb (fun e => match e with ERmtree _ _ => false | _ => true end)
              (evs (main (Args target false true) conda_cannot_start_world))
            = true) as H by (vm_compute; reflexivity).
    rewrite forallb_forall in H. by specialize (H _ Hin).
  - vm_compute. reflexivity.
Qed.

Lemma fs_write_getsize (f f' : files) (p : path) (data : string) :
  fs_write false f p data = Some f' → fs_getsize f' p = Some (Str.size data).
Proof.
  unfold fs_write, fs_getsize, node_at. destruct p as [|c p]; [done|].
  destruct (is_dir_node _); [|done].
  destruct (f !! (c :: p)) as [[old|]|]; intros [= <-];
    by rewrite lookup_insert_eq.
Qed.

Lemma download_latest_wheel_spec {R : Type} (folder : path)
    (fname : option string) w :
  wp (R := R) (download_latest_wheel folder fname) w (fun o _ t =>
    Exists (fun e => undersized e = true) t → o = Val None).
Proof.
  unfold download_latest_wheel.
  repeat wp_step;
    (intros Hb; first
       [ reflexivity
       | exfalso;
         eapply (clean_not_bad undersized (fun e => negb (undersized e))
                   (negb_clean _)); [|exact Hb]; trace_tac ]).
  match goal with
  | Hw : pair () <$> fs_write false _ ?p ?data = Some (_, ?f'),
    Hs : _ <$> fs_getsize ?f' ?p = Some (?n, _),
    Hlt : (?n <? MIN_WHEEL_SIZE) = false |- _ =>
      apply fmap_Some in Hw as (? & Hw & ?); simplify_eq;
      rewrite (fs_write_getsize _ _ _ _ Hw) in Hs; simpl in Hs; simplify_eq;
      unfold undersized; rewrite Hlt; by rewrite !andb_false_r
  end.
Qed.

Lemma main_wheel_undersized a d env py :
  after undersized 1 (fun _ => True) (main_wheel a d env py).
Proof.
  unfold main_wheel.
  after_walk (negb_clean undersized)
             (fun (t1 t2 : list event)
                  (_ : Forall (fun e => negb (undersized e) = true) t1)
                  (H : True) => H).
  apply after_wp; intros w. apply wp_bind.
  eapply wp_mono; [apply download_latest_wheel_spec|].
  intros o w1 t1 Hspec; simpl. destruct o as [[p|]|c|e].
  - apply (wp_emits (fun e => negb (undersized e))); [emits_auto|].
    intros o2 w2 t2 Ht2 Hb. apply Exists_app in Hb as [Hb|Hb].
    + by specialize (Hspec Hb).
    + by destruct (clean_not_bad _ _ (negb_clean undersized) _ Ht2).
  - by repeat wp_step.
  - intros Hb. by specialize (Hspec Hb).
  - intros Hb. by specialize (Hspec Hb).
Qed.

Lemma main_body_undersized a : after undersized 1 (fun _ => True) (main_body a).
Proof.
  unfold main_body, main_install.
  after_walk (negb_clean undersized)
             (fun (t1 t2 : list event)
                  (_ : Forall (fun e => negb (undersized e) = true) t1)
                  (H : True) => H).
  apply main_wheel_undersized.
Qed.

(** C7: a wheel download answered with status 200 but fewer than 10000
    bytes makes [download_latest_wheel] return [None], and [main] exit with
    code 1. *)
Theorem undersized_wheel_is_rejected
    (url : string) (r : response) :
  status_code r = 200 → Str.size (content r) < MIN_WHEEL_SIZE →
  (∀ (folder : path) (fname : option string) (w : world),
     In (EHttpGet url (Some 60) (Some r))
        (evs (download_latest_wheel (R := Z) folder fname w)) →
     out (download_latest_wheel (R := Z) folder fname w) = Val None) ∧
  (∀ (a : args) (w : world),
     In (EHttpGet url (Some 60) (Some r)) (evs (main a w)) →
     out (main a w) = Val 1).
Proof.
  intros Hs Hsz.
  assert (undersized (EHttpGet url (Some 60) (Some r)) = true) as Hbad.
  { simpl. rewrite Hs. simpl. by apply Z.ltb_lt. }
  split.
  - intros folder fname w Hin.
    apply (download_latest_wheel_spec folder fname w).
    apply Exists_exists. eexists. split; [by apply list_elem_of_In|done].
  - intros a w Hin.
    apply (main_after undersized 1 _ a w eq_refl (fun _ => eq_refl)
             (main_body_undersized a)).
    apply Exists_exists. eexists. split; [by apply list_elem_of_In|done].
Qed.


Lemma undersized_wheel_is_rejected_witness :
  let r := Response 200 None (blob 9999) EmptyString in
  let w := World linux fresh_fs [] [] [conda_found; exits 0] (feed 9999) None in
  status_code r = 200 ∧ Str.size (content r) < MIN_WHEEL_SIZE ∧
  In (EHttpGet "https://example.org/w" (Some 60) (Some r))
     (evs (main (Args target false true) w)) ∧
  out (main (Args target false true) w) = Val 1.
Proof.
  cbv zeta.
  assert (Str.size (content (Response 200 None (blob 9999) EmptyString)) < MIN_WHEEL_SIZE)
    as Hsz by (vm_compute; reflexivity).
  assert (In (EHttpGet "https://example.org/w" (Some 60)
                (Some (Response 200 None (blob 9999) EmptyString)))
             (evs (main (Args target false true)
                     (World linux fresh_fs [] [] [conda_found; exits 0]
                            (feed 9999) None))))
    as Hin by (apply In_by_eval; vm_compute; reflexivity).
  split_and!; [reflexivity|exact Hsz|exact Hin|].
  exact (proj2 (undersized_wheel_is_rejected "https://example.org/w"
                  (Response 200 None (blob 9999) EmptyString) eq_refl Hsz) _ _ Hin).
Defined.

Lemma pip_ok_not_failed e : pip_ok e = true → pip_failed e = false.
Proof. unfold pip_ok. by intros [?%negb_true_iff _]%andb_true_iff. Qed.

Lemma pip_ok_app t1 t2 :
  Forall (fun e => pip_ok e = true) t1 →
  Forall (fun e => no_shortcuts_call e = true) t2 →
  Forall (fun e => no_shortcuts_call e = true) (t1 ++ t2).
Proof.
  intros H1 H2. apply Forall_app_2; [|done].
  eapply Forall_impl; [exact H1|]. unfold pip_ok.
  by intros e [_ ?]%andb_true_iff.
Qed.

Lemma main_wheel_pip a d env py :
  after pip_failed 1 (Forall (fun e => no_shortcuts_call e = true))
        (main_wheel a d env py).
Proof.
  unfold main_wheel.
  apply (after_bind _ _ _ _ pip_ok_not_failed pip_ok_app); [emits_auto|intros _].
  apply (after_bind _ _ _ _ pip_ok_not_failed pip_ok_app); [emits_auto|].
  intros [wheel_path|];
    [|apply (after_clean _ _ _ _ pip_ok_not_failed); emits_auto].
  apply (after_bind _ _ _ _ pip_ok_not_failed pip_ok_app); [emits_auto|intros is_file].
  apply (after_bind _ _ _ _ pip_ok_not_failed pip_ok_app); [emits_auto|intros _].
  apply after_wp; intros w. apply wp_bind.
  eapply wp_mono; [apply install_wheel_spec|].
  intros o w1 t1 [[-> Ht1]|[-> Ht1]]; simpl.
  - apply (wp_emits (fun e => negb (pip_failed e))); [emits_auto|].
    intros o2 w2 t2 Ht2; simpl; intros Hb.
    apply Exists_app in Hb as [Hb|Hb]; exfalso.
    + by eapply (clean_not_bad _ _ pip_ok_not_failed).
    + eapply (clean_not_bad pip_failed (fun e => negb (pip_failed e))); [|done..].
      by intros e ?%negb_true_iff.
  - repeat wp_step. intros _. split; [done|]. trace_tac.
Qed.

Lemma main_install_pip a d :
  after pip_failed 1 (Forall (fun e => no_shortcuts_call e = true))
        (main_install a d).
Proof.
  unfold main_install.
  after_walk pip_ok_not_failed pip_ok_app.
  apply main_wheel_pip.
Qed.

Lemma main_body_pip a :
  after pip_failed 1 (Forall (fun e => no_shortcuts_call e = true))
        (main_body a).
Proof.
  unfold main_body.
  after_walk pip_ok_not_failed pip_ok_app.
  apply main_install_pip.
Qed.


(** C8: when the pip subprocess of the artifact installation exits with a
    non-zero code, [main] returns exit code 1 and [create_shortcuts] is never
    called. *)
Theorem pip_failure_is_fatal (a : args) (w : world)
    (argv : list string) (res : completed) :
  In (ESpawn argv (Some res)) (evs (main a w)) →
  is_pip_install argv = true →
  returncode res ≠ 0 →
  out (main a w) = Val 1 ∧ ¬ In (ECall "create_shortcuts") (evs (main a w)).
Proof.
  intros Hin Hpip Hrc.
  destruct (main_after pip_failed 1 _ a w eq_refl (fun _ => eq_refl)
              (main_body_pip a)) as (Hout & t & Ht & Hevs).
  { apply Exists_exists. exists (ESpawn argv (Some res)).
    split; [by apply list_elem_of_In|]. simpl. rewrite Hpip. simpl.
    apply negb_true_iff, Z.eqb_neq, Hrc. }
  split; [done|]. rewrite Hevs. intros Hc.
  apply list_elem_of_In in Hc.
  apply elem_of_cons in Hc as [[=]|Hc].
  apply elem_of_app in Hc as [Hc|Hc].
  - rewrite Forall_forall in Ht. by specialize (Ht _ Hc).
  - by apply list_elem_of_singleton in Hc.
Qed.

Lemma pip_failure_is_fatal_witness :
  let r := main (Args target false true) pip_fails_world in
  In (ESpawn pip_argv (Some (Completed 1 EmptyString EmptyString))) (evs r) ∧
  out r = Val 1 ∧ ¬ In (ECall "create_shortcuts") (evs r).
Proof.
  assert (In (ESpawn pip_argv (Some (Completed 1 EmptyString EmptyString)))
             (evs (main (Args target false true) pip_fails_world))) as Hin.
  { apply In_by_eval. vm_compute. reflexivity. }
  split; [exact Hin|].
  apply (pip_failure_is_fatal _ _ pip_argv (Completed 1 EmptyString EmptyString)); [exact Hin|reflexivity|done].
Defined.

Lemma create_shortcuts_spec {R : Type} (d env : path) w :
  wp (R := R) (create_shortcuts d env) w (fun o _ t =>
    (o = Val true ∧ Forall (fun e => negb (shortcuts_failed e) = true) t) ∨
    o = Val false).
Proof.
  unfold create_shortcuts.
  repeat wp_step; first [by right | left; split; [done|trace_tac]].
Qed.

Lemma main_wheel_shortcuts a d env py :
  after shortcuts_failed 0
        (leads_to shortcuts_failed (logged shortcut_warning))
        (main_wheel a d env py).
Proof.
  unfold main_wheel.
  after_walk (negb_clean shortcuts_failed)
             (leads_app_clean shortcuts_failed _ (logged shortcut_warning)
                (negb_clean shortcuts_failed)).
  apply after_wp; intros w. apply wp_bind.
  assert (∀ t1 w1, Forall (fun e => negb (shortcuts_failed e) = true) t1 →
    wp (log "*** INSTALLATION COMPLETED ***" ;;
        log (PRODUCT_NAME +:+ " installation completed successfully!") ;;
        log ("You can start " +:+ PRODUCT_NAME +:+ " by running:") ;;
        log ("  conda activate " +:+ path_str env) ;;
        log "  open-webui" ;;
        log "Or by using the desktop shortcut if created" ;;
        return_ (A := Empty_set) 0) w1
      (fun o2 _ t2 =>
         Exists (fun e => shortcuts_failed e = true) (t1 ++ t2) →
         o2 = Ret 0 ∧
         leads_to shortcuts_failed (logged shortcut_warning) (t1 ++ t2)))
    as Hclean.
  { intros t1 w1 Ht1.
    apply (wp_emits (fun e => negb (shortcuts_failed e))); [emits_auto|].
    intros o2 w2 t2 Ht2 Hb. exfalso.
    eapply (clean_not_bad _ _ (negb_clean shortcuts_failed)); [|exact Hb].
    by apply Forall_app_2. }
  destruct (no_shortcuts a); simpl.
  - apply wp_ret. by apply Hclean.
  - apply wp_bind. eapply wp_mono; [apply create_shortcuts_spec|].
    intros o w1 t1 [[-> Ht1]| ->]; simpl.
    + apply wp_ret. apply Hclean. by rewrite app_nil_r.
    + repeat wp_step. intros _. split; [done|].
      rewrite <- app_assoc.
      apply leads_app_then.
      * apply Exists_app. by left.
      * apply (leads_clean _ (fun e => negb (shortcuts_failed e)));
          [apply negb_clean|trace_tac].
Qed.

Lemma main_body_shortcuts a :
  after shortcuts_failed 0
        (leads_to shortcuts_failed (logged shortcut_warning)) (main_body a).
Proof.
  unfold main_body, main_install.
  after_walk (negb_clean shortcuts_failed)
             (leads_app_clean shortcuts_failed _ (logged shortcut_warning)
                (negb_clean shortcuts_failed)).
  apply main_wheel_shortcuts.
Qed.

(** C9: when the run gets as far as shortcut registration and
    [create_shortcuts] fails (returns [False]), [main] still returns exit
    code 0, and the failure is followed by the logged warning. *)
Theorem shortcut_failure_is_not_fatal (a : args) (w : world) :
  In (EReturn "create_shortcuts" "False") (evs (main a w)) →
  out (main a w) = Val 0 ∧
  leads_to shortcuts_failed (logged shortcut_warning) (evs (main a w)).
Proof.
  intros Hin.
  destruct (main_after shortcuts_failed 0 _ a w eq_refl (fun _ => eq_refl)
              (main_body_shortcuts a)) as (Hout & t & Ht & Hevs).
  { apply Exists_exists. exists (EReturn "create_shortcuts" "False").
    split; [by apply list_elem_of_In|done]. }
  split; [done|]. rewrite Hevs.
  by apply (leads_wrap _ (fun e => negb (shortcuts_failed e)));
    [apply negb_clean|..].
Qed.

Lemma shortcut_failure_is_not_fatal_witness :
  let r := main (Args windows_target false true) no_tmp_world in
  In (EReturn "create_shortcuts" "False") (evs r) ∧
  out r = Val 0 ∧
  leads_to shortcuts_failed (logged shortcut_warning) (evs r).
Proof.
  assert (In (EReturn "create_shortcuts" "False")
             (evs (main (Args windows_target false true) no_tmp_world)))
    as Hin.
  { apply In_by_eval. vm_compute. reflexivity. }
  split; [exact Hin|].
  by apply shortcut_failure_is_not_fatal.
Defined.

(** ** [log] *)

(** X1: only the answers [y] and [Y] confirm a question of the installer;
    every other answer, [yes] and the empty line included, declines. *)
Theorem only_y_confirms (user_input : string) :
  declined user_input = false ↔ user_input = "y" ∨ user_input = "Y".
Proof.
  unfold declined. rewrite negb_false_iff, String.eqb_eq.
  destruct user_input as [|c [|c' s]]; simpl.
  - split; [done|by intros [|]].
  - destruct c as [[] [] [] [] [] [] [] []]; vm_compute;
      (split; [intros H; first [discriminate H | by left | by right]
              |intros [H|H]; first [discriminate H | reflexivity]]).
  - split; [done|by intros [|]].
Qed.

(** X3: a write of [log] that succeeds appends one line, the time-stamped
    message and a newline, to the log file, which it creates when it is
    missing; what the file held before stays in front, and no other path
    of the file system changes. *)
Theorem log_appends (R : Type) (message : string) (w : world) (p : path) :
  LOG_FILE_PATH w = Some p →
  In (EWrite p true) (evs (log (R := R) message w)) →
  w_fs (st (log (R := R) message w)) =
  <[p := File (text_at (w_fs w) p +:+ log_line (w_host w) message)]> (w_fs w).
Proof.
  intros Hp. unfold log, log_. rewrite !bind_run. simpl. rewrite Hp. simpl.
  rewrite try_except_run. unfold write_file, fs_call.
  pose proof (next_fault_fs w) as Hfs.
  destruct (next_fault w) as [refused w1]; simpl in Hfs.
  destruct refused; simpl.
  - intros [[=]|[[=]|[[=]|[]]]].
  - destruct (fs_write true (w_fs w1) p _) as [f'|] eqn:Hw; simpl.
    + intros _. unfold fs_write in Hw. rewrite Hfs in Hw.
      destruct p as [|c p]; [done|].
      destruct (is_dir_node _); [|done].
      unfold text_at, log_line.
      by destruct (w_fs w !! (c :: p)) as [[old|]|]; simplify_eq/=.
    + intros [[=]|[[=]|[[=]|[]]]].
Qed.

Lemma log_appends_witness :
  w_fs (st (log (R := Z) "hello" logging_world)) =
  <[session_log :=
      File (("first" +:+ newline) +:+ log_line linux "hello")]>
    (w_fs logging_world).
Proof.
  apply (log_appends Z "hello" logging_world session_log).
  - reflexivity.
  - apply In_by_eval. vm_compute. reflexivity.
Defined.

(** ** The steps of the installation *)

(** Refer every intermediate world to the host and the log file of the
    first one. *)
Ltac keeps_tac :=
  repeat match goal with
  | H : log_rel _ _ |- _ => destruct H as [H _]
  | H : keeps _ _ |- _ =>
      let Hh := fresh "Hhost" in let Hl := fresh "Hpath" in
      destruct H as [Hh Hl]; rewrite ?Hh, ?Hl in *; clear Hh Hl
  end.

Lemma is_log_only_runs (argv : list string) (o : option path)
    (t : list event) :
  Forall (fun e => is_log_to o e = true) t → Forall (only_runs argv o) t.
Proof.
  intros H. eapply Forall_impl; [exact H|].
  intros [] He; simpl in He; try discriminate; simpl; [done|].
  by apply bool_decide_eq_true in He.
Qed.

Lemma is_log_not_ran (argv : list string) (o : option path)
    (t : list event) :
  Forall (fun e => is_log_to o e = true) t →
  Forall (fun e => ¬ ran_ok argv e) t.
Proof.
  intros H. eapply Forall_impl; [exact H|].
  intros [] He; simpl in He; try discriminate; by intros (res & [=] & _).
Qed.

Lemma not_ran_ok_Exists (argv : list string) (t : list event) :
  Forall (fun e => ¬ ran_ok argv e) t → ¬ Exists (ran_ok argv) t.
Proof.
  intros Hf He. apply Exists_exists in He as (e & He & Hran).
  rewrite Forall_forall in Hf. by apply (Hf e).
Qed.

(** Split a trace into its pieces, and prove the pieces that are logs. *)
Ltac pieces_tac leaf :=
  repeat first
    [ apply Forall_nil_2
    | apply Forall_app_2
    | apply Forall_cons_2; [solve [leaf]|]
    | solve [eapply is_log_only_runs; eassumption]
    | solve [eapply is_log_not_ran; eassumption]
    | eassumption ].

Ltac spawn_leaf :=
  first
    [ exact I
    | reflexivity
    | intros (? & [= <-] & ?); simplify_eq/=; lia
    | by intros (? & [=] & ?) ].

Lemma log_elem (o : option path) (t : list event) (e : event) :
  Forall (fun e => is_log_to o e = true) t → e ∈ t → is_log_to o e = true.
Proof. rewrite Forall_forall. auto. Qed.

(** Exit codes as equations. *)
Ltac codes_tac :=
  repeat match goal with
  | H : negb (_ =? _) = true |- _ => apply negb_true_iff, Z.eqb_neq in H
  | H : negb (_ =? _) = false |- _ => apply negb_false_iff, Z.eqb_eq in H
  | H : (_ =? _) = true |- _ => apply Z.eqb_eq in H
  | H : (_ =? _) = false |- _ => apply Z.eqb_neq in H
  end.

(** Find an event in a trace, [leaf] proving that it is the wanted one. *)
Ltac exists_with leaf :=
  repeat lazymatch goal with
  | H : Exists ?ψ ?t |- Exists ?ψ ?t => exact H
  | H : Exists ?ψ ?t |- Exists ?ψ (?t ++ _) => apply Exists_app; left; exact H
  | |- Exists _ ((_ ++ _) ++ _) => rewrite <- app_assoc
  | |- Exists _ ([_] ++ _) =>
      first [ apply Exists_cons_hd; solve [leaf] | apply Exists_cons_tl ]
  | |- Exists _ (_ ++ _) => apply Exists_app; right
  | |- Exists _ (_ :: _) =>
      first [ apply Exists_cons_hd; solve [leaf] | apply Exists_cons_tl ]
  end.

Ltac ran_leaf := eexists; split; [reflexivity|first [done|lia]].

(** Where in a trace an event can be: not in a log. *)
Ltac in_tac H :=
  try apply list_elem_of_In in H;
  repeat first
    [ rewrite elem_of_cons in H
    | rewrite elem_of_app in H
    | rewrite elem_of_nil in H ];
  destruct_or?; try done;
  try match goal with
  | Hin : ?e ∈ ?t, Hl : Forall (fun e => is_log_to _ e = true) ?t |- _ =>
      by pose proof (log_elem _ _ _ Hl Hin)
  end;
  simplify_eq.

Lemma create_conda_env_spec {R : Type} (cp : string) (env : path)
    (ver : string) w :
  wp (R := R) (create_conda_env cp env ver) w (fun o _ t =>
    let argv := conda_create_argv cp env ver in
    Forall (only_runs argv (LOG_FILE_PATH w)) t ∧
    ((o = Val true ∧ Exists (ran_ok argv) t) ∨
     (o = Val false ∧ Forall (fun e => ¬ ran_ok argv e) t)) ∧
    ∀ res, In (ESpawn argv (Some res)) t → returncode res ≠ 0 →
           Exists (logged ("Failed to create conda environment: "
                           +:+ stderr res)) t).
Proof.
  unfold create_conda_env.
  repeat wp_step; keeps_tac; codes_tac; cbv zeta; unfold conda_create_argv.
  all: split_and!;
    [ pieces_tac spawn_leaf
    | first [ left; split; [reflexivity|exists_with ran_leaf]
            | right; split; [reflexivity|pieces_tac spawn_leaf] ]
    | intros res0 Hin Hne; in_tac Hin; exists_tac ].
Qed.

(** X4: [create_conda_env] never raises.  It returns [True] exactly when
    [conda create -p env_path python=version -y] ran and exited with code
    0; it starts no other process, makes no request and writes to no file
    but the log; and when conda exits with another code, what conda wrote
    to its standard error is logged. *)
Theorem create_conda_env_result (R : Type) (conda_path : string)
    (env_path : path) (python_version : string) (w : world) :
  let r := create_conda_env (R := R) conda_path env_path python_version w in
  let argv := conda_create_argv conda_path env_path python_version in
  (∃ b, out r = Val b ∧ (b = true ↔ Exists (ran_ok argv) (evs r))) ∧
  Forall (only_runs argv (LOG_FILE_PATH w)) (evs r) ∧
  (∀ res, In (ESpawn argv (Some res)) (evs r) → returncode res ≠ 0 →
          Exists (logged ("Failed to create conda environment: "
                          +:+ stderr res)) (evs r)).
Proof.
  cbv zeta.
  destruct (create_conda_env_spec (R := R) conda_path env_path python_version w)
    as (Honly & Hres & Hlog).
  split_and!; [|done|done].
  destruct Hres as [[-> Hran]|[-> Hnot]].
  - by exists true.
  - exists false. split; [done|]. split; [done|].
    intros Hran. by apply not_ran_ok_Exists in Hnot.
Qed.

Lemma create_conda_env_result_witness :
  let r := create_conda_env (R := Z) "conda" target "3.11"
             conda_create_fails_world in
  Exists (logged "Failed to create conda environment: disk full") (evs r).
Proof.
  apply (proj2 (proj2 (create_conda_env_result Z "conda" target "3.11"
                         conda_create_fails_world))
           (Completed 1 EmptyString "disk full")).
  - apply In_by_eval. vm_compute. reflexivity.
  - done.
Defined.

Lemma split_lines_head (s : string) :
  ∃ l ls, Str.split_lines s = l :: ls ∧ one_line l = true.
Proof.
  induction s as [|c s (l & ls & IH & Hl)]; simpl.
  - by exists EmptyString, [].
  - destruct (Ascii.eqb c "010") eqn:Hc.
    + by exists EmptyString, (Str.split_lines s).
    + rewrite IH. exists (String c l), ls. split; [done|].
      simpl. by rewrite Hc.
Qed.

Lemma first_line_one_line (s : string) : one_line (Str.first_line s) = true.
Proof.
  unfold Str.first_line. by destruct (split_lines_head s) as (l & ls & -> & Hl).
Qed.

Ltac finds_leaf := eexists; split_and!; [reflexivity|first [done|lia]|reflexivity].

Lemma check_conda_spec {R : Type} w :
  wp (R := R) check_conda w (fun o _ t =>
    let argv := conda_finder (w_host w) in
    Forall (only_runs argv (LOG_FILE_PATH w)) t ∧
    ((∃ cp, o = Val (true, Some cp) ∧ Exists (finds argv cp) t) ∨
     (o = Val (false, None) ∧ Forall (fun e => ¬ ran_ok argv e) t))).
Proof.
  unfold check_conda.
  repeat wp_step; keeps_tac; codes_tac; cbv zeta; unfold conda_finder;
    match goal with H : is_windows _ = _ |- _ => rewrite H end.
  all: split;
    [ pieces_tac spawn_leaf
    | first [ left; eexists; split; [reflexivity|exists_with finds_leaf]
            | right; split; [reflexivity|pieces_tac spawn_leaf] ] ].
Qed.

(** X5: [check_conda] never raises.  It asks [where conda] on Windows and
    [which conda] elsewhere, and starts no other process.  It returns
    [(False, None)] unless that command ran and exited with code 0; then
    it returns [True] with the first line the command printed, stripped,
    which holds no newline even when several condas were listed. *)
Theorem check_conda_result (R : Type) (w : world) :
  let r := check_conda (R := R) w in
  let argv := conda_finder (w_host w) in
  Forall (only_runs argv (LOG_FILE_PATH w)) (evs r) ∧
  ((out r = Val (false, None) ∧ ¬ Exists (ran_ok argv) (evs r)) ∨
   (∃ cp, out r = Val (true, Some cp) ∧ Exists (finds argv cp) (evs r) ∧
          one_line cp = true)).
Proof.
  cbv zeta. destruct (check_conda_spec (R := R) w) as (Honly & Hres).
  split; [done|]. destruct Hres as [(cp & -> & Hf)|[-> Hnot]].
  - right. exists cp. split_and!; [done..|].
    apply Exists_exists in Hf as (e & _ & res & _ & _ & ->).
    apply first_line_one_line.
  - left. split; [done|]. by apply not_ran_ok_Exists.
Qed.

(** The loop of [install_wheel] over the lines pip printed: every line
    that is not blank is logged. *)
Lemma wp_for_each_lines {R : Type} (xs : list string) (f : string → string) w
    (Q : outcome R unit → world → list event → Prop) :
  (∀ w1 t1, keeps w w1 →
            Forall (fun e => is_log_to (LOG_FILE_PATH w) e = true) t1 →
            Forall (fun x => f x ≠ EmptyString → Exists (logged (f x)) t1) xs →
            Q (Val tt) w1 t1) →
  wp (for_each xs (fun line =>
        let line := f line in
        when (negb (String.eqb line EmptyString)) (log line))) w Q.
Proof.
  revert w Q. induction xs as [|x xs IH]; intros w Q HQ; simpl.
  - apply wp_ret, HQ; [done|constructor|constructor].
  - apply wp_bind. destruct (negb _) eqn:Hx; simpl.
    + apply wp_log. intros w1 t1 [Hk _] Ht1 Hm. apply IH.
      intros w2 t2 Hk2 Ht2 Hxs.
      apply HQ; [by eapply keeps_trans| |].
      * apply Forall_app_2; [done|]. by rewrite <- (proj2 Hk).
      * constructor.
        -- intros _. apply Exists_app. by left.
        -- eapply Forall_impl; [exact Hxs|]. intros y Hy Hne.
           apply Exists_app. right. by apply Hy.
    + apply wp_ret. simpl. apply IH. intros w2 t2 Hk2 Ht2 Hxs.
      apply HQ; [done..|]. constructor; [|done].
      intros Hne. apply negb_false_iff, String.eqb_eq in Hx. done.
Qed.

Ltac wp_step_lines :=
  lazymatch goal with
  | |- wp (for_each _ _) _ _ =>
      let w := fresh "w" in let t := fresh "t" in let Ht := fresh "Hlog" in
      let Hk := fresh "Hkeeps" in let Hl := fresh "Hlines" in
      apply wp_for_each_lines; intros w t Hk Ht Hl
  | _ => wp_step
  end.

Lemma install_wheel_lines {R : Type} (wheel_path python_path : path) w :
  wp (R := R) (install_wheel wheel_path python_path) w (fun o _ t =>
    let argv := pip_install_argv wheel_path python_path in
    Forall (only_runs argv (LOG_FILE_PATH w)) t ∧
    ((o = Val true ∧ Exists (ran_ok argv) t) ∨
     (o = Val false ∧ Forall (fun e => ¬ ran_ok argv e) t)) ∧
    ∀ res, In (ESpawn argv (Some res)) t →
           Forall (fun line => Str.strip line ≠ EmptyString →
                               Exists (logged (Str.strip line)) t)
                  (Str.split_lines (stdout res))).
Proof.
  unfold install_wheel, normpath.
  repeat wp_step_lines; keeps_tac; codes_tac; cbv zeta; unfold pip_install_argv.
  all: split_and!;
    [ pieces_tac spawn_leaf
    | first [ left; split; [reflexivity|exists_with ran_leaf]
            | right; split; [reflexivity|pieces_tac spawn_leaf] ]
    | intros res0 Hin; in_tac Hin;
      match goal with
      | Hl : Forall _ (Str.split_lines _) |- _ =>
          eapply Forall_impl; [exact Hl|];
          intros line Hline Hne; specialize (Hline Hne); exists_tac
      end ].
Qed.

(** X6: [install_wheel] never raises.  It returns [True] exactly when
    [python -m pip install wheel --verbose], run with the given
    interpreter on the given wheel, exited with code 0; it starts no other
    process, makes no request and writes to no file but the log. *)
Theorem install_wheel_result (R : Type) (wheel_path python_path : path)
    (w : world) :
  let r := install_wheel (R := R) wheel_path python_path w in
  let argv := pip_install_argv wheel_path python_path in
  (∃ b, out r = Val b ∧ (b = true ↔ Exists (ran_ok argv) (evs r))) ∧
  Forall (only_runs argv (LOG_FILE_PATH w)) (evs r).
Proof.
  cbv zeta.
  destruct (install_wheel_lines (R := R) wheel_path python_path w)
    as (Honly & Hres & _).
  split; [|done].
  destruct Hres as [[-> Hran]|[-> Hnot]].
  - by exists true.
  - exists false. split; [done|]. split; [done|].
    intros Hran. by apply not_ran_ok_Exists in Hnot.
Qed.

(** X7: [install_wheel] passes on what pip prints: every line of pip's
    output that is not blank is logged, stripped of the white space around
    it, whether pip succeeds or fails. *)
Theorem pip_output_is_logged (R : Type) (wheel_path python_path : path)
    (w : world) (res : completed) (line : string) :
  let r := install_wheel (R := R) wheel_path python_path w in
  In (ESpawn (pip_install_argv wheel_path python_path) (Some res)) (evs r) →
  In line (Str.split_lines (stdout res)) →
  Str.strip line ≠ EmptyString →
  Exists (logged (Str.strip line)) (evs r).
Proof.
  cbv zeta. intros Hin Hline Hne.
  destruct (install_wheel_lines (R := R) wheel_path python_path w)
    as (_ & _ & Hlines).
  specialize (Hlines res Hin). rewrite Forall_forall in Hlines.
  apply Hlines; [by apply list_elem_of_In|done].
Qed.

Lemma pip_output_is_logged_witness :
  let r := install_wheel (R := Z) (target ++ ["wheels"; "w.whl"])
             (target ++ ["bin"; "python"]) pip_talks_world in
  Exists (logged "Collecting open-webui") (evs r).
Proof.
  apply (pip_output_is_logged Z (target ++ ["wheels"; "w.whl"])
           (target ++ ["bin"; "python"]) pip_talks_world
           (Completed 1 ("  Collecting open-webui  " +:+ newline
                         +:+ "   " +:+ newline
                         +:+ "ERROR: no matching distribution") EmptyString)
           "  Collecting open-webui  ").
  - apply In_by_eval. vm_compute. reflexivity.
  - vm_compute. by left.
  - vm_compute. discriminate.
Defined.

(** ** [create_shortcuts] *)

Lemma is_log_only_logs (o : option path) (t : list event) :
  Forall (fun e => is_log_to o e = true) t → Forall (only_logs o) t.
Proof.
  intros H. eapply Forall_impl; [exact H|].
  intros [] He; simpl in He; try discriminate; simpl; [done|].
  by apply bool_decide_eq_true in He.
Qed.

Lemma create_shortcuts_elsewhere {R : Type} (d env : path) w :
  wp (R := R) (create_shortcuts d env) w (fun o _ t =>
    is_windows (system (w_host w)) = false →
    o = Val true ∧ Forall (only_logs (LOG_FILE_PATH w)) t ∧
    Exists (logged "Shortcut creation not implemented for this platform") t).
Proof.
  unfold create_shortcuts.
  repeat wp_step; keeps_tac; intros Hsys; try congruence.
  split_and!; [done| |exists_tac].
  repeat first
    [ apply Forall_nil_2 | apply Forall_app_2
    | apply Forall_cons_2; [exact I|]
    | solve [eapply is_log_only_logs; eassumption] ].
Qed.

(** X8: on every system but Windows [create_shortcuts] does nothing: it
    returns [True], says that shortcuts are not implemented for the
    platform, starts no process and writes to no file but the log. *)
Theorem no_shortcuts_off_windows (R : Type) (install_dir env_path : path)
    (w : world) :
  let r := create_shortcuts (R := R) install_dir env_path w in
  system (w_host w) ≠ "Windows" →
  out r = Val true ∧ Forall (only_logs (LOG_FILE_PATH w)) (evs r) ∧
  Exists (logged "Shortcut creation not implemented for this platform")
         (evs r).
Proof.
  cbv zeta. intros Hsys.
  apply (create_shortcuts_elsewhere (R := R) install_dir env_path w).
  unfold is_windows. by apply String.eqb_neq.
Qed.

Lemma no_shortcuts_off_windows_witness :
  let r := create_shortcuts (R := Z) target (target ++ [CONDA_ENV_NAME])
             fresh_world in
  out r = Val true ∧ Forall (only_logs None) (evs r) ∧
  Exists (logged "Shortcut creation not implemented for this platform")
         (evs r).
Proof.
  apply (no_shortcuts_off_windows Z target (target ++ [CONDA_ENV_NAME])
           fresh_world).
  discriminate.
Defined.

Lemma create_shortcuts_windows {R : Type} (d env : path) w :
  wp (R := R) (create_shortcuts d env) w (fun o _ t =>
    (o = Val true ∨ o = Val false) ∧
    ∀ res, In (ESpawn (shortcut_argv (w_host w)) (Some res)) t →
           In (ERemove (shortcut_script (w_host w)) true) t →
           o = Val true ∧
           Exists (logged (shortcut_created (w_host w))) t ∧
           (returncode res ≠ 0 →
            Exists (logged ("PowerShell script failed with return code: "
                            +:+ pretty (returncode res))) t)).
Proof.
  unfold create_shortcuts.
  repeat wp_step; keeps_tac; codes_tac;
    unfold shortcut_argv, shortcut_script, shortcut_created.
  all: (split; [first [by left|by right]|]).
  all: intros res0 Hin Hrm; in_tac Hin; in_tac Hrm.
  all: split_and!;
    [ done
    | match goal with |- Exists (logged ?m) _ => set (msg := m) in * end;
      exists_tac
    | intros Hne; first [done|exists_tac] ].
Qed.

(** X9: [create_shortcuts] never raises, and it does not look at the exit
    code of PowerShell: once the script ran and was removed again, it
    returns [True] and reports the shortcut as created, also when
    PowerShell exited with an error, which is only logged. *)
Theorem powershell_exit_code_is_ignored (R : Type)
    (install_dir env_path : path) (w : world) :
  let r := create_shortcuts (R := R) install_dir env_path w in
  (out r = Val true ∨ out r = Val false) ∧
  ∀ res, In (ESpawn (shortcut_argv (w_host w)) (Some res)) (evs r) →
         In (ERemove (shortcut_script (w_host w)) true) (evs r) →
         out r = Val true ∧
         Exists (logged (shortcut_created (w_host w))) (evs r) ∧
         (returncode res ≠ 0 →
          Exists (logged ("PowerShell script failed with return code: "
                          +:+ pretty (returncode res))) (evs r)).
Proof.
  cbv zeta. apply (create_shortcuts_windows (R := R) install_dir env_path w).
Qed.

Lemma powershell_exit_code_is_ignored_witness :
  let r := create_shortcuts (R := Z) windows_target
             (windows_target ++ [CONDA_ENV_NAME]) powershell_fails_world in
  out r = Val true ∧
  Exists (logged (shortcut_created windows)) (evs r) ∧
  Exists (logged "PowerShell script failed with return code: 1") (evs r).
Proof.
  destruct (proj2 (powershell_exit_code_is_ignored Z windows_target
                     (windows_target ++ [CONDA_ENV_NAME])
                     powershell_fails_world)
              (Completed 1 EmptyString EmptyString)) as (Ho & Hc & Hf).
  - apply In_by_eval. vm_compute. reflexivity.
  - apply In_by_eval. vm_compute. reflexivity.
  - split_and!; [exact Ho|exact Hc|]. by apply Hf.
Defined.

Lemma log_rel_other (w w1 : world) (q : path) :
  log_rel w w1 → LOG_FILE_PATH w ≠ Some q → w_fs w1 !! q = w_fs w !! q.
Proof.
  intros [_ [->|(p & data & Hp & _ & ->)]] Hq; [done|].
  apply lookup_insert_ne. congruence.
Qed.

(** What each [log] leaves of the path [q]. *)
Ltac frame_tac q :=
  repeat match goal with
  | H : log_rel ?wa ?wb |- _ =>
      lazymatch goal with
      | _ : LOG_FILE_PATH wa ≠ Some q → w_fs wb !! q = w_fs wa !! q |- _ => fail
      | _ => pose proof (log_rel_other wa wb q H)
      end
  end.

Lemma create_shortcuts_cleans_up {R : Type} (d env : path) w :
  wp (R := R) (create_shortcuts d env) w (fun o w' t =>
    is_windows (system (w_host w)) = true → o = Val true →
    LOG_FILE_PATH w ≠ Some (shortcut_script (w_host w)) →
    w_fs w' !! shortcut_script (w_host w) = None).
Proof.
  unfold create_shortcuts.
  repeat wp_step; frame_tac (shortcut_script (w_host w)); keeps_tac;
    intros Hsys Hout Hlogfile; try congruence; try discriminate Hout.
  all: unfold shortcut_script in *;
    repeat match goal with
    | H : ?P → _, H' : ?P |- _ => specialize (H H')
    end;
    match goal with
    | H : pair () <$> fs_remove ?f ?p = Some (_, ?f') |- _ =>
        apply fmap_Some in H as (? & H & ?); unfold fs_remove in H;
        destruct (is_file_node _); simplify_eq/=
    end.
  all: repeat match goal with
       | H : w_fs ?wb !! ?q = w_fs ?wa !! ?q |- w_fs ?wb !! ?q = _ =>
           rewrite H; clear H
       end.
  all: match goal with H : w_fs _ = delete _ _ |- _ => rewrite H end;
    apply lookup_delete_eq.
Qed.

(** X10: on Windows, a run of [create_shortcuts] that returns [True] has
    removed the PowerShell script it wrote to the temporary directory
    (unless the log file is that very path). *)
Theorem shortcut_script_is_removed (R : Type) (install_dir env_path : path)
    (w : world) :
  let r := create_shortcuts (R := R) install_dir env_path w in
  system (w_host w) = "Windows" →
  out r = Val true →
  LOG_FILE_PATH w ≠ Some (shortcut_script (w_host w)) →
  w_fs (st r) !! shortcut_script (w_host w) = None.
Proof.
  cbv zeta. intros Hsys.
  apply (create_shortcuts_cleans_up (R := R) install_dir env_path w).
  unfold is_windows. by apply String.eqb_eq.
Qed.

Lemma shortcut_script_is_removed_witness :
  let r := create_shortcuts (R := Z) windows_target
             (windows_target ++ [CONDA_ENV_NAME]) powershell_fails_world in
  w_fs (st r) !! shortcut_script windows = None.
Proof.
  apply (shortcut_script_is_removed Z windows_target
           (windows_target ++ [CONDA_ENV_NAME]) powershell_fails_world).
  - reflexivity.
  - vm_compute. reflexivity.
  - discriminate.
Defined.

(** ** [download_latest_wheel] *)

Lemma fs_write_lookup (f f' : files) (p : path) (data : string) :
  fs_write false f p data = Some f' → f' !! p = Some (File data).
Proof.
  unfold fs_write. destruct p as [|c p]; [done|].
  destruct (is_dir_node _); [|done].
  destruct (f !! (c :: p)) as [[old|]|]; intros [= <-];
    by rewrite lookup_insert_eq.
Qed.

(** Find a given event in a trace. *)
Ltac elem_search :=
  first
    [ apply list_elem_of_here
    | apply list_elem_of_further; elem_search
    | apply elem_of_app; first [left; elem_search | right; elem_search] ].

Ltac in_search := apply list_elem_of_In; elem_search.

(** A write that is not to the log file is not part of a log. *)
Ltac not_log_tac :=
  match goal with
  | Hin : EWrite ?p _ ∈ ?t,
    Hl : Forall (fun e => is_log_to ?o e = true) ?t,
    Hne : ?o ≠ Some ?p |- _ =>
      let X := fresh in
      pose proof (log_elem _ _ _ Hl Hin) as X; simpl in X;
      apply bool_decide_eq_true in X; done
  end.

Ltac fetched_tac :=
  eexists; unfold fetched;
  match goal with
  | Hj : json ?r = Some ?j, Ha : find_wheel_asset _ = Some ?a |- _ =>
      exists r, a; eexists;
      split_and!;
        [ in_search | done | by unfold wheel_of; rewrite Hj
        | in_search | done | reflexivity ]
  end.

Lemma is_log_makes_no_request (o : option path) (t : list event) :
  Forall (fun e => is_log_to o e = true) t → Forall makes_no_request t.
Proof.
  intros H. eapply Forall_impl; [exact H|].
  by intros [] He; simpl in He; try discriminate.
Qed.

Lemma download_latest_wheel_fetch {R : Type} (folder : path)
    (fname : option string) w :
  wp (R := R) (download_latest_wheel folder fname) w (fun o _ t =>
    match o with
    | Val (Some p) =>
        ∃ data, fetched data t ∧ In (EWrite p true) t ∧
                MIN_WHEEL_SIZE ≤ Str.size data
    | Ret _ => False
    | _ => True
    end ∧
    (∀ p ok, In (EWrite p ok) t → LOG_FILE_PATH w ≠ Some p →
             ∃ data, fetched data t) ∧
    (In (EMakedirs folder false) t →
     (∃ e, o = Exn e) ∧ last t = Some (EMakedirs folder false) ∧
     Forall makes_no_request t)).
Proof.
  unfold download_latest_wheel.
  repeat wp_step; codes_tac.
  all: split_and!;
    [| intros p ok Hin Hne; keeps_tac; in_tac Hin;
       try not_log_tac; fetched_tac
     | intros Hin; in_tac Hin ].
  all: try exact I.
  - match goal with
    | Hw : pair () <$> fs_write false _ ?p ?data = Some (_, _),
      Hs : _ <$> fs_getsize _ ?p = Some (_, _) |- _ =>
        apply fmap_Some in Hw as (f1 & Hw & ?);
        apply fmap_Some in Hs as (n & Hs & ?); simplify_eq;
        set (P := p) in *
    end.
    match goal with
    | Hw : fs_write false _ P _ = Some _, Hs : fs_getsize _ P = Some _ |- _ =>
        rewrite (fs_write_getsize _ _ _ _ Hw) in Hs; simplify_eq
    end.
    exists (content r0). split_and!.
    + unfold fetched. exists r, a0, r0.
      split_and!;
        [ in_search | done | by unfold wheel_of; rewrite Heqo
        | in_search | done | reflexivity ].
    + in_search.
    + by apply Z.ltb_ge.
  - split_and!; [by eexists| |].
    + rewrite last_cons, !app_assoc, last_snoc. reflexivity.
    + repeat first
        [ apply Forall_nil_2 | apply Forall_app_2
        | apply Forall_cons_2; [exact I|]
        | solve [eapply is_log_makes_no_request; eassumption] ].
Qed.

(** X11: a path that [download_latest_wheel] returns is the outcome of a
    complete, checked download: the release feed answered with status 200
    and listed a wheel, the download of that wheel answered with status
    200 and a content of at least 10000 bytes, and a write to the path
    that is returned succeeded. *)
Theorem returned_wheel_is_downloaded (R : Type) (output_folder : path)
    (output_filename : option string) (w : world) (p : path) :
  let r := download_latest_wheel (R := R) output_folder output_filename w in
  out r = Val (Some p) →
  ∃ data, fetched data (evs r) ∧ In (EWrite p true) (evs r) ∧
          MIN_WHEEL_SIZE ≤ Str.size data.
Proof.
  cbv zeta. intros Hout.
  pose proof (download_latest_wheel_fetch (R := R) output_folder
                output_filename w) as [H _].
  by rewrite Hout in H.
Qed.

Lemma returned_wheel_is_downloaded_witness :
  let r := download_latest_wheel (R := Z) wheels_dir None
             (download_world 10000) in
  ∃ data, fetched data (evs r) ∧
          In (EWrite (wheels_dir ++ ["open_webui.whl"]) true) (evs r) ∧
          MIN_WHEEL_SIZE ≤ Str.size data.
Proof.
  apply (returned_wheel_is_downloaded Z wheels_dir None (download_world 10000)).
  vm_compute. reflexivity.
Defined.

(** X12: [download_latest_wheel] writes to no file but the log, unless it
    has a wheel to write: a run with a write to another file is one in
    which the feed and the download of the wheel were both answered with
    status 200. *)
Theorem download_writes_only_the_wheel (R : Type) (output_folder : path)
    (output_filename : option string) (w : world) (p : path) (ok : bool) :
  let r := download_latest_wheel (R := R) output_folder output_filename w in
  In (EWrite p ok) (evs r) → LOG_FILE_PATH w ≠ Some p →
  ∃ data, fetched data (evs r).
Proof.
  cbv zeta.
  pose proof (download_latest_wheel_fetch (R := R) output_folder
                output_filename w) as (_ & H & _).
  apply H.
Qed.

Lemma download_writes_only_the_wheel_witness :
  let r := download_latest_wheel (R := Z) wheels_dir (Some "ui.whl")
             (download_world 9000) in
  ∃ data, fetched data (evs r).
Proof.
  apply (download_writes_only_the_wheel Z wheels_dir (Some "ui.whl")
           (download_world 9000) (wheels_dir ++ ["ui.whl"]) true).
  - apply In_by_eval. vm_compute. reflexivity.
  - discriminate.
Defined.

(** X13: a failure of the [os.makedirs] of the output folder is not
    caught by [download_latest_wheel], which calls it outside the [try]
    block: the function then raises instead of returning [None]; the
    failed call is the last thing it did, and it has made no request. *)
Theorem failed_makedirs_leaves_download (R : Type) (output_folder : path)
    (output_filename : option string) (w : world) :
  let r := download_latest_wheel (R := R) output_folder output_filename w in
  In (EMakedirs output_folder false) (evs r) →
  (∃ e, out r = Exn e) ∧
  last (evs r) = Some (EMakedirs output_folder false) ∧
  Forall makes_no_request (evs r).
Proof.
  cbv zeta.
  pose proof (download_latest_wheel_fetch (R := R) output_folder
                output_filename w) as (_ & _ & H).
  apply H.
Qed.

Lemma failed_makedirs_leaves_download_witness :
  let r := download_latest_wheel (R := Z) wheels_dir None
             wheels_is_file_world in
  (∃ e, out r = Exn e) ∧
  last (evs r) = Some (EMakedirs wheels_dir false) ∧
  Forall makes_no_request (evs r).
Proof.
  apply (failed_makedirs_leaves_download Z wheels_dir None
           wheels_is_file_world).
  apply In_by_eval. vm_compute. reflexivity.
Defined.

Lemma is_log_asks_feed_only (o : option path) (t : list event) :
  Forall (fun e => is_log_to o e = true) t → Forall asks_feed_only t.
Proof.
  intros H. eapply Forall_impl; [exact H|].
  by intros [] He; simpl in He; try discriminate.
Qed.

Lemma download_latest_wheel_feed {R : Type} (folder : path)
    (fname : option string) w :
  wp (R := R) (download_latest_wheel folder fname) w (fun o _ t =>
    ∀ feed, In (EHttpGet api_url (Some 30) (Some feed)) t →
            status_code feed ≠ 200 ∨ wheel_of feed = None →
            o = Val None ∧ Forall asks_feed_only t ∧
            (status_code feed ≠ 200 →
             Exists (logged ("Failed to fetch release information. Status code: "
                             +:+ pretty (status_code feed))) t) ∧
            (status_code feed = 200 → json feed ≠ None →
             Exists (logged "No wheel file found in the latest release assets")
                    t)).
Proof.
  unfold download_latest_wheel.
  repeat wp_step; codes_tac; keeps_tac.
  all: intros feed Hin Hbad; in_tac Hin.
  all: try done.
  all: try (unfold wheel_of in Hbad;
            match goal with
            | Hj : json _ = Some _, Ha : find_wheel_asset _ = Some _ |- _ =>
                rewrite Hj in Hbad; cbv beta iota in Hbad;
                rewrite Ha in Hbad; discriminate Hbad
            end).
  all: split_and!;
    [ done
    | repeat first
        [ apply Forall_nil_2 | apply Forall_app_2
        | apply Forall_cons_2; [first [exact I|by split]|]
        | solve [eapply is_log_asks_feed_only; eassumption] ]
    | intros Hs; first [done|exists_tac]
    | intros Hs Hj; first [done|exists_tac] ].
Qed.

(** X14: when the release feed answers with a status other than 200, or
    with a body that lists no wheel (no [assets] key, or no asset whose
    name ends in [.whl]), [download_latest_wheel] returns [None] without a
    second request, and logs the status, or that no wheel was found. *)
Theorem feed_without_wheel (R : Type) (output_folder : path)
    (output_filename : option string) (w : world) (feed : response) :
  let r := download_latest_wheel (R := R) output_folder output_filename w in
  In (EHttpGet api_url (Some 30) (Some feed)) (evs r) →
  status_code feed ≠ 200 ∨ wheel_of feed = None →
  out r = Val None ∧ Forall asks_feed_only (evs r) ∧
  (status_code feed ≠ 200 →
   Exists (logged ("Failed to fetch release information. Status code: "
                   +:+ pretty (status_code feed))) (evs r)) ∧
  (status_code feed = 200 → json feed ≠ None →
   Exists (logged "No wheel file found in the latest release assets")
          (evs r)).
Proof.
  cbv zeta.
  apply (download_latest_wheel_feed (R := R) output_folder output_filename w).
Qed.

Lemma feed_without_wheel_witness :
  (let r := download_latest_wheel (R := Z) wheels_dir None rate_limited_world in
   out r = Val None ∧
   Exists (logged "Failed to fetch release information. Status code: 403")
          (evs r)) ∧
  (let r := download_latest_wheel (R := Z) wheels_dir None no_wheel_world in
   out r = Val None ∧
   Exists (logged "No wheel file found in the latest release assets")
          (evs r)).
Proof.
  split; cbv zeta.
  - destruct (feed_without_wheel Z wheels_dir None rate_limited_world
                (Response 403 None EmptyString "rate limit exceeded"))
      as (Ho & _ & Hm & _).
    + apply In_by_eval. vm_compute. reflexivity.
    + by left.
    + split; [exact Ho|]. by apply Hm.
  - destruct (feed_without_wheel Z wheels_dir None no_wheel_world
                (Response 200
                   (Some (Json (Some [Asset "open_webui.tar.gz"
                                            "https://example.org/t"]) "{}"))
                   EmptyString EmptyString))
      as (Ho & _ & _ & Hm).
    + apply In_by_eval. vm_compute. reflexivity.
    + by right.
    + split; [exact Ho|]. by apply Hm.
Defined.

(** ** [install_miniconda] *)

Lemma is_log_only_requests (o : option path) (t : list event) :
  Forall (fun e => is_log_to o e = true) t → Forall (only_requests o) t.
Proof.
  intros H. eapply Forall_impl; [exact H|].
  intros [] He; simpl in He; try discriminate; simpl; [done|].
  by apply bool_decide_eq_true in He.
Qed.

Lemma is_log_installer_only (h : host) (o : option path) (t : list event) :
  Forall (fun e => is_log_to o e = true) t → Forall (installer_only h) t.
Proof.
  intros H. eapply Forall_impl; [exact H|].
  by intros [] He; simpl in He; try discriminate.
Qed.

Lemma install_miniconda_http_error {R : Type} (d : path) w :
  wp (R := R) (install_miniconda d) w (fun o _ t =>
    (∃ v, o = Val v) ∧
    ∀ url timeout resp,
      In (EHttpGet url timeout (Some resp)) t →
      400 ≤ status_code resp < 600 →
      o = Val (false, None) ∧ Forall (only_requests (LOG_FILE_PATH w)) t ∧
      Exists (logged ("Error installing Miniconda: "
                      +:+ exn_str (HTTPError (status_code resp)))) t).
Proof.
  unfold install_miniconda.
  repeat wp_step; keeps_tac.
  all: split; [by eexists|].
  all: intros url timeout resp Hin Hstatus; in_tac Hin.
  all: try (match goal with
            | H : _ && _ = false |- _ =>
                apply andb_false_iff in H; rewrite Z.leb_gt, Z.ltb_ge in H; lia
            end).
  all: split_and!;
    [ done
    | repeat first
        [ apply Forall_nil_2 | apply Forall_app_2
        | apply Forall_cons_2; [exact I|]
        | solve [eapply is_log_only_requests; eassumption] ]
    | exists_tac ].
Qed.

(** X15: [install_miniconda] never raises.  When the download of the
    installer is answered with an error status (400 to 599), it returns
    [(False, None)] and logs the error; nothing is written to disk but the
    log, and nothing is run. *)
Theorem miniconda_download_error (R : Type) (install_dir : path) (w : world) :
  let r := install_miniconda (R := R) install_dir w in
  (∃ v, out r = Val v) ∧
  ∀ url timeout resp,
    In (EHttpGet url timeout (Some resp)) (evs r) →
    400 ≤ status_code resp < 600 →
    out r = Val (false, None) ∧
    Forall (only_requests (LOG_FILE_PATH w)) (evs r) ∧
    Exists (logged ("Error installing Miniconda: "
                    +:+ exn_str (HTTPError (status_code resp)))) (evs r).
Proof.
  cbv zeta. apply (install_miniconda_http_error (R := R) install_dir w).
Qed.

Lemma miniconda_download_error_witness :
  let r := install_miniconda (R := Z) target miniconda_404_world in
  out r = Val (false, None) ∧ Forall (only_requests None) (evs r) ∧
  Exists (logged "Error installing Miniconda: 404 Error") (evs r).
Proof.
  apply (proj2 (miniconda_download_error Z target miniconda_404_world)
           "https://repo.anaconda.com/miniconda/Miniconda3-latest-Linux-x86_64.sh"
           None (Response 404 None "<html>not found</html>" EmptyString)).
  - apply In_by_eval. vm_compute. reflexivity.
  - simpl. lia.
Defined.

Ltac installer_leaf :=
  first
    [ exact I
    | by left; eexists
    | by right; eexists ].

Ltac installer_ok_leaf :=
  eexists; eexists;
  split_and!;
    [ reflexivity
    | first [by left; eexists | by right; eexists]
    | first [done | lia] ].

Lemma install_miniconda_installer {R : Type} (d : path) w :
  wp (R := R) (install_miniconda d) w (fun o _ t =>
    (∀ argv res,
       In (ESpawn argv (Some res)) t → installs_to_home (w_host w) argv →
       returncode res ≠ 0 →
       o = Val (false, None) ∧ Forall (installer_only (w_host w)) t ∧
       Exists (logged ("Miniconda installation failed with code: "
                       +:+ pretty (returncode res))) t) ∧
    (∀ cp, o = Val (true, Some cp) →
           Exists (installer_ran_ok (w_host w)) t)).
Proof.
  unfold install_miniconda.
  repeat wp_step; keeps_tac; codes_tac.
  all: split;
    [ intros argv rs Hin Hhome Hne; in_tac Hin;
      try (destruct Hhome as [[i Hi]|[i Hi]]; discriminate Hi);
      try done;
      (split_and!;
        [ done
        | unfold installer_only, installs_to_home, miniconda_path_of;
          repeat first
            [ apply Forall_nil_2 | apply Forall_app_2
            | apply Forall_cons_2; [solve [installer_leaf]|]
            | solve [eapply is_log_installer_only; eassumption] ]
        | exists_tac ])
    | intros cp Hcp; try discriminate Hcp;
      unfold installer_ran_ok, installs_to_home, miniconda_path_of;
      exists_with installer_ok_leaf ].
Qed.

(** X16: when the Miniconda installer exits with a code other than 0,
    [install_miniconda] returns [(False, None)], logs the code, and does
    not go on to [conda init]: the installer is the only process of the
    run. *)
Theorem miniconda_installer_failure (R : Type) (install_dir : path)
    (w : world) (argv : list string) (res : completed) :
  let r := install_miniconda (R := R) install_dir w in
  In (ESpawn argv (Some res)) (evs r) →
  installs_to_home (w_host w) argv →
  returncode res ≠ 0 →
  out r = Val (false, None) ∧ Forall (installer_only (w_host w)) (evs r) ∧
  Exists (logged ("Miniconda installation failed with code: "
                  +:+ pretty (returncode res))) (evs r).
Proof.
  cbv zeta.
  apply (proj1 (install_miniconda_installer (R := R) install_dir w)).
Qed.

Lemma miniconda_installer_failure_witness :
  let r := install_miniconda (R := Z) target installer_fails_world in
  out r = Val (false, None) ∧ Forall (installer_only linux) (evs r) ∧
  Exists (logged "Miniconda installation failed with code: 2") (evs r).
Proof.
  apply (miniconda_installer_failure Z target installer_fails_world
           ["/tmp/Miniconda3-latest-Linux-x86_64.sh"; "-b"; "-p";
            "/home/u/miniconda3"]
           (Completed 2 EmptyString EmptyString)).
  - apply In_by_eval. vm_compute. reflexivity.
  - left. by exists "/tmp/Miniconda3-latest-Linux-x86_64.sh".
  - done.
Defined.

(** X17: [install_miniconda] reports success only in runs in which the
    installer, run with [~/miniconda3] as its target, exited with code 0;
    the exit codes of [conda init] do not matter. *)
Theorem miniconda_success_means_installed (R : Type) (install_dir : path)
    (w : world) (conda_path : string) :
  let r := install_miniconda (R := R) install_dir w in
  out r = Val (true, Some conda_path) →
  Exists (installer_ran_ok (w_host w)) (evs r).
Proof.
  cbv zeta.
  apply (proj2 (install_miniconda_installer (R := R) install_dir w)).
Qed.

Lemma miniconda_success_means_installed_witness :
  let r := install_miniconda (R := Z) target installer_works_world in
  Exists (installer_ran_ok linux) (evs r) ∧
  In (ESpawn ["/home/u/miniconda3/bin/conda"; "init"; "zsh"]
             (Some (Completed 1 EmptyString EmptyString))) (evs r).
Proof.
  split.
  - apply (miniconda_success_means_installed Z target installer_works_world
             "/home/u/miniconda3/bin/conda").
    vm_compute. reflexivity.
  - apply In_by_eval. vm_compute. reflexivity.
Defined.

(** ** [main]: what it never does *)

(** As [emits_auto], for a [main] whose flags are known. *)
Ltac emits_flags :=
  repeat first
    [ progress cbn [yes no_shortcuts install_dir negb when]
    | emits_step ].

Lemma main_yes_emits (d : path) (ns : bool) :
  emits (fun e => negb (is_input e)) (main (Args d ns true)).
Proof. emits_flags. Qed.

(** X18: with [--yes], [main] asks nothing: no run reads from the
    terminal, whatever it finds in the target directory and whether or
    not conda is installed. *)
Theorem yes_never_prompts (a : args) (w : world)
    (prompt : string) (answer : option string) :
  yes a = true → ¬ In (EInput prompt answer) (evs (main a w)).
Proof.
  destruct a as [d ns y]. simpl. intros -> Hin.
  pose proof (main_yes_emits d ns w) as H. rewrite Forall_forall in H.
  apply list_elem_of_In in Hin. by specialize (H _ Hin).
Qed.

Lemma yes_never_prompts_witness :
  ¬ In (EInput cleanup_prompt None)
       (evs (main (Args target false true) no_terminal_world)).
Proof.
  apply (yes_never_prompts (Args target false true) no_terminal_world).
  reflexivity.
Defined.

Lemma main_no_shortcuts_emits (d : path) (y : bool) :
  emits (fun e => negb (shortcut_work e)) (main (Args d true y)).
Proof. emits_flags. Qed.

(** X19: with [--no-shortcuts], [main] never calls [create_shortcuts], and
    it removes no file. *)
Theorem no_shortcuts_is_respected (a : args) (w : world) :
  no_shortcuts a = true →
  ¬ In (ECall "create_shortcuts") (evs (main a w)) ∧
  ∀ p ok, ¬ In (ERemove p ok) (evs (main a w)).
Proof.
  destruct a as [d ns y]. simpl. intros ->.
  pose proof (main_no_shortcuts_emits d y w) as H. rewrite Forall_forall in H.
  split; [|intros p ok]; intros Hin; apply list_elem_of_In in Hin;
    by specialize (H _ Hin).
Qed.

Lemma no_shortcuts_is_respected_witness :
  let r := main (Args windows_target true true) no_tmp_world in
  out r = Val 0 ∧ ¬ In (ECall "create_shortcuts") (evs r) ∧
  ∀ p ok, ¬ In (ERemove p ok) (evs r).
Proof.
  split; [vm_compute; reflexivity|].
  apply (no_shortcuts_is_respected (Args windows_target true true)
           no_tmp_world).
  reflexivity.
Defined.

Lemma main_deletes_emits (a : args) :
  emits (deletes_within (install_dir a)) (main a).
Proof.
  unfold main, main_body, normpath.
  repeat first
    [ emits_step
    | lazymatch goal with
      | |- emits _ (fs_call _ _ _) =>
          apply emits_fs_call; intros b; simpl; apply bool_decide_eq_true;
          first [reflexivity | apply last_snoc]
      end ].
Qed.

(** X20: the one tree [main] deletes is the installation directory: every
    [shutil.rmtree] of a run is on [install_dir]; and the one file it
    removes is a script named [create_shortcut.ps1]. *)
Theorem main_deletes_only_install_dir (a : args) (w : world) :
  (∀ p ok, In (ERmtree p ok) (evs (main a w)) → p = install_dir a) ∧
  (∀ p ok, In (ERemove p ok) (evs (main a w)) →
           last p = Some "create_shortcut.ps1").
Proof.
  pose proof (main_deletes_emits a w) as H. rewrite Forall_forall in H.
  split; intros p ok Hin; apply list_elem_of_In in Hin;
    specialize (H _ Hin); simpl in H; by apply bool_decide_eq_true in H.
Qed.

Lemma main_deletes_only_install_dir_witness :
  In (ERmtree target true)
     (evs (main (Args target false true) env_remove_fails_world)) ∧
  target = install_dir (Args target false true).
Proof.
  assert (In (ERmtree target true)
             (evs (main (Args target false true) env_remove_fails_world)))
    as Hin by (apply In_by_eval; vm_compute; reflexivity).
  split; [exact Hin|].
  exact (proj1 (main_deletes_only_install_dir (Args target false true)
                  env_remove_fails_world) _ _ Hin).
Defined.

(** ** [main]: the steps that are fatal *)

Lemma bind_assoc_run {R A B C : Type} (m : M R A) (f : A → M R B)
    (g : B → M R C) (w : world) :
  bind (bind m f) g w = bind m (fun x => bind (f x) g) w.
Proof.
  rewrite !bind_run. destruct (out (m w)) as [a| |]; simpl; [|done..].
  rewrite !bind_run. simpl.
  destruct (out (f a (st (m w)))) as [b| |]; simpl; [|done..].
  by rewrite app_assoc.
Qed.

Lemma after_assoc {R A B C : Type} (bad : event → bool) (c : R)
    (T : list event → Prop) (m : M R A) (f : A → M R B) (g : B → M R C) :
  after bad c T (bind m (fun x => bind (f x) g)) →
  after bad c T (bind (bind m f) g).
Proof. intros H w. rewrite bind_assoc_run. apply H. Qed.

Lemma quiet_not_failed (e : event) : quiet e = true → step_failed e = false.
Proof.
  destruct e as [|f v| | | | | | | | | | |]; simpl; try done.
  intros ->%String.eqb_eq. reflexivity.
Qed.

Lemma then_quiet_clean (t : list event) :
  Forall (fun e => negb (step_failed e) = true) t → then_quiet t.
Proof.
  intros Hc pre e post Heq Hb.
  by destruct (clean_no_bad step_failed _ (negb_clean _) _ _ _ _ Hc Heq Hb).
Qed.

Lemma then_quiet_app (t1 t2 : list event) :
  Forall (fun e => negb (step_failed e) = true) t1 → then_quiet t2 →
  then_quiet (t1 ++ t2).
Proof.
  intros Hc H2 pre e post Heq Hb.
  apply app_eq_split in Heq as [(mid & Heq & ->)|(mid & -> & ->)].
  - by destruct (clean_no_bad step_failed _ (negb_clean _) _ _ _ _ Hc Heq Hb).
  - by eapply H2.
Qed.

(** A trace that is clean up to one event and quiet after it. *)
Lemma then_quiet_here (t1 t2 : list event) (e : event) :
  Forall (fun e => negb (step_failed e) = true) t1 →
  Forall (fun e => quiet e = true) t2 →
  then_quiet ((t1 ++ [e]) ++ t2).
Proof.
  intros H1 H2 pre e0 post Heq Hb. rewrite <- app_assoc in Heq. simpl in Heq.
  apply app_eq_split in Heq as [(mid & Heq & ->)|(mid & -> & Heq)].
  - by destruct (clean_no_bad step_failed _ (negb_clean _) _ _ _ _ H1 Heq Hb).
  - destruct mid as [|x mid]; simpl in Heq.
    + by injection Heq as <- <-.
    + injection Heq as <- ->. apply Forall_app in H2 as [_ H2].
      apply Forall_cons in H2 as [H2 _]. apply quiet_not_failed in H2.
      congruence.
Qed.

(** A step [m], whose failure [k] answers with some logging and
    [return c]. *)
Lemma after_step {R A B : Type} (c : R) (f : string) (show : A → string)
    (body : M A Empty_set) (k : A → M R B) (failing : A → Prop) :
  emits (fun e => negb (step_failed e)) body →
  verdict f show failing →
  (∀ a, after step_failed c then_quiet (k a)) →
  (∀ a, failing a → ∀ w, wp (k a) w (fun o _ t =>
          o = Ret c ∧ Forall (fun e => quiet e = true) t)) →
  after step_failed c then_quiet (bind (def f show body) k).
Proof.
  intros Hbody Hv Hk Hfail w. rewrite bind_run, def_run.
  specialize (Hbody w).
  destruct (out (body w)) as [[]|a|e]; simpl.
  - destruct (Hv a) as [Ha|Ha].
    + intros _. destruct (Hfail a Ha (st (body w))) as [-> Hq]. split; [done|].
      apply (then_quiet_here (ECall f :: evs (body w))); [|done].
      by constructor.
    + intros Hb.
      assert (Forall (fun e => negb (step_failed e) = true)
                (ECall f :: evs (body w) ++ [EReturn f (show a)])) as Hc.
      { constructor; [done|]. apply Forall_app_2; [done|].
        constructor; [by rewrite Ha|done]. }
      change (Exists (fun e => step_failed e = true)
                ((ECall f :: evs (body w) ++ [EReturn f (show a)])
                 ++ evs (k a (st (body w))))) in Hb.
      apply Exists_app in Hb as [Hb|Hb].
      * by destruct (clean_not_bad step_failed _ (negb_clean _) _ Hc Hb).
      * destruct (Hk a _ Hb) as [-> HT]. split; [done|].
        by apply (then_quiet_app
                    (ECall f :: evs (body w) ++ [EReturn f (show a)])).
  - intros Hb. exfalso.
    eapply (clean_not_bad step_failed _ (negb_clean _)); [|exact Hb].
    by constructor.
Qed.

(** The answer of [main] to a failed step. *)
Ltac answer_tac :=
  intros; simplify_eq/=; repeat wp_step; split; [done|trace_tac].

Ltac quiet_walk :=
  after_walk (negb_clean step_failed) then_quiet_app.

Lemma main_wheel_fatal (a : args) (d env py : path) :
  after step_failed 1 then_quiet (main_wheel a d env py).
Proof.
  unfold main_wheel. quiet_walk.
  unfold download_latest_wheel.
  apply (after_step _ _ _ _ _ (fun o => o = None)).
  - emits_auto.
  - intros [p|]; [by right|by left].
  - intros [p|]; quiet_walk.
    unfold install_wheel.
    apply (after_step _ _ _ _ _ (fun b => b = false)).
    + emits_auto.
    + intros [|]; [by right|by left].
    + intros ok. quiet_walk.
    + answer_tac.
  - answer_tac.
Qed.

Lemma main_env_fatal (a : args) (d : path) (conda_path : option string) :
  after step_failed 1 then_quiet
    (env_success <- create_conda_env (path_of conda_path)
                      (d ++ [CONDA_ENV_NAME]) PYTHON_VERSION ;;
     when (negb env_success) (
       log "Failed to create the Python environment. Installation will be aborted." ;;
       return_ 1) ;;
     sys <- platform_system ;;
     main_wheel a d (d ++ [CONDA_ENV_NAME])
       (if is_windows sys then (d ++ [CONDA_ENV_NAME]) ++ ["python.exe"]
        else (d ++ [CONDA_ENV_NAME]) ++ ["bin"; "python"]))%prog.
Proof.
  unfold create_conda_env.
  apply (after_step _ _ _ _ _ (fun b => b = false)).
  - emits_auto.
  - intros [|]; [by right|by left].
  - intros ok. quiet_walk. apply main_wheel_fatal.
  - answer_tac.
Qed.

Lemma main_install_fatal (a : args) (d : path) :
  after step_failed 1 then_quiet (main_install a d).
Proof.
  unfold main_install. quiet_walk.
  match goal with |- after _ _ _ (bind (if ?b then _ else _) _) => destruct b end.
  - do 2 (apply after_assoc; quiet_walk).
    apply after_assoc. unfold install_miniconda.
    apply (after_step _ _ _ _ _ (fun r => r.1 = false)).
    + emits_auto.
    + intros [[|] o]; [by right|by left].
    + intros r. apply after_assoc. quiet_walk. apply main_env_fatal.
    + intros [b o] Hb. simpl in Hb. subst b. answer_tac.
  - quiet_walk. apply main_env_fatal.
Qed.

Lemma main_body_fatal (a : args) :
  after step_failed 1 then_quiet (main_body a).
Proof. unfold main_body. quiet_walk. apply main_install_fatal. Qed.

(** X21: four steps are fatal.  As soon as [install_miniconda],
    [create_conda_env], [download_latest_wheel] or [install_wheel] reports
    its failure, [main] does nothing more than print and write messages,
    and returns exit code 1: no further process, request, deletion or
    question. *)
Theorem failed_step_is_fatal (a : args) (w : world)
    (pre post : list event) (e : event) :
  evs (main a w) = pre ++ e :: post → step_failed e = true →
  out (main a w) = Val 1 ∧ Forall (fun e => quiet e = true) post.
Proof.
  intros Heq Hb.
  destruct (main_after step_failed 1 _ a w eq_refl (fun _ => eq_refl)
              (main_body_fatal a)) as (Hout & t & Ht & Hevs).
  { rewrite Heq. apply Exists_app. right. by apply Exists_cons_hd. }
  split; [done|]. rewrite Hevs in Heq.
  destruct pre as [|x pre]; simpl in Heq; [by simplify_eq|].
  injection Heq as <- Heq.
  apply app_eq_split in Heq as [(mid & Heq & ->)|(mid & -> & Heq)].
  - apply Forall_app_2; [by eapply Ht|]. by repeat constructor.
  - destruct mid as [|y [|z mid]]; simplify_eq/=.
Qed.

Lemma failed_step_is_fatal_witness :
  let t := evs (main (Args target false true) env_fails_world) in
  nth_error t 36 = Some (EReturn "create_conda_env" "False") ∧
  out (main (Args target false true) env_fails_world) = Val 1 ∧
  Forall (fun e => quiet e = true) (drop 37 t).
Proof.
  cbv zeta. split; [vm_compute; reflexivity|].
  apply (failed_step_is_fatal (Args target false true) env_fails_world
           (take 36 (evs (main (Args target false true) env_fails_world)))
           _ (EReturn "create_conda_env" "False")).
  - vm_compute. reflexivity.
  - reflexivity.
Defined.

(** ** [main]: the Miniconda question *)

Lemma conda_undecided_not_declined e :
  conda_undecided e = true → declined_miniconda e = false.
Proof. unfold conda_undecided. by intros [?%negb_true_iff _]%andb_true_iff. Qed.

Lemma conda_undecided_app t1 t2 :
  Forall (fun e => conda_undecided e = true) t1 →
  Forall (fun e => installs_nothing e = true) t2 →
  Forall (fun e => installs_nothing e = true) (t1 ++ t2).
Proof.
  intros H1 H2. apply Forall_app_2; [|done].
  eapply Forall_impl; [exact H1|]. unfold conda_undecided.
  by intros e [_ ?]%andb_true_iff.
Qed.

Lemma main_install_declined (a : args) (d : path) :
  after declined_miniconda 1 (Forall (fun e => installs_nothing e = true))
        (main_install a d).
Proof.
  unfold main_install.
  after_walk conda_undecided_not_declined conda_undecided_app.
  match goal with |- after _ _ _ (bind (if ?b then _ else _) _) => destruct b end.
  - apply after_assoc.
    after_walk conda_undecided_not_declined conda_undecided_app.
    apply after_assoc.
    apply after_wp; intros w. apply wp_bind.
    destruct (yes a); simpl.
    + apply wp_ret.
      apply (wp_emits (fun e => negb (declined_miniconda e))); [emits_auto|].
      intros o w1 t1 Ht1 Hb. exfalso.
      eapply (clean_not_bad _ _ (negb_clean declined_miniconda)); [|exact Hb].
      done.
    + apply wp_bind, wp_input; [intros line w1 Hfs Hk|intros w1 Hfs Hk].
      * destruct (declined line) eqn:Hd; simpl.
        -- repeat wp_step. intros _. split; [reflexivity|trace_tac].
        -- apply wp_ret.
           apply (wp_emits (fun e => negb (declined_miniconda e)));
             [emits_auto|].
           intros o1 w2 t1 Ht1 Hb. exfalso.
           eapply (clean_not_bad _ _ (negb_clean declined_miniconda));
             [|exact Hb].
           trace_tac. simpl. by rewrite Hd.
      * intros Hb. exfalso.
        eapply (clean_not_bad _ _ (negb_clean declined_miniconda));
          [|exact Hb].
        trace_tac.
  - apply (after_clean _ _ _ _ (negb_clean declined_miniconda)). emits_auto.
Qed.

Lemma main_body_declined_miniconda (a : args) :
  after declined_miniconda 1 (Forall (fun e => installs_nothing e = true))
        (main_body a).
Proof.
  unfold main_body.
  after_walk conda_undecided_not_declined conda_undecided_app.
  apply main_install_declined.
Qed.

(** X22: when conda is missing and the user answers the question whether
    to install Miniconda with anything but [y] or [Y], [main] returns exit
    code 1 and has installed nothing: it has made no request, and has
    called neither [install_miniconda] nor [create_conda_env]. *)
Theorem declined_miniconda_cancels (a : args) (w : world) (line : string) :
  In (EInput conda_prompt (Some line)) (evs (main a w)) →
  declined line = true →
  out (main a w) = Val 1 ∧
  Forall (fun e => installs_nothing e = true) (evs (main a w)).
Proof.
  intros Hin Hdec.
  destruct (main_after declined_miniconda 1 _ a w eq_refl (fun _ => eq_refl)
              (main_body_declined_miniconda a)) as (Hout & t & Ht & Hevs).
  { apply Exists_exists. exists (EInput conda_prompt (Some line)).
    split; [by apply list_elem_of_In|]. simpl. by rewrite Hdec. }
  split; [done|]. rewrite Hevs.
  constructor; [done|]. apply Forall_app_2; [done|by repeat constructor].
Qed.

Lemma declined_miniconda_cancels_witness :
  let r := main (Args target false false) no_conda_declined_world in
  out r = Val 1 ∧ Forall (fun e => installs_nothing e = true) (evs r).
Proof.
  apply (declined_miniconda_cancels (Args target false false)
           no_conda_declined_world "no").
  - apply In_by_eval. vm_compute. reflexivity.
  - reflexivity.
Defined.

(** ** [main]: what exit code 0 means *)

Lemma Exists_sub {A : Type} (P : A → Prop) (t t' : list A) :
  (∀ e, e ∈ t → e ∈ t') → Exists P t → Exists P t'.
Proof.
  intros Hsub (e & He & HP)%Exists_exists. apply Exists_exists.
  exists e. split; [by apply Hsub|done].
Qed.

Lemma fetched_sub (data : string) (t t' : list event) :
  (∀ e, e ∈ t → e ∈ t') → fetched data t → fetched data t'.
Proof.
  intros Hsub (feed & a & wheel & H1 & H2 & H3 & H5 & H6 & H7).
  exists feed, a, wheel.
  split_and!; try done; apply list_elem_of_In, Hsub, list_elem_of_In; done.
Qed.

Lemma In_sub {A : Type} (x : A) (t t' : list A) :
  (∀ e, e ∈ t → e ∈ t') → In x t → In x t'.
Proof. intros Hsub Hin. by apply list_elem_of_In, Hsub, list_elem_of_In. Qed.

(** A piece of a trace is part of it. *)
Ltac piece_search :=
  first
    [ assumption
    | apply list_elem_of_further; piece_search
    | apply elem_of_app; first [left; piece_search | right; piece_search] ].

Ltac sub_tac := let e := fresh "e" in intros e ?; piece_search.

Ltac in_sub H :=
  first [ eapply In_sub; [|exact H]; sub_tac | right; in_sub H ].

Lemma main_wheel_success (a : args) (d env py : path) w :
  wp (main_wheel a d env py) w (fun o _ t =>
    o = Ret 0 →
    ∃ wheel data,
      fetched data t ∧ In (EWrite wheel true) t ∧
      MIN_WHEEL_SIZE ≤ Str.size data ∧
      Exists (ran_ok (pip_install_argv wheel py)) t ∧
      Exists (logged "*** INSTALLATION COMPLETED ***") t).
Proof.
  unfold main_wheel. apply wp_bind. unfold makedirs.
  apply wp_fs_call; [intros [] w1 _ _|by intros e w1 _ _ [=]].
  apply wp_bind.
  eapply wp_mono; [apply download_latest_wheel_fetch|].
  intros [[p|]|c|e] w2 t2 [Hdl _]; cbv beta iota;
    [|by repeat wp_step|done|by intros [=]].
  destruct Hdl as (data & Hfetched & Hwritten & Hsize).
  apply wp_bind, wp_path_isfile.
  destruct (is_file_node _); simpl; [|by repeat wp_step].
  apply wp_bind, wp_ret, wp_bind.
  eapply wp_mono; [apply install_wheel_lines|].
  intros o3 w3 t3 (_ & [[-> Hpip]|[-> _]] & _); cbv beta iota;
    [|by repeat wp_step].
  apply wp_bind. simpl. apply wp_ret, wp_bind.
  assert (∀ w4,
    wp (log "*** INSTALLATION COMPLETED ***" ;;
        log (PRODUCT_NAME +:+ " installation completed successfully!") ;;
        log ("You can start " +:+ PRODUCT_NAME +:+ " by running:") ;;
        log ("  conda activate " +:+ path_str env) ;;
        log "  open-webui" ;;
        log "Or by using the desktop shortcut if created" ;;
        return_ (A := Empty_set) 0) w4
      (fun o5 _ t5 =>
         o5 = Ret 0 → Exists (logged "*** INSTALLATION COMPLETED ***") t5))
    as Hend.
  { intros w4. repeat wp_step. intros _. exists_tac. }
  destruct (no_shortcuts a); simpl.
  - apply wp_ret. eapply wp_mono; [apply Hend|].
    intros o5 w5 t5 H5 Ho. exists p, data.
    split_and!; [| |done| |].
    + eapply fetched_sub; [|exact Hfetched]. sub_tac.
    + in_sub Hwritten.
    + eapply Exists_sub; [|exact Hpip]. sub_tac.
    + eapply Exists_sub; [|exact (H5 Ho)]. sub_tac.
  - apply wp_bind.
    eapply wp_mono; [apply create_shortcuts_windows|].
    intros o4 w4 t4 [[-> | ->] _]; cbv beta iota; simpl.
    + apply wp_ret. eapply wp_mono; [apply Hend|].
      intros o5 w5 t5 H5 Ho. exists p, data.
      split_and!; [| |done| |].
      * eapply fetched_sub; [|exact Hfetched]. sub_tac.
      * in_sub Hwritten.
      * eapply Exists_sub; [|exact Hpip]. sub_tac.
      * eapply Exists_sub; [|exact (H5 Ho)]. sub_tac.
    + apply wp_log. intros w5 t5' _ _ _.
      eapply wp_mono; [apply Hend|].
      intros o5 w6 t5 H5 Ho. exists p, data.
      split_and!; [| |done| |].
      * eapply fetched_sub; [|exact Hfetched]. sub_tac.
      * in_sub Hwritten.
      * eapply Exists_sub; [|exact Hpip]. sub_tac.
      * eapply Exists_sub; [|exact (H5 Ho)]. sub_tac.
Qed.

Lemma installed_sub (d : path) (t t' : list event) :
  (∀ e, e ∈ t → e ∈ t') → installed d t → installed d t'.
Proof.
  intros Hsub (cp & wheel & data & py & H1 & H2 & H3 & H4 & H5 & H6 & H7).
  exists cp, wheel, data, py.
  split_and!; try done;
    first [by eapply Exists_sub | by eapply fetched_sub | by eapply In_sub].
Qed.

Lemma main_env_success (a : args) (d : path) (conda_path : option string) w :
  wp (env_success <- create_conda_env (path_of conda_path)
                       (d ++ [CONDA_ENV_NAME]) PYTHON_VERSION ;;
      when (negb env_success) (
        log "Failed to create the Python environment. Installation will be aborted." ;;
        return_ 1) ;;
      sys <- platform_system ;;
      main_wheel a d (d ++ [CONDA_ENV_NAME])
        (if is_windows sys then (d ++ [CONDA_ENV_NAME]) ++ ["python.exe"]
         else (d ++ [CONDA_ENV_NAME]) ++ ["bin"; "python"]))%prog w
     (fun o _ t => o = Ret 0 → installed d t).
Proof.
  apply wp_bind.
  eapply wp_mono; [apply create_conda_env_spec|].
  intros o1 w1 t1 (_ & [[-> Henv]|[-> _]] & _); cbv beta iota;
    [|by repeat wp_step].
  apply wp_bind. simpl. apply wp_ret, wp_bind, wp_platform_system.
  eapply wp_mono; [apply main_wheel_success|].
  intros o2 w2 t2 H2 Ho.
  destruct (H2 Ho) as (wheel & data & Hf & Hw & Hs & Hp & Hc).
  exists (path_of conda_path), wheel, data,
    (if is_windows (system (w_host w1))
     then (d ++ [CONDA_ENV_NAME]) ++ ["python.exe"]
     else (d ++ [CONDA_ENV_NAME]) ++ ["bin"; "python"]).
  split_and!.
  - eapply Exists_sub; [|exact Henv]. sub_tac.
  - eapply fetched_sub; [|exact Hf]. sub_tac.
  - in_sub Hw.
  - done.
  - destruct (is_windows _); [by left|by right].
  - eapply Exists_sub; [|exact Hp]. sub_tac.
  - eapply Exists_sub; [|exact Hc]. sub_tac.
Qed.

(** Steps that, when they return from [main], do so with exit code 1. *)
Ltac never_0_tac :=
  repeat first
    [ wp_step
    | lazymatch goal with
      | |- wp check_conda _ _ =>
          eapply wp_mono; [apply check_conda_spec|];
          intros ? ? ? (_ & [(? & -> & _)|[-> _]]); cbv beta iota
      | |- wp (install_miniconda _) _ _ =>
          eapply wp_mono; [apply install_miniconda_http_error|];
          intros ? ? ? [[? ->] _]; cbv beta iota
      end ];
  try done.

Lemma main_conda_never_0 (a : args) (d : path) (r : bool * option string) w :
  wp (if negb r.1 then
        log "Conda not installed" ;;
        when (negb (yes a)) (
          user_input <- input conda_prompt ;;
          when (declined user_input) (
            log "Installation cancelled by user" ;;
            return_ 1)) ;;
        r' <- install_miniconda d ;;
        let miniconda_success := r'.1 in
        when (negb miniconda_success) (
          log "Failed to install Miniconda. Installation will be aborted." ;;
          return_ 1) ;;
        ret r'.2
      else ret (R := Z) r.2)%prog w
     (fun o _ _ => o ≠ Ret 0).
Proof. never_0_tac. Qed.

Lemma main_preflight_never_0 (a : args) (d : path) w :
  wp (main_preflight a d) w (fun o _ _ => o ≠ Ret 0).
Proof. unfold main_preflight, main_remove_existing. never_0_tac. Qed.

Lemma main_install_success (a : args) (d : path) w :
  wp (main_install a d) w (fun o _ t => o = Ret 0 → installed d t).
Proof.
  unfold main_install. apply wp_bind.
  eapply wp_mono; [apply check_conda_spec|].
  assert (∀ r w1 t1,
    wp (conda_path <-
          (if negb r.1 then
             log "Conda not installed" ;;
             when (negb (yes a)) (
               user_input <- input conda_prompt ;;
               when (declined user_input) (
                 log "Installation cancelled by user" ;;
                 return_ 1)) ;;
             r' <- install_miniconda d ;;
             let miniconda_success := r'.1 in
             when (negb miniconda_success) (
               log "Failed to install Miniconda. Installation will be aborted." ;;
               return_ 1) ;;
             ret r'.2
           else ret r.2) ;;
        env_success <- create_conda_env (path_of conda_path)
                         (d ++ [CONDA_ENV_NAME]) PYTHON_VERSION ;;
        when (negb env_success) (
          log "Failed to create the Python environment. Installation will be aborted." ;;
          return_ 1) ;;
        sys <- platform_system ;;
        main_wheel a d (d ++ [CONDA_ENV_NAME])
          (if is_windows sys then (d ++ [CONDA_ENV_NAME]) ++ ["python.exe"]
           else (d ++ [CONDA_ENV_NAME]) ++ ["bin"; "python"]))%prog w1
      (fun o2 _ t2 => o2 = Ret 0 → installed d (t1 ++ t2))) as Hrest.
  { intros r w1 t1. apply wp_bind.
    eapply wp_mono; [apply main_conda_never_0|].
    intros [cp|c|e] w2 t2 Hne; cbv beta iota in *;
      [|intros [= ->]; by destruct Hne|by intros [=]].
    eapply wp_mono; [apply main_env_success|].
    intros o3 w3 t3 H3 Ho. eapply installed_sub; [|exact (H3 Ho)]. sub_tac. }
  intros o w1 t1 (_ & [(cp & -> & _)|[-> _]]); apply Hrest.
Qed.

Lemma main_body_success (a : args) w :
  wp (main_body a) w (fun o _ t => o = Ret 0 → installed (install_dir a) t).
Proof.
  unfold main_body, normpath.
  apply wp_bind, wp_set_LOG_FILE_PATH, wp_bind. unfold makedirs.
  apply wp_fs_call; [intros [] w1 _ _|by intros e w1 _ _ [=]].
  apply wp_bind, wp_log. intros w2 t2 _ _ _.
  apply wp_bind, wp_log. intros w3 t3 _ _ _.
  apply wp_bind.
  eapply wp_mono; [apply main_preflight_never_0|].
  intros [[]|c|e] w4 t4 Hne; cbv beta iota in *;
    [|intros [= ->]; by destruct Hne|by intros [=]].
  eapply wp_mono; [apply main_install_success|].
  intros o5 w5 t5 H5 Ho. eapply installed_sub; [|exact (H5 Ho)]. sub_tac.
Qed.

(** X23: exit code 0 means that the installation took place.  In a run
    of [main] that returns 0, conda has created the environment in the
    installation directory with Python 3.11 and exited with code 0; the
    release feed and the download of its wheel were answered with status
    200, the wheel has at least 10000 bytes and a write to a file
    succeeded; pip, run by the interpreter of the new environment, was
    asked to install that file and exited with code 0; and the completion
    was logged. *)
Theorem exit_code_0_means_installed (a : args) (w : world) :
  out (main a w) = Val 0 → installed (install_dir a) (evs (main a w)).
Proof.
  pose proof (main_body_success a w) as H. unfold wp in H.
  unfold main. rewrite def_run.
  destruct (out (main_body a w)) as [[]|c|e]; simpl; [|done].
  intros [= ->]. eapply installed_sub; [|by apply H]. sub_tac.
Qed.

Lemma exit_code_0_means_installed_witness :
  installed target (evs (main (Args target false true) fresh_world)).
Proof.
  apply (exit_code_0_means_installed (Args target false true) fresh_world).
  vm_compute. reflexivity.
Defined.

(** ** [main]: when Miniconda is installed *)

Lemma wp_conj {R A : Type} (m : M R A) w
    (Q1 Q2 : outcome R A → world → list event → Prop) :
  wp m w Q1 → wp m w Q2 → wp m w (fun o w1 t => Q1 o w1 t ∧ Q2 o w1 t).
Proof. by split. Qed.

(** A function that returns has its [EReturn] as last event. *)
Lemma wp_def_last {R R' : Type} (f : string) (show : R' → string)
    (body : M R' Empty_set) w :
  wp (R := R) (def f show body) w (fun o _ t =>
    ∀ c, o = Val c → In (EReturn f (show c)) t).
Proof.
  unfold wp. rewrite def_run.
  destruct (out (body w)) as [[]|c|e]; simpl; [|done].
  intros c' [= <-]. right. apply in_or_app. right. by left.
Qed.

Lemma check_conda_missing w :
  wp (R := Z) check_conda w (fun o _ t =>
    (∃ r, o = Val r ∧ (r.1 = false → In conda_missing t)) ∧
    Forall (fun e => negb (is_call "install_miniconda" e) = true) t).
Proof.
  apply wp_conj.
  - pose proof (wp_conj _ _ _ _ (check_conda_spec (R := Z) w)
                  (wp_def_last (R := Z) "check_conda" show_conda _ w)) as H.
    eapply wp_mono; [exact H|]. clear H.
    intros o w1 t [(_ & [(cp & -> & _)|[-> _]]) Hlast]; eexists;
      (split; [reflexivity|]); [done|].
    intros _. by apply (Hlast (false, None)).
  - apply (wp_emits (fun e => negb (is_call "install_miniconda" e)));
      [emits_auto|done].
Qed.

Lemma main_install_needed (a : args) (d : path) w :
  wp (main_install a d) w (fun _ _ t =>
    Exists (fun e => is_call "install_miniconda" e = true) t →
    In conda_missing t).
Proof.
  unfold main_install. apply wp_bind.
  eapply wp_mono; [apply check_conda_missing|].
  intros o w1 t1 [([[|] cp] & -> & Hmiss) Hclean]; cbv beta iota; simpl negb;
    cbv iota.
  - apply (wp_emits (fun e => negb (is_call "install_miniconda" e)));
      [emits_auto|].
    intros o2 w2 t2 Ht2 Hb. exfalso.
    eapply (clean_not_bad _ _ (negb_clean (is_call "install_miniconda")));
      [|exact Hb].
    by apply Forall_app_2.
  - apply (wp_emits (fun _ => true)); [emits_auto|].
    intros o2 w2 t2 _ _. apply in_or_app. left. by apply Hmiss.
Qed.

Lemma main_body_needed (a : args) w :
  wp (main_body a) w (fun _ _ t =>
    Exists (fun e => is_call "install_miniconda" e = true) t →
    In conda_missing t).
Proof.
  unfold main_body.
  do 5 (apply wp_bind;
          apply (wp_emits (fun e => negb (is_call "install_miniconda" e)));
          [solve [emits_auto]|];
          let Hc := fresh "Hclean" in
          intros [?|?|?] ? ? Hc; cbv beta iota;
          [|intros Hb; exfalso;
            eapply (clean_not_bad _ _
                      (negb_clean (is_call "install_miniconda")));
              [|exact Hb]; trace_tac..]).
  eapply wp_mono; [apply main_install_needed|].
  intros o wi ti H1 Hb.
  repeat (apply Exists_app in Hb as [Hb|Hb];
          [exfalso;
           eapply (clean_not_bad _ _
                     (negb_clean (is_call "install_miniconda")));
             [|exact Hb]; eassumption|]).
  repeat (apply in_or_app; right). by apply H1.
Qed.

(** X24: [main] installs Miniconda only when conda is missing: a run
    that calls [install_miniconda] is one in which [check_conda] has
    returned [(False, None)]. *)
Theorem miniconda_only_when_conda_is_missing (a : args) (w : world) :
  In (ECall "install_miniconda") (evs (main a w)) →
  In conda_missing (evs (main a w)).
Proof.
  pose proof (main_body_needed a w) as H. unfold wp in H.
  unfold main. rewrite def_run.
  destruct (out (main_body a w)) as [[]|c|e]; simpl.
  - intros [[=]|Hin]. right.
    apply in_app_or in Hin as [Hin|[[=]|[]]].
    apply in_or_app. left. apply H.
    apply Exists_exists. exists (ECall "install_miniconda").
    split; [by apply list_elem_of_In|done].
  - intros [[=]|Hin]. right. apply H.
    apply Exists_exists. exists (ECall "install_miniconda").
    split; [by apply list_elem_of_In|done].
Qed.

Lemma miniconda_only_when_conda_is_missing_witness :
  In conda_missing (evs (main (Args target false true) miniconda_needed_world)).
Proof.
  apply (miniconda_only_when_conda_is_missing (Args target false true)
           miniconda_needed_world).
  apply In_by_eval. vm_compute. reflexivity.
Defined.

(** ** The pre-flight cleanup and the file system *)

Lemma bind_ext_run {R A B : Type} (m : M R A) (k k' : A → M R B) (w : world) :
  (∀ a w', k a w' = k' a w') → bind m k w = bind m k' w.
Proof. intros H. rewrite !bind_run. destruct (out (m w)); by rewrite ?H. Qed.

(** [main] is its cleanup followed by the installation. *)
Lemma main_body_split (a : args) (w : world) :
  main_body a w
  = (main_cleanup a ;; main_install a (normpath (install_dir a)))%prog w.
Proof.
  unfold main_body, main_cleanup. symmetry.
  do 4 (rewrite bind_assoc_run; apply bind_ext_run; intros ? ?).
  reflexivity.
Qed.

(** Of a directory deleted and then created again, nothing is left but
    the directory. *)
Lemma recreated_lookup (f f1 f2 : files) (d : path) :
  fs_rmtree f d = Some f1 → fs_makedirs f1 d = Some f2 →
  node_at f2 d = Some Dir ∧ ∀ q, d `prefix_of` q → q ≠ d → f2 !! q = None.
Proof.
  intros [Hd ->]%fs_rmtree_Some ->%fs_makedirs_Some. split.
  - destruct d as [|c d]; [done|].
    by apply lookup_mkdirs_in, prefixes_self.
  - intros q Hpre Hq.
    destruct (foldr _ _ _ !! q) as [n|] eqn:Hn; [exfalso|done].
    apply lookup_mkdirs_inv in Hn as [Hn|Hn].
    + apply prefixes_length in Hn. destruct Hpre as [k ->].
      rewrite length_app in Hn. destruct k; [by rewrite app_nil_r in Hq|].
      simpl in Hn. lia.
    + apply map_lookup_filter_Some in Hn as [_ Hn]. by apply Hn.
Qed.

(** What [log] does to the file system, to the letter. *)
Lemma wp_log_exact {R : Type} (message : string) w
    (Q : outcome R unit → world → list event → Prop) :
  (∀ w1 t1, keeps w w1 →
            (w_fs w1 = w_fs w ∨
             ∃ p, LOG_FILE_PATH w = Some p ∧
                  w_fs w1 = <[p := File (text_at (w_fs w) p
                                         +:+ log_line (w_host w) message)]>
                              (w_fs w)) →
            Q (Val tt) w1 t1) →
  wp (log message) w Q.
Proof.
  intros HQ. unfold wp, log, log_. rewrite !bind_run. simpl.
  destruct (LOG_FILE_PATH w) as [p|] eqn:Hp; simpl.
  - rewrite try_except_run. unfold write_file, fs_call.
    pose proof (next_fault_fs w) as Hfs.
    pose proof (next_fault_keeps w) as Hk.
    destruct (next_fault w) as [refused w1]; simpl in Hfs, Hk.
    destruct refused; simpl.
    + apply HQ; [done|by left].
    + destruct (fs_write true (w_fs w1) p _) as [f'|] eqn:Hw; simpl.
      * apply HQ; [done|]. right. exists p. split; [done|]. simpl.
        unfold fs_write in Hw. rewrite Hfs in Hw.
        destruct p as [|c p]; [done|].
        destruct (is_dir_node _); [|done].
        unfold text_at, log_line.
        by destruct (w_fs w !! (c :: p)) as [[old|]|]; simplify_eq/=.
      * apply HQ; [done|by left].
  - apply HQ; [done|by left].
Qed.

Lemma keeps_refl (w : world) : keeps w w.
Proof. by split. Qed.

Ltac keeps_solve :=
  repeat match goal with
  | H : log_rel _ _ |- _ => destruct H as [H _]
  end;
  repeat first
    [ apply keeps_refl
    | eassumption
    | eapply keeps_trans; [eassumption|] ].

Lemma check_conda_keeps {R : Type} w :
  wp (R := R) check_conda w (fun o w' _ => (∃ r, o = Val r) ∧ keeps w w').
Proof.
  unfold check_conda.
  repeat wp_step; (split; [by eexists|keeps_solve]).
Qed.

Ltac rets_tac :=
  repeat lazymatch goal with |- wp (ret _) _ _ => apply wp_ret end.

Lemma main_remove_existing_cleaned (d : path) w :
  LOG_FILE_PATH w = Some (log_file_of d) →
  wp (main_remove_existing d) w (fun o w' _ =>
    o = Val tt → cleaned (w_host w) d (w_fs w')).
Proof.
  intros Hlog. unfold main_remove_existing.
  assert (∀ w1, keeps w w1 →
    wp (try_except
          (rmtree d ;; makedirs d ;;
           log "Deleted all contents of install directory")
          (fun e =>
             log ("Failed to remove existing installation: " +:+ exn_str e) ;;
             log "Please close any applications using AMD AI UX and try again" ;;
             return_ (R := Z) 1))%prog w1
       (fun o w' _ => o = Val tt → cleaned (w_host w) d (w_fs w'))) as Hend.
  { intros w1 [Hhost Hpath]. apply wp_try, wp_bind. unfold rmtree.
    apply wp_fs_call.
    - intros [] w2 Hrm [Hh2 Hp2]. apply wp_bind. unfold makedirs.
      apply wp_fs_call.
      + intros [] w3 Hmk [Hh3 Hp3]. apply wp_log_exact.
        intros w4 t4 _ Hfs _.
        apply fmap_Some in Hrm as (f1 & Hrm & [= Hf1]).
        apply fmap_Some in Hmk as (f2 & Hmk & [= Hf2]).
        subst f1 f2.
        destruct (recreated_lookup _ _ _ _ Hrm Hmk) as [Hd Hgone].
        assert (d ≠ log_file_of d) as Hdl.
        { unfold log_file_of. intros H. apply (f_equal length) in H.
          rewrite length_app in H. simpl in H. lia. }
        assert (w_fs w3 !! log_file_of d = None) as Hnone.
        { apply Hgone; [by eexists|done]. }
        rewrite Hp3, Hp2, Hpath, Hlog, Hh3, Hh2, Hhost in Hfs.
        destruct Hfs as [->|(p & [= <-] & ->)].
        * split_and!; [done| |by left].
          intros q Hq Hqd _. by apply Hgone.
        * split_and!.
          -- destruct d as [|c d]; [done|]. simpl in *.
             by rewrite lookup_insert_ne.
          -- intros q Hq Hqd Hql. rewrite lookup_insert_ne; [|done].
             by apply Hgone.
          -- right. rewrite lookup_insert_eq. unfold text_at.
             by rewrite Hnone.
      + intros e w3 _ _. by repeat wp_step.
    - intros e w2 _ _. by repeat wp_step. }
  apply wp_bind, wp_log. intros w1 t1 [Hk1 _] _ _.
  apply wp_bind, wp_path_exists, wp_bind.
  destruct (bool_decide _); simpl.
  - apply wp_bind.
    eapply wp_mono; [apply check_conda_keeps|].
    intros o w2 t2 [[r ->] Hk2]; cbv beta iota.
    destruct r.1; simpl.
    + apply wp_bind, wp_subprocess_run.
      * intros res w3 Hk3. rets_tac. apply Hend. keeps_solve.
      * by intros e w3 Hk3.
    + rets_tac. apply Hend. keeps_solve.
  - rets_tac. apply Hend. keeps_solve.
Qed.

Lemma main_preflight_cleaned (a : args) (d : path) w :
  yes a = true → nonempty_dir (w_fs w) d →
  LOG_FILE_PATH w = Some (log_file_of d) →
  wp (main_preflight a d) w (fun o w' _ =>
    o = Val tt → cleaned (w_host w) d (w_fs w')).
Proof.
  intros Hyes Hne Hlog. unfold main_preflight.
  rewrite Hyes. simpl negb. cbv iota.
  apply wp_bind, wp_bind, wp_path_exists.
  rewrite bool_decide_eq_true_2 by (rewrite (proj1 Hne); eauto).
  apply wp_bind. unfold listdir. apply wp_fs_call.
  - intros entries w1 Hls [Hh1 Hp1].
    apply fmap_Some in Hls as (l & Hls & [= -> Hfs]).
    pose proof (fs_listdir_nonempty _ _ _ Hne Hls) as Hl.
    apply wp_ret. simpl. destruct l as [|c l]; [done|].
    unfold when at 1.
    apply wp_bind, wp_log. intros w2 t2 [[Hh2 Hp2] _] _ _.
    apply wp_bind, wp_log. intros w3 t3 [[Hh3 Hp3] _] _ _.
    eapply wp_mono; [apply main_remove_existing_cleaned; congruence|].
    intros o w4 t4 H4 Ho. rewrite <- Hh1, <- Hh2, <- Hh3. by apply H4.
  - by intros e w1 _ _.
Qed.

Lemma main_cleanup_cleaned (a : args) w :
  yes a = true → nonempty_dir (w_fs w) (install_dir a) →
  wp (main_cleanup a) w (fun o w' _ =>
    o = Val tt → cleaned (w_host w) (install_dir a) (w_fs w')).
Proof.
  intros Hyes Hne. unfold main_cleanup, normpath.
  apply wp_bind, wp_set_LOG_FILE_PATH, wp_bind. unfold makedirs.
  apply wp_fs_call; [|by intros e w1 _ _].
  intros [] w1 Hmk [Hh1 Hp1].
  apply fmap_Some in Hmk as (f' & Hmk & [= Hf']). simpl in Hmk. subst f'.
  eapply fs_makedirs_nonempty in Hne; [|exact Hmk].
  apply wp_bind, wp_log. intros w2 t2 Hrel2 _ _.
  eapply log_rel_nonempty in Hne; [|exact Hrel2].
  apply wp_bind, wp_log. intros w3 t3 Hrel3 _ _.
  eapply log_rel_nonempty in Hne; [|exact Hrel3].
  destruct Hrel2 as [[Hh2 Hp2] _]. destruct Hrel3 as [[Hh3 Hp3] _].
  eapply wp_mono; [apply (main_preflight_cleaned a _ w3 Hyes Hne)|].
  - rewrite Hp3, Hp2, Hp1. reflexivity.
  - intros o w4 t4 H4 Ho. simpl in Hh1.
    rewrite <- Hh1, <- Hh2, <- Hh3. by apply H4.
Qed.

Lemma main_cleanup_events (a : args) w :
  yes a = true → nonempty_dir (w_fs w) (install_dir a) →
  wp (main_cleanup a) w (fun o _ t =>
    o = Val tt → has_cleanup (install_dir a) t).
Proof.
  intros Hyes Hne. unfold main_cleanup, normpath.
  apply wp_bind, wp_set_LOG_FILE_PATH, wp_bind. unfold makedirs.
  apply wp_fs_call; [|by intros e w1 _ _].
  intros [] w1 Hmk _.
  apply fmap_Some in Hmk as (f' & Hmk & [= Hf']). simpl in Hmk. subst f'.
  eapply fs_makedirs_nonempty in Hne; [|exact Hmk].
  apply wp_bind, wp_log. intros w2 t2 Hrel2 _ _.
  eapply log_rel_nonempty in Hne; [|exact Hrel2].
  apply wp_bind, wp_log. intros w3 t3 Hrel3 _ _.
  eapply log_rel_nonempty in Hne; [|exact Hrel3].
  eapply wp_mono; [by apply main_preflight_cleanup|].
  intros o w4 t4 [_ Hcleanup] Ho.
  specialize (Hcleanup tt Ho []). rewrite app_nil_r in Hcleanup.
  by repeat apply has_cleanup_app_r.
Qed.

Lemma main_cleanup_no_env (a : args) :
  emits (fun e => negb (is_call "create_conda_env" e)) (main_cleanup a).
Proof. emits_auto. Qed.

(** C4: with [--yes] and a non-empty target directory, [main] deletes the
    directory and creates it again before [create_conda_env] runs.  In a
    run that calls [create_conda_env], what comes before the call begins
    with the whole of the cleanup, which has ended normally and in which
    the directory was deleted and, right after that, created again.  And
    a cleanup that ends normally leaves the directory cleaned in the file
    system: it is a directory, and nothing that was in it or below it is
    left; it holds at most the log file, created anew by the message
    about the deletion. *)
Theorem cleanup_precedes_provisioning (a : args) (w : world) :
  yes a = true → nonempty_dir (w_fs w) (install_dir a) →
  let d := install_dir a in
  let r0 := main_cleanup a w in
  (∀ pre post,
     evs (main a w) = pre ++ ECall "create_conda_env" :: post →
     (∃ t1 t2, pre = t1 ++ ERmtree d true :: EMakedirs d true :: t2) ∧
     out r0 = Val tt ∧ ∃ mid, pre = ECall "main" :: evs r0 ++ mid) ∧
  (out r0 = Val tt →
   has_cleanup d (evs r0) ∧ cleaned (w_host w) d (w_fs (st r0))) ∧
  main_body a w = (main_cleanup a ;; main_install a d)%prog w.
Proof.
  intros Hyes Hne. cbv zeta. split_and!; [| |apply main_body_split].
  - intros pre post Hevs. split.
    { pose proof (main_body_cleanup a w Hyes Hne) as Hbody. unfold wp in Hbody.
      assert (preceded (is_call "create_conda_env")
                (has_cleanup (install_dir a)) (evs (main a w))) as Hmain.
      { unfold main. rewrite def_run.
        destruct (out (main_body a w)) as [[]|c|e]; simpl.
        - apply (preceded_wrap _
                   (fun e => negb (is_call "create_conda_env" e)));
            [apply negb_clean|done|done|apply has_cleanup_cons|done].
        - intros pre' e' post' Heq Hb. destruct pre' as [|x pre']; simpl in Heq.
          + by injection Heq as <- _.
          + injection Heq as <- Heq. apply has_cleanup_cons. by eapply Hbody. }
      by eapply Hmain. }
    pose proof (main_cleanup_no_env a w) as Hclean.
    assert (∀ pre' post', evs (main_cleanup a w)
                          = pre' ++ ECall "create_conda_env" :: post' → False)
      as Hnot.
    { intros pre' post' Heq.
      by eapply (clean_no_bad (is_call "create_conda_env") _ (negb_clean _)
                   _ _ _ _ Hclean Heq). }
    revert Hevs. unfold main. rewrite def_run, main_body_split, bind_run.
    remember (main_cleanup a w) as r0 eqn:Hr0. clear Hr0.
    destruct (out r0) as [[]|c|e] eqn:H0; simpl.
    + intros Hevs.
      remember (main_install a (normpath (install_dir a)) (st r0)) as r1 eqn:Hr1.
      clear Hr1.
      assert (∃ tail,
        pre ++ ECall "create_conda_env" :: post
        = ECall "main" :: evs r0 ++ tail) as [tail Htail].
      { destruct (out r1) as [[]|c|e]; simpl in Hevs;
          rewrite <- Hevs; simpl; rewrite <- ?app_assoc; eauto. }
      split; [done|].
      destruct pre as [|x pre]; simpl in Htail; [by injection Htail|].
      injection Htail as -> Htail. symmetry in Htail.
      apply app_eq_split in Htail as [(mid & Heq & _)|(mid & -> & _)].
      * by destruct (Hnot _ _ Heq).
      * by exists mid.
    + intros Hevs. exfalso.
      destruct pre as [|x pre]; simpl in Hevs; [by injection Hevs|].
      injection Hevs as _ Hevs.
      apply app_eq_split in Hevs as [(mid & Heq & _)|(mid & _ & Heq)].
      * by destruct (Hnot _ _ Heq).
      * destruct mid as [|y [|z mid]]; simplify_eq/=.
    + intros Hevs. exfalso.
      destruct pre as [|x pre]; simpl in Hevs; [by injection Hevs|].
      injection Hevs as _ Hevs.
      by destruct (Hnot _ _ Hevs).
  - intros H0. split.
    + by apply (main_cleanup_events a w Hyes Hne).
    + by apply (main_cleanup_cleaned a w Hyes Hne).
Qed.

Lemma cleanup_precedes_provisioning_witness :
  let a := Args target false true in
  let w := env_remove_fails_world in
  let t := evs (main a w) in
  let r0 := main_cleanup a w in
  t = take 32 t ++ ECall "create_conda_env" :: drop 33 t ∧
  (∃ t1 t2, take 32 t = t1 ++ ERmtree target true :: EMakedirs target true :: t2) ∧
  out r0 = Val tt ∧ (∃ mid, take 32 t = ECall "main" :: evs r0 ++ mid) ∧
  has_cleanup target (evs r0) ∧ cleaned linux target (w_fs (st r0)) ∧
  is_Some (w_fs w !! (target ++ [CONDA_ENV_NAME; "python"])) ∧
  w_fs (st r0) !! (target ++ [CONDA_ENV_NAME; "python"]) = None.
Proof.
  cbv zeta.
  assert (nonempty_dir (w_fs env_remove_fails_world) target) as Hne.
  { split; [vm_compute; reflexivity|].
    exists CONDA_ENV_NAME, Dir. vm_compute. reflexivity. }
  assert (evs (main (Args target false true) env_remove_fails_world) =
          take 32 (evs (main (Args target false true) env_remove_fails_world))
          ++ ECall "create_conda_env"
          :: drop 33 (evs (main (Args target false true) env_remove_fails_world)))
    as Hevs by (vm_compute; reflexivity).
  destruct (cleanup_precedes_provisioning (Args target false true)
              env_remove_fails_world eq_refl Hne) as (Hpre & Hst & _).
  destruct (Hpre _ _ Hevs) as (Hcl & Hout & Hmid).
  destruct (Hst Hout) as (Hhas & Hcleaned).
  split_and!; [exact Hevs|exact Hcl|exact Hout|exact Hmid|exact Hhas
              |exact Hcleaned|vm_compute; eauto|].
  destruct Hcleaned as (_ & Hgone & _). apply Hgone.
  - by exists [CONDA_ENV_NAME; "python"].
  - discriminate.
  - discriminate.
Defined.
